(** * Apna Cart: a shallow embedding of [app.py]

    The application is a set of Flask request handlers over one SQLite
    database.  The embedding follows the source handler by handler:

    - a table is the list of its rows in rowid order, a row is a record with
      the columns of its [CREATE TABLE];
    - numbers are integers, [Z].  Python integers are unbounded, SQLite
      stores an INTEGER in 64 bits: binding a Python integer outside that
      range to a statement raises [OverflowError], which the handlers of the
      model do as well.  Where SQLite itself computes ([quantity + 1],
      [price * quantity]) it turns a result outside the range into a REAL, a
      floating-point number, and the model has no such numbers: it follows
      the program on the databases whose numbers are INTEGERs ([integral])
      and as long as these results stay within the range, and the properties
      that depend on these numbers say so in their hypotheses;
    - a handler is a computation in a small monad [M] that threads the
      connection (the committed database and the pending transaction), the
      session, the flashed messages and a fault plan, and that can raise;
    - [serve] runs a handler as one request: it opens the connection, runs
      the handler and closes the connection as [close_db] does, which drops
      whatever was not committed. *)

From Stdlib Require Import ZArith List String Ascii Bool Lia Permutation Sorted.
Import ListNotations.
Local Open Scope string_scope.
Local Open Scope list_scope.
Local Open Scope Z_scope.

(** ** Strings *)

(** [str.isspace] on the code points below 256 (a character of [string] is
    read as the code point of the same number). *)
Definition isspace (c : ascii) : bool :=
  let n := Z.of_nat (nat_of_ascii c) in
  ((9 <=? n) && (n <=? 13)) || ((28 <=? n) && (n <=? 32))
  || (n =? 133) || (n =? 160).

Fixpoint lstrip (s : string) : string :=
  match s with
  | EmptyString => EmptyString
  | String c r => if isspace c then lstrip r else s
  end.

Fixpoint rstrip (s : string) : string :=
  match s with
  | EmptyString => EmptyString
  | String c r =>
      match rstrip r with
      | EmptyString => if isspace c then EmptyString else String c EmptyString
      | r' => String c r'
      end
  end.

(** [str.strip()] without argument. *)
Definition strip (s : string) : string := rstrip (lstrip s).

(** Python truth value of a string: only the empty string is false. *)
Definition str_truthy (s : string) : bool :=
  match s with EmptyString => false | _ => true end.

(** ** Tables *)

Record user_row := mk_user
  { u_id : Z; u_username : string; u_email : option string; u_password : string }.

Record product_row := mk_product
  { p_id : Z; p_name : string; p_price : Z; p_image : option string }.

Record cart_row := mk_cart
  { c_id : Z; c_user_id : Z; c_product_id : Z; c_quantity : Z }.

Record order_row := mk_order
  { o_id : Z; o_user_id : Z; o_total_amount : Z; o_created_at : Z }.

Record order_item_row := mk_order_item
  { oi_id : Z; oi_order_id : Z; oi_product_id : Z;
    oi_quantity : Z; oi_price_each : Z }.

(** The database: the five tables of [init_db], and for each of them the
    AUTOINCREMENT counter (the largest rowid the table ever had). *)
Record db := mk_db
  { t_users : list user_row;             seq_users : Z;
    t_products : list product_row;       seq_products : Z;
    t_cart : list cart_row;              seq_cart : Z;
    t_orders : list order_row;           seq_orders : Z;
    t_order_items : list order_item_row; seq_order_items : Z }.

Definition empty_db : db := mk_db [] 0 [] 0 [] 0 [] 0 [] 0.

Definition set_users (d : db) (l : list user_row) (n : Z) : db :=
  mk_db l n (t_products d) (seq_products d) (t_cart d) (seq_cart d)
        (t_orders d) (seq_orders d) (t_order_items d) (seq_order_items d).

Definition set_products (d : db) (l : list product_row) (n : Z) : db :=
  mk_db (t_users d) (seq_users d) l n (t_cart d) (seq_cart d)
        (t_orders d) (seq_orders d) (t_order_items d) (seq_order_items d).

Definition set_cart (d : db) (l : list cart_row) (n : Z) : db :=
  mk_db (t_users d) (seq_users d) (t_products d) (seq_products d) l n
        (t_orders d) (seq_orders d) (t_order_items d) (seq_order_items d).

Definition set_orders (d : db) (l : list order_row) (n : Z) : db :=
  mk_db (t_users d) (seq_users d) (t_products d) (seq_products d)
        (t_cart d) (seq_cart d) l n (t_order_items d) (seq_order_items d).

Definition set_order_items (d : db) (l : list order_item_row) (n : Z) : db :=
  mk_db (t_users d) (seq_users d) (t_products d) (seq_products d)
        (t_cart d) (seq_cart d) (t_orders d) (seq_orders d) l n.

(** ** Exceptions, session, replies *)

Inductive exn :=
| IntegrityError      (* sqlite3.IntegrityError: a constraint is violated *)
| OperationalError    (* sqlite3.OperationalError: the store is unavailable *)
| ValueError          (* int() on a string that is no integer *)
| OverflowError.      (* a Python int too large to convert to SQLite INTEGER *)

(** The two keys the application keeps in the Flask session. *)
Record session := mk_session
  { s_user_id : option Z; s_username : option string }.

Definition anonymous : session := mk_session None None.

Inductive method := GET | POST.

Inductive endpoint :=
| EpHome | EpLogin | EpCart | EpContact
| EpThankYou (order_id : Z).

(** A row of the cart page. *)
Record cart_view_row := mk_cart_view
  { v_product_id : Z; v_name : string; v_price : Z;
    v_image : option string; v_quantity : Z; v_subtotal : Z }.

(** A row of the checkout page. *)
Record checkout_view_row := mk_checkout_view
  { k_name : string; k_price : Z; k_quantity : Z; k_subtotal : Z }.

(** A row that checkout reads: product id, unit price, quantity. *)
Record item_row := mk_item
  { i_product_id : Z; i_price : Z; i_quantity : Z }.

(** What a template is rendered with. *)
Inductive context :=
| CtxNone
| CtxProducts (rows : list product_row)
| CtxCart (items : list cart_view_row) (total : Z)
| CtxCheckout (items : list checkout_view_row) (total : Z)
| CtxOrder (order_id : Z).

(** [request.form]: the fields the handlers read.  A text field is absent
    or a string; of the quantity field only what [int] makes of it is
    kept. *)
Inductive int_field :=
| IntOf (z : Z)      (* a string that int() reads as z *)
| NotInt.            (* a string on which int() raises ValueError *)

Record form := mk_form
  { f_username : option string; f_email : option string;
    f_password : option string; f_quantity : option int_field }.

(** [request.form.get(key, default)]. *)
Definition form_get {A} (field : option A) (default : A) : A :=
  match field with Some v => v | None => default end.

Inductive reply :=
| Render (template : string) (ctx : context)
| RedirectTo (target : endpoint)
| Json (ok : bool) (redirect : option endpoint) (code : Z)
| JsonProducts (rows : list product_row)
| ServerError (e : exn).      (* an exception nobody caught: HTTP 500 *)

(** A flashed message: text and category. *)
Definition flash_msg : Type := string * string.

(** ** The request monad *)

(** [w_disk] is the committed database, the one every other connection
    sees; [w_txn] is the pending transaction of this connection, if one is
    open.  [w_fault] is the fault plan: [Some n] makes the store call
    number [n] from now raise [OperationalError], [None] lets all pass. *)
Record world := mk_world
  { w_disk : db; w_txn : option db; w_fault : option nat;
    w_session : session; w_flashes : list flash_msg; w_now : Z }.

Inductive res (A : Type) :=
| Ok (a : A)
| Raise (e : exn).
Arguments Ok {A} a.
Arguments Raise {A} e.

Definition M (A : Type) : Type := world -> res A * world.

Definition ret {A} (a : A) : M A := fun w => (Ok a, w).

Definition bind {A B} (m : M A) (k : A -> M B) : M B :=
  fun w => match m w with
           | (Ok a, w') => k a w'
           | (Raise e, w') => (Raise e, w')
           end.

Definition raise {A} (e : exn) : M A := fun w => (Raise e, w).

Notation "x <- m ;; k" := (bind m (fun x => k))
  (at level 61, m at next level, right associativity).
Notation "m ;; k" := (bind m (fun _ => k))
  (at level 61, right associativity).

(** [try: body except sqlite3.IntegrityError: handler]. *)
Definition except_integrity {A} (body handler : M A) : M A :=
  fun w => match body w with
           | (Raise IntegrityError, w') => handler w'
           | r => r
           end.

Definition with_txn (w : world) (t : option db) : world :=
  mk_world (w_disk w) t (w_fault w) (w_session w) (w_flashes w) (w_now w).

Definition with_fault (w : world) (f : option nat) : world :=
  mk_world (w_disk w) (w_txn w) f (w_session w) (w_flashes w) (w_now w).

Definition with_session (w : world) (s : session) : world :=
  mk_world (w_disk w) (w_txn w) (w_fault w) s (w_flashes w) (w_now w).

(** The database as this connection sees it. *)
Definition view (w : world) : db :=
  match w_txn w with Some t => t | None => w_disk w end.

(** Every call into the store passes here first. *)
Definition store_call : M unit :=
  fun w => match w_fault w with
           | None => (Ok tt, w)
           | Some O => (Raise OperationalError, with_fault w None)
           | Some (S n) => (Ok tt, with_fault w (Some n))
           end.

(** A SELECT: reads the connection's view, opens no transaction. *)
Definition query {A} (q : db -> A) : M A :=
  store_call ;; fun w => (Ok (q (view w)), w).

(** An INSERT, UPDATE or DELETE: the sqlite3 module opens a transaction
    before the statement when none is open; a statement that fails leaves
    the transaction open and the data as they were. *)
Definition dml {A} (stmt : db -> exn + (A * db)) : M A :=
  store_call ;;
  fun w => match stmt (view w) with
           | inr (a, d') => (Ok a, with_txn w (Some d'))
           | inl e => (Raise e, with_txn w (Some (view w)))
           end.

(** The range of SQLite's INTEGER, a signed integer of 64 bits. *)
Definition max_int : Z := 9223372036854775807.

Definition min_int : Z := -9223372036854775808.

Definition sqlite_int (z : Z) : bool := (min_int <=? z) && (z <=? max_int).

(** Whether the sqlite3 module can bind these Python integers to the
    question marks of a statement. *)
Definition bindable (params : list Z) : bool := forallb sqlite_int params.

(** [db.execute(sql, params)] for a SELECT with integers of the request
    among its parameters: the statement is prepared, then the parameters are
    bound, and one that SQLite cannot hold raises [OverflowError].  The user
    id of the session is not listed: it is a rowid that login read from the
    store. *)
Definition query_with {A} (params : list Z) (q : db -> A) : M A :=
  store_call ;;
  fun w => if bindable params
           then (Ok (q (view w)), w)
           else (Raise OverflowError, w).

(** The same for an INSERT, UPDATE or DELETE; the transaction is opened
    before the parameters are bound. *)
Definition dml_with {A} (params : list Z) (stmt : db -> exn + (A * db)) : M A :=
  store_call ;;
  fun w => if bindable params
           then match stmt (view w) with
                | inr (a, d') => (Ok a, with_txn w (Some d'))
                | inl e => (Raise e, with_txn w (Some (view w)))
                end
           else (Raise OverflowError, with_txn w (Some (view w))).

(** [db.commit()]. *)
Definition commit : M unit :=
  store_call ;;
  fun w => match w_txn w with
           | Some t =>
               (Ok tt, mk_world t None (w_fault w) (w_session w)
                                (w_flashes w) (w_now w))
           | None => (Ok tt, w)
           end.

(** [cursor.executemany(sql, rows)]: the statement once per row. *)
Fixpoint executemany {A} (stmt : A -> db -> exn + (unit * db)) (rows : list A)
  : M unit :=
  match rows with
  | [] => ret tt
  | r :: rest => dml (stmt r) ;; executemany stmt rest
  end.

Definition flash (message category : string) : M unit :=
  fun w => (Ok tt, mk_world (w_disk w) (w_txn w) (w_fault w) (w_session w)
                            (w_flashes w ++ [(message, category)]) (w_now w)).

Definition get_session : M session := fun w => (Ok (w_session w), w).

Definition put_session (s : session) : M unit :=
  fun w => (Ok tt, with_session w s).

Definition clock : M Z := fun w => (Ok (w_now w), w).

(** What one request leaves behind. *)
Record outcome := mk_outcome
  { out_db : db; out_session : session;
    out_flashes : list flash_msg; out_reply : reply }.

(** What one request starts from, besides the database. *)
Record env := mk_env
  { e_session : session; e_now : Z; e_fault : option nat }.

(** [get_db] on a fresh application context: a new connection, no
    transaction open. *)
Definition connect (e : env) (d : db) : world :=
  mk_world d None (e_fault e) (e_session e) [] (e_now e).

(** One request: [get_db] connects, the handler runs, [close_db] closes the
    connection without committing, so an open transaction is rolled back;
    an exception that reaches Flask becomes a 500 reply. *)
Definition serve (h : M reply) (e : env) (d : db) : outcome :=
  match h (connect e d) with
  | (Ok r, w) => mk_outcome (w_disk w) (w_session w) (w_flashes w) r
  | (Raise x, w) =>
      mk_outcome (w_disk w) (w_session w) (w_flashes w) (ServerError x)
  end.

(** ** The SQL statements of the application *)

(** Stable insertion sort, for ORDER BY. *)
Fixpoint insert_by {A} (le : A -> A -> bool) (x : A) (l : list A) : list A :=
  match l with
  | [] => [x]
  | y :: r => if le x y then x :: l else y :: insert_by le x r
  end.

Definition order_by {A} (le : A -> A -> bool) (l : list A) : list A :=
  fold_right (insert_by le) [] l.

(** SELECT id, name, price, image FROM products ORDER BY id *)
Definition select_products (d : db) : list product_row :=
  order_by (fun a b => p_id a <=? p_id b) (t_products d).

(** INSERT INTO users (username, email, password) VALUES (?, ?, ?), under
    UNIQUE(username) and UNIQUE(email); a NULL email clashes with none. *)
Definition insert_user (username email password : string) (d : db)
  : exn + (unit * db) :=
  if existsb (fun u => String.eqb (u_username u) username) (t_users d)
     || existsb (fun u => match u_email u with
                          | Some e => String.eqb e email
                          | None => false
                          end) (t_users d)
  then inl IntegrityError
  else
    let id := seq_users d + 1 in
    inr (tt, set_users d
               (t_users d ++ [mk_user id username (Some email) password]) id).

(** SELECT id, username FROM users WHERE username=? AND password=?,
    first row. *)
Definition select_user (username password : string) (d : db)
  : option (Z * string) :=
  match find (fun u => String.eqb (u_username u) username
                       && String.eqb (u_password u) password) (t_users d) with
  | Some u => Some (u_id u, u_username u)
  | None => None
  end.

Definition cart_line_of (uid pid : Z) (c : cart_row) : bool :=
  (c_user_id c =? uid) && (c_product_id c =? pid).

(** SELECT quantity FROM cart WHERE user_id=? AND product_id=?, first row
    (the product id is bound by [query_with] in the handler). *)
Definition select_quantity (uid pid : Z) (d : db) : option Z :=
  match find (cart_line_of uid pid) (t_cart d) with
  | Some c => Some (c_quantity c)
  | None => None
  end.

(** UPDATE cart SET quantity = quantity + 1 WHERE user_id=? AND product_id=?
    (the product id is bound by [dml_with] in the handler).  The sum is that
    of SQLite as long as it is at most [max_int]; beyond, SQLite stores a
    REAL. *)
Definition update_quantity_plus_one (uid pid : Z) (d : db)
  : exn + (unit * db) :=
  inr (tt, set_cart d
             (map (fun c => if cart_line_of uid pid c
                            then mk_cart (c_id c) (c_user_id c)
                                         (c_product_id c) (c_quantity c + 1)
                            else c) (t_cart d))
             (seq_cart d)).

(** INSERT INTO cart (user_id, product_id, quantity) VALUES (?, ?, 1), under
    UNIQUE(user_id, product_id).  The foreign keys of the table are
    declared, and never enforced: no connection turns them on. *)
Definition insert_cart (uid pid : Z) (d : db) : exn + (unit * db) :=
  if existsb (cart_line_of uid pid) (t_cart d)
  then inl IntegrityError
  else
    let id := seq_cart d + 1 in
    inr (tt, set_cart d (t_cart d ++ [mk_cart id uid pid 1]) id).

(** DELETE FROM cart WHERE user_id=? AND product_id=? *)
Definition delete_cart_line (uid pid : Z) (d : db) : exn + (unit * db) :=
  inr (tt, set_cart d
             (filter (fun c => negb (cart_line_of uid pid c)) (t_cart d))
             (seq_cart d)).

(** UPDATE cart SET quantity=? WHERE user_id=? AND product_id=? (quantity
    and product id are bound by [dml_with] in the handler). *)
Definition update_quantity (qty uid pid : Z) (d : db) : exn + (unit * db) :=
  inr (tt, set_cart d
             (map (fun c => if cart_line_of uid pid c
                            then mk_cart (c_id c) (c_user_id c)
                                         (c_product_id c) qty
                            else c) (t_cart d))
             (seq_cart d)).

(** DELETE FROM cart WHERE user_id=? *)
Definition delete_cart (uid : Z) (d : db) : exn + (unit * db) :=
  inr (tt, set_cart d
             (filter (fun c => negb (c_user_id c =? uid)) (t_cart d))
             (seq_cart d)).

(** The cart rows with [user_id = ?] as SQLite finds them: through the
    index of UNIQUE(user_id, product_id), that is in ascending product id
    (the queries below have no ORDER BY on the cart, and this is the order
    they come in). *)
Definition cart_index (uid : Z) (d : db) : list cart_row :=
  order_by (fun a b => c_product_id a <=? c_product_id b)
           (filter (fun c => c_user_id c =? uid) (t_cart d)).

(** FROM cart c JOIN products p ON p.id = c.product_id WHERE c.user_id=?:
    the pairs of a cart row of the user and the product row it names, the
    cart rows in the order of the index. *)
Definition cart_join (uid : Z) (d : db) : list (cart_row * product_row) :=
  flat_map
    (fun c => map (fun p => (c, p))
                  (filter (fun p => p_id p =? c_product_id c) (t_products d)))
    (cart_index uid d).

(** SELECT c.product_id, p.price, c.quantity FROM cart c JOIN products p ... *)
Definition select_items (uid : Z) (d : db) : list item_row :=
  map (fun cp => mk_item (c_product_id (fst cp)) (p_price (snd cp))
                         (c_quantity (fst cp)))
      (cart_join uid d).

(** SELECT c.product_id, p.name, p.price, p.image, c.quantity,
    (p.price * c.quantity) AS subtotal ... ORDER BY p.name.  The subtotal
    is that of SQLite as long as it is within the range of INTEGER; beyond,
    SQLite gives a REAL. *)
Definition select_cart_view (uid : Z) (d : db) : list cart_view_row :=
  order_by (fun a b => String.leb (v_name a) (v_name b))
    (map (fun cp => mk_cart_view
                      (c_product_id (fst cp)) (p_name (snd cp))
                      (p_price (snd cp)) (p_image (snd cp))
                      (c_quantity (fst cp))
                      (p_price (snd cp) * c_quantity (fst cp)))
         (cart_join uid d)).

(** SELECT p.name, p.price, c.quantity, (p.price*c.quantity) AS subtotal ...
    (the subtotal as in [select_cart_view]). *)
Definition select_checkout_view (uid : Z) (d : db) : list checkout_view_row :=
  map (fun cp => mk_checkout_view
                   (p_name (snd cp)) (p_price (snd cp)) (c_quantity (fst cp))
                   (p_price (snd cp) * c_quantity (fst cp)))
      (cart_join uid d).

(** INSERT INTO orders (user_id, total_amount) VALUES (?, ?); [created_at]
    takes its default, the time of the store.  Gives [cur.lastrowid].  (The
    total is bound by [dml_with] in the handler.) *)
Definition insert_order (uid total now : Z) (d : db) : exn + (Z * db) :=
  let id := seq_orders d + 1 in
  inr (id, set_orders d (t_orders d ++ [mk_order id uid total now]) id).

(** INSERT INTO order_items (order_id, product_id, quantity, price_each)
    VALUES (?, ?, ?, ?) *)
Definition insert_order_item (row : Z * Z * Z * Z) (d : db)
  : exn + (unit * db) :=
  let '(order_id, product_id, quantity, price_each) := row in
  let id := seq_order_items d + 1 in
  inr (tt, set_order_items d
             (t_order_items d
              ++ [mk_order_item id order_id product_id quantity price_each])
             id).

(** INSERT INTO products (name, price, image) VALUES (?, ?, ?) *)
Definition insert_product (row : string * Z * string) (d : db)
  : exn + (unit * db) :=
  let '(name, price, image) := row in
  let id := seq_products d + 1 in
  inr (tt, set_products d
             (t_products d ++ [mk_product id name price (Some image)]) id).

(** SELECT COUNT( * ) AS c FROM products *)
Definition count_products (d : db) : Z := Z.of_nat (List.length (t_products d)).

(** ** The handlers *)

(** [sum(...)] of Python over integers: from 0, left to right, without
    bound.  (Python adds in floating point once a term is a float, which a
    number read from the store is when SQLite holds it as a REAL.) *)
Definition py_sum (l : list Z) : Z := fold_left Z.add l 0.

(** A statement on the schema (CREATE TABLE IF NOT EXISTS, PRAGMA): a call
    into the store that touches no row. *)
Definition ddl : M unit := store_call.

(** The starter catalog of [init_db]. *)
Definition starter_catalog : list (string * Z * string) :=
  [ ("Tomato-1 Kg", 200, "img/tomato.jpeg");
    ("Beans-1 Kg", 100, "img/beans.jpeg");
    ("Brinjal-1 Kg", 60, "img/brinjal.jpeg");
    ("Potato-1 Kg", 50, "img/potato.jpeg");
    ("Cabbage-1 Kg", 40, "img/Cabbage.jpg");
    ("Onion-1 Kg", 70, "img/onion.jpg");
    ("Cauliflower-1 Pc", 55, "img/cauliflower.jpg");
    ("Lemon-6 Pc", 30, "img/lemon.jpg") ].

(** [init_db], on a database file whose [products] table has its [image]
    column (the rows of the model always carry it, so the migration has
    nothing to add): the five CREATE TABLE, the PRAGMA of [column_exists],
    then the seeding of an empty catalog. *)
Definition init_db : M unit :=
  ddl ;; ddl ;; ddl ;; ddl ;; ddl ;; ddl ;;
  count <- query count_products ;;
  (if count =? 0 then executemany insert_product starter_catalog else ret tt) ;;
  commit.

Definition current_user_id : M (option Z) :=
  s <- get_session ;; ret (s_user_id s).

(** [if not current_user_id(): return denied], then the rest of the handler
    with the user id; [None] and [0] are the false values. *)
Definition login_required (denied : M reply) (k : Z -> M reply) : M reply :=
  uid <- current_user_id ;;
  match uid with
  | None => denied
  | Some u => if u =? 0 then denied else k u
  end.

Definition home : M reply :=
  products <- query select_products ;;
  ret (Render "index.html" (CtxProducts products)).

Definition signup (m : method) (f : form) : M reply :=
  match m with
  | POST =>
      let username := strip (form_get (f_username f) "") in
      let email := strip (form_get (f_email f) "") in
      let password := strip (form_get (f_password f) "") in
      if negb (str_truthy username) || negb (str_truthy password) then
        flash "Username and password are required." "error" ;;
        ret (Render "signup.html" CtxNone)
      else
        except_integrity
          (dml (insert_user username email password) ;;
           commit ;;
           flash "Signup successful. Please log in." "success" ;;
           ret (RedirectTo EpLogin))
          (flash "Username or email already exists." "error" ;;
           ret (Render "signup.html" CtxNone))
  | GET => ret (Render "signup.html" CtxNone)
  end.

Definition login (m : method) (f : form) : M reply :=
  match m with
  | POST =>
      let username := strip (form_get (f_username f) "") in
      let password := strip (form_get (f_password f) "") in
      user <- query (select_user username password) ;;
      match user with
      | Some (id, name) =>
          put_session (mk_session (Some id) (Some name)) ;;
          flash "Logged in." "success" ;;
          ret (RedirectTo EpHome)
      | None =>
          flash "Invalid credentials." "error" ;;
          ret (Render "login.html" CtxNone)
      end
  | GET => ret (Render "login.html" CtxNone)
  end.

Definition logout : M reply :=
  put_session anonymous ;;
  flash "Logged out." "info" ;;
  ret (RedirectTo EpHome).

Definition cart : M reply :=
  login_required (ret (RedirectTo EpLogin)) (fun uid =>
    items <- query (select_cart_view uid) ;;
    let total := match items with
                 | [] => 0
                 | _ => py_sum (map v_subtotal items)
                 end in
    ret (Render "cart.html" (CtxCart items total))).

Definition add_to_cart (product_id : Z) : M reply :=
  login_required (ret (Json false (Some EpLogin) 401)) (fun uid =>
    row <- query_with [product_id] (select_quantity uid product_id) ;;
    match row with
    | Some _ => dml_with [product_id] (update_quantity_plus_one uid product_id)
    | None => dml_with [product_id] (insert_cart uid product_id)
    end ;;
    commit ;;
    ret (Json true None 200)).

(** [int(request.form.get("quantity", 1))]. *)
Definition int_of_quantity (f : form) : M Z :=
  match form_get (f_quantity f) (IntOf 1) with
  | IntOf z => ret z
  | NotInt => raise ValueError
  end.

Definition update_cart (product_id : Z) (f : form) : M reply :=
  login_required (ret (Json false (Some EpLogin) 401)) (fun uid =>
    qty <- int_of_quantity f ;;
    let qty := Z.max 0 qty in
    (if qty =? 0
     then dml_with [product_id] (delete_cart_line uid product_id)
     else dml_with [qty; product_id] (update_quantity qty uid product_id)) ;;
    commit ;;
    ret (Json true None 200)).

Definition clear_cart : M reply :=
  login_required (ret (Json false None 401)) (fun uid =>
    dml (delete_cart uid) ;;
    commit ;;
    ret (Json true None 200)).

(** The order items [checkout] writes for the rows it read. *)
Definition order_item_params (order_id : Z) (items : list item_row)
  : list (Z * Z * Z * Z) :=
  map (fun i => (order_id, i_product_id i, i_quantity i, i_price i)) items.

Definition checkout (m : method) : M reply :=
  login_required (ret (RedirectTo EpLogin)) (fun uid =>
    match m with
    | POST =>
        items <- query (select_items uid) ;;
        match items with
        | [] =>
            flash "Cart is empty." "error" ;;
            ret (RedirectTo EpCart)
        | _ =>
            let total := py_sum (map (fun i => i_price i * i_quantity i) items) in
            now <- clock ;;
            order_id <- dml_with [total] (insert_order uid total now) ;;
            executemany insert_order_item (order_item_params order_id items) ;;
            dml (delete_cart uid) ;;
            commit ;;
            ret (RedirectTo (EpThankYou order_id))
        end
    | GET =>
        items <- query (select_checkout_view uid) ;;
        let total := match items with
                     | [] => 0
                     | _ => py_sum (map k_subtotal items)
                     end in
        ret (Render "checkout.html" (CtxCheckout items total))
    end).

Definition thank_you (order_id : Z) : M reply :=
  ret (Render "ThankYou.html" (CtxOrder order_id)).

Definition contact (m : method) : M reply :=
  match m with
  | POST =>
      flash "Message sent. We'll get back soon." "success" ;;
      ret (RedirectTo EpContact)
  | GET => ret (Render "contact.html" CtxNone)
  end.

Definition pay : M reply := ret (Render "paym.html" CtxNone).

Definition api_products : M reply :=
  rows <- query select_products ;;
  ret (JsonProducts rows).

(** ** The application as a transition system *)

(** The routes; a route declared with [app.post] has no method to choose. *)
Inductive request :=
| ReqHome
| ReqSignup (m : method) (f : form)
| ReqLogin (m : method) (f : form)
| ReqLogout
| ReqCart
| ReqAddToCart (product_id : Z)
| ReqUpdateCart (product_id : Z) (f : form)
| ReqClearCart
| ReqCheckout (m : method)
| ReqThankYou (order_id : Z)
| ReqContact (m : method)
| ReqPay
| ReqApiProducts.

Definition dispatch (r : request) : M reply :=
  match r with
  | ReqHome => home
  | ReqSignup m f => signup m f
  | ReqLogin m f => login m f
  | ReqLogout => logout
  | ReqCart => cart
  | ReqAddToCart p => add_to_cart p
  | ReqUpdateCart p f => update_cart p f
  | ReqClearCart => clear_cart
  | ReqCheckout m => checkout m
  | ReqThankYou o => thank_you o
  | ReqContact m => contact m
  | ReqPay => pay
  | ReqApiProducts => api_products
  end.

(** What happens to the database: the start of the program, which runs
    [init_db] in an application context of its own, or a request. *)
Inductive event :=
| Startup
| Request (r : request).

Definition step (ev : event) (e : env) (d : db) : db :=
  match ev with
  | Startup => w_disk (snd (init_db (connect e d)))
  | Request r => out_db (serve (dispatch r) e d)
  end.

(** A move of the whole system: the application takes a step, or somebody
    edits a price in the catalog from outside (the application has no route
    that does). *)
Inductive move :=
| App (ev : event) (e : env)
| Reprice (product_id price : Z).

Definition reprice (pid price : Z) (d : db) : db :=
  set_products d
    (map (fun p => if p_id p =? pid
                   then mk_product (p_id p) (p_name p) price (p_image p)
                   else p) (t_products d))
    (seq_products d).

Definition apply_move (d : db) (m : move) : db :=
  match m with
  | App ev e => step ev e d
  | Reprice pid price => reprice pid price d
  end.

(** The moves of a history, oldest first. *)
Definition run (ms : list move) (d : db) : db := fold_left apply_move ms d.

(** ** Notions the properties are stated with *)

(** The numbers SQLite computes with, the quantities of the cart and the
    prices of the catalog, are INTEGERs. *)
Definition integral (d : db) : Prop :=
  Forall (fun c => sqlite_int (c_quantity c) = true) (t_cart d)
  /\ Forall (fun p => sqlite_int (p_price p) = true) (t_products d).

(** The databases of a history: the one it starts from and the one after
    each move. *)
Fixpoint trace (ms : list move) (d : db) : list db :=
  match ms with
  | [] => [d]
  | m :: rest => d :: trace rest (apply_move d m)
  end.

(** The session is that of user [uid]. *)
Definition logged_in (e : env) (uid : Z) : Prop :=
  s_user_id (e_session e) = Some uid /\ uid <> 0.

(** The cart lines of a user. *)
Definition cart_lines (uid : Z) (d : db) : list cart_row :=
  filter (fun c => c_user_id c =? uid) (t_cart d).

(** The unit price the catalog has for a product id, if it has the
    product. *)
Definition catalog_price (d : db) (pid : Z) : option Z :=
  match find (fun p => p_id p =? pid) (t_products d) with
  | Some p => Some (p_price p)
  | None => None
  end.

(** The form of a set-quantity request. *)
Definition quantity_form (q : Z) : form := mk_form None None None (Some (IntOf q)).

(** The failure replies, as the user sees them. *)
Definition EmptyCart (e : env) (d : db) : outcome :=
  mk_outcome d (e_session e) [("Cart is empty.", "error")] (RedirectTo EpCart).

Definition DuplicateIdentity (e : env) (d : db) : outcome :=
  mk_outcome d (e_session e) [("Username or email already exists.", "error")]
             (Render "signup.html" CtxNone).

Definition InvalidCredentials (e : env) (d : db) : outcome :=
  mk_outcome d (e_session e) [("Invalid credentials.", "error")]
             (Render "login.html" CtxNone).

(** The constraints of the schema and of the handlers on the stored rows. *)
Definition catalog_ok (d : db) : Prop := NoDup (map p_id (t_products d)).

Definition line_key (c : cart_row) : Z * Z := (c_user_id c, c_product_id c).

Definition cart_ok (d : db) : Prop :=
  NoDup (map line_key (t_cart d))
  /\ Forall (fun c => 1 <= c_quantity c) (t_cart d).

Definition orders_ok (d : db) : Prop :=
  Forall (fun o => o_id o <= seq_orders d) (t_orders d)
  /\ Forall (fun oi => oi_order_id oi <= seq_orders d) (t_order_items d).

Definition db_ok (d : db) : Prop := catalog_ok d /\ cart_ok d /\ orders_ok d.

(** The order items [executemany] writes for the rows of an order, with the
    ids the counter gives them. *)
Fixpoint numbered_items (seq order_id : Z) (items : list item_row)
  : list order_item_row :=
  match items with
  | [] => []
  | i :: rest =>
      mk_order_item (seq + 1) order_id (i_product_id i) (i_quantity i)
                    (i_price i)
      :: numbered_items (seq + 1) order_id rest
  end.

(** The database a checkout of user [uid] commits at time [now]. *)
Definition checkout_db (uid now : Z) (d : db) : db :=
  let items := select_items uid d in
  let order_id := seq_orders d + 1 in
  mk_db (t_users d) (seq_users d) (t_products d) (seq_products d)
        (filter (fun c => negb (c_user_id c =? uid)) (t_cart d)) (seq_cart d)
        (t_orders d
         ++ [mk_order order_id uid
                      (py_sum (map (fun i => i_price i * i_quantity i) items))
                      now])
        order_id
        (t_order_items d ++ numbered_items (seq_order_items d) order_id items)
        (seq_order_items d + Z.of_nat (List.length items)).

(** The database a statement leaves when it is committed, the database as
    it was when the statement fails. *)
Definition committed {A} (r : exn + (A * db)) (d : db) : db :=
  match r with
  | inr (_, d') => d'
  | inl _ => d
  end.

(** The quantity [update_cart] works with. *)
Definition quantity_of (f : form) : option Z :=
  match form_get (f_quantity f) (IntOf 1) with
  | IntOf z => Some (Z.max 0 z)
  | NotInt => None
  end.

(** The catalog after the seeding of [init_db]. *)
Definition seed (d : db) : db :=
  fold_left (fun t row => committed (insert_product row t) t) starter_catalog d.

(** The order total in the words of the specification: over the cart lines
    of the user, the unit price the catalog has now times the quantity of
    the line; a line whose product the catalog lacks has no price and adds
    nothing. *)
Definition line_amount (d : db) (c : cart_row) : Z :=
  match catalog_price d (c_product_id c) with
  | Some price => price * c_quantity c
  | None => 0
  end.

Definition cart_total (uid : Z) (d : db) : Z :=
  fold_right Z.add 0 (map (line_amount d) (cart_lines uid d)).

(** The row checkout reads for a cart line, when the catalog has one
    product of its id: none for a line whose product the catalog lacks. *)
Definition priced_line (d : db) (c : cart_row) : list item_row :=
  match catalog_price d (c_product_id c) with
  | Some price => [mk_item (c_product_id c) price (c_quantity c)]
  | None => []
  end.

(** A cart line whose product id names a product of the catalog. *)
Definition in_catalog (d : db) (c : cart_row) : bool :=
  existsb (fun p => p_id p =? c_product_id c) (t_products d).

(** What the order items are to record, in the words of the specification:
    for each cart line of the user that names a product of the catalog, the
    product, the quantity of the line and the unit price of the catalog. *)
Definition line_snapshot (d : db) (c : cart_row) : Z * Z * Z :=
  (c_product_id c, c_quantity c,
   match catalog_price d (c_product_id c) with Some p => p | None => 0 end).

Definition cart_snapshot (uid : Z) (d : db) : list (Z * Z * Z) :=
  map (line_snapshot d) (filter (in_catalog d) (cart_lines uid d)).

(** The items of an order, as (product, quantity, price each). *)
Definition items_of_order (order_id : Z) (d : db) : list (Z * Z * Z) :=
  map (fun oi => (oi_product_id oi, oi_quantity oi, oi_price_each oi))
      (filter (fun oi => oi_order_id oi =? order_id) (t_order_items d)).

(** The order header with a given id. *)
Definition order_of (order_id : Z) (d : db) : option order_row :=
  find (fun o => o_id o =? order_id) (t_orders d).

(** What one move can do to the database: nothing, or what one handler
    commits. *)
Inductive effect (d : db) : db -> Prop :=
| eff_none : effect d d
| eff_seed : t_products d = [] -> effect d (seed d)
| eff_signup username email password d' :
    insert_user username email password d = inr (tt, d') -> effect d d'
| eff_add uid pid :
    effect d (committed (match select_quantity uid pid d with
                         | Some _ => update_quantity_plus_one uid pid d
                         | None => insert_cart uid pid d
                         end) d)
| eff_update uid pid q :
    0 <= q ->
    effect d (committed (if q =? 0
                         then delete_cart_line uid pid d
                         else update_quantity q uid pid d) d)
| eff_clear uid : effect d (committed (delete_cart uid d) d)
| eff_checkout uid now :
    select_items uid d <> [] -> effect d (checkout_db uid now d)
| eff_reprice pid price : effect d (reprice pid price d).

(** The database without the cart lines that name no product of the
    catalog. *)
Definition drop_dangling (d : db) : db :=
  set_cart d (filter (in_catalog d) (t_cart d)) (seq_cart d).

(** What a move may do to the two order tables: append rows of orders
    numbered above the counter. *)
Definition appends (d d' : db) : Prop :=
  seq_orders d <= seq_orders d'
  /\ exists (os : list order_row) (ois : list order_item_row),
       t_orders d' = t_orders d ++ os
       /\ t_order_items d' = t_order_items d ++ ois
       /\ Forall (fun o => seq_orders d < o_id o) os
       /\ Forall (fun oi => seq_orders d < oi_order_id oi) ois.

(** A stored user has these credentials. *)
Definition credentials_match (d : db) (username password : string) : Prop :=
  exists u, In u (t_users d)
            /\ u_username u = username /\ u_password u = password.

(** A stored user has this username or this email. *)
Definition identity_taken (d : db) (username email : string) : Prop :=
  exists u, In u (t_users d)
            /\ (u_username u = username \/ u_email u = Some email).

(** ** A scenario: a fresh installation, one user, Tomato twice and Potato
    once in the cart *)

Definition guest : env := mk_env anonymous 0 None.

Definition alice : env := mk_env (mk_session (Some 1) (Some "alice")) 1000 None.

Definition alice_form : form :=
  mk_form (Some "alice") (Some "alice@example.org") (Some "secret") None.

Definition scenario_moves : list move :=
  [ App Startup guest;
    App (Request (ReqSignup POST alice_form)) guest;
    App (Request (ReqLogin POST alice_form)) guest;
    App (Request (ReqAddToCart 1)) alice;
    App (Request (ReqAddToCart 4)) alice;
    App (Request (ReqAddToCart 1)) alice ].

Definition scenario_db : db := run scenario_moves empty_db.

(** The same, and a request to add product 999, which the catalog does
    not have. *)
Definition dangling_db : db :=
  run [App (Request (ReqAddToCart 999)) alice] scenario_db.

(** A fresh installation with one user, whose cart has a single line, for
    a product the catalog does not have. *)
Definition only_dangling_db : db :=
  run [ App Startup guest;
        App (Request (ReqSignup POST alice_form)) guest;
        App (Request (ReqAddToCart 999)) alice ] empty_db.

(** Forms of the scenario: the username of alice without a password, and
    her credentials with a space after the username. *)
Definition no_password_form : form :=
  mk_form (Some "alice") (Some "alice@example.org") None None.

Definition untrimmed_form : form :=
  mk_form (Some "alice ") None (Some "secret") None.

(** ** What one request can do, route by route *)

(** The database a request leaves, by its route: as it was, or what the
    handler of the route commits for the user of the session. *)
Inductive request_effect (e : env) (d : db) : request -> db -> Prop :=
| re_none r : request_effect e d r d
| re_signup f d' :
    strip (form_get (f_username f) "") <> "" ->
    strip (form_get (f_password f) "") <> "" ->
    insert_user (strip (form_get (f_username f) ""))
                (strip (form_get (f_email f) ""))
                (strip (form_get (f_password f) "")) d = inr (tt, d') ->
    request_effect e d (ReqSignup POST f) d'
| re_add uid pid :
    logged_in e uid ->
    request_effect e d (ReqAddToCart pid)
      (committed (match select_quantity uid pid d with
                  | Some _ => update_quantity_plus_one uid pid d
                  | None => insert_cart uid pid d
                  end) d)
| re_update uid pid f q :
    logged_in e uid -> quantity_of f = Some q ->
    request_effect e d (ReqUpdateCart pid f)
      (committed (if q =? 0
                  then delete_cart_line uid pid d
                  else update_quantity q uid pid d) d)
| re_clear uid :
    logged_in e uid ->
    request_effect e d ReqClearCart (committed (delete_cart uid d) d)
| re_checkout uid :
    logged_in e uid -> select_items uid d <> [] ->
    request_effect e d (ReqCheckout POST) (checkout_db uid (e_now e) d).

(** The same environment with the store available throughout. *)
Definition without_fault (e : env) : env :=
  mk_env (e_session e) (e_now e) None.

(** A session whose user id is 0, which the handlers read as no user. *)
Definition user_zero : env := mk_env (mk_session (Some 0) (Some "root")) 7 None.

(** The rows of the cart page and of the checkout page, by what they say of
    a line: product, unit price, quantity. *)
Definition shown (v : cart_view_row) : Z * Z * Z :=
  (v_product_id v, v_price v, v_quantity v).

Definition read_at_checkout (i : item_row) : Z * Z * Z :=
  (i_product_id i, i_price i, i_quantity i).

(** The total a posted checkout computes from the rows it reads. *)
Definition checkout_total (uid : Z) (d : db) : Z :=
  py_sum (map (fun i => i_price i * i_quantity i) (select_items uid d)).

(** A run of add-to-cart requests for one product, one per environment. *)
Definition add_requests (pid : Z) (es : list env) : list move :=
  map (fun e => App (Request (ReqAddToCart pid)) e) es.

(** The quantity a user has of a product, 0 without a line. *)
Definition quantity_in_cart (uid pid : Z) (d : db) : Z :=
  match select_quantity uid pid d with
  | Some q => q
  | None => 0
  end.

(** ** The account store *)

(** The emails of the users that have one. *)
Definition emails (l : list user_row) : list string :=
  flat_map (fun u => match u_email u with Some e => [e] | None => [] end) l.

(** A string that [strip] leaves as it is. *)
Definition trimmed (s : string) : Prop := strip s = s.

(** A string with no white space in front. *)
Definition head_clean (s : string) : Prop :=
  match s with
  | EmptyString => True
  | String c _ => isspace c = false
  end.

(** What signup makes true of every row it stores. *)
Definition user_ok (seq : Z) (u : user_row) : Prop :=
  u_username u <> "" /\ u_password u <> ""
  /\ trimmed (u_username u) /\ trimmed (u_password u)
  /\ 1 <= u_id u <= seq.

Definition users_ok (d : db) : Prop :=
  0 <= seq_users d
  /\ NoDup (map u_username (t_users d))
  /\ NoDup (emails (t_users d))
  /\ NoDup (map u_id (t_users d))
  /\ Forall (user_ok (seq_users d)) (t_users d).

(** The login form with the credentials of a stored user. *)
Definition credentials_of (u : user_row) : form :=
  mk_form (Some (u_username u)) None (Some (u_password u)) None.

(** The row of alice in the scenario. *)
Definition alice_row : user_row :=
  mk_user 1 "alice" (Some "alice@example.org") "secret".

(** A signup of the scenario without an email, and a second one. *)
Definition bob_form : form := mk_form (Some "bob") None (Some "pw1") None.

Definition carol_form : form := mk_form (Some "carol") (Some "  ") (Some "pw2") None.

(** ** The ledger *)

(** What the items of an order add up to: price each times quantity. *)
Definition order_amount (oid : Z) (d : db) : Z :=
  fold_right Z.add 0
    (map (fun t => snd t * snd (fst t)) (items_of_order oid d)).

(** The orders and their items agree: order ids are unique and not above
    the counter, every order has at least one item and a total that is the
    sum of its items, and every item belongs to an order that exists. *)
Definition ledger_ok (d : db) : Prop :=
  orders_ok d
  /\ NoDup (map o_id (t_orders d))
  /\ Forall (fun o => o_total_amount o = order_amount (o_id o) d
                      /\ items_of_order (o_id o) d <> [])
            (t_orders d)
  /\ Forall (fun oi => order_of (oi_order_id oi) d <> None) (t_order_items d).

(** ** The schema *)

(** SQLite compares the names of tables and of columns without regard to
    the case of the ASCII letters. *)
Definition lower_ascii (c : ascii) : ascii :=
  let n := nat_of_ascii c in
  if ((65 <=? n) && (n <=? 90))%nat then ascii_of_nat (n + 32) else c.

Fixpoint lower (s : string) : string :=
  match s with
  | EmptyString => EmptyString
  | String c r => String (lower_ascii c) (lower r)
  end.

Definition same_name (a b : string) : bool := String.eqb (lower a) (lower b).

(** What [init_db] and [column_exists] see of the database file: its
    tables, each with the names of its columns in order. *)
Definition schema : Type := list (string * list string).

Definition has_table (sch : schema) (table : string) : bool :=
  existsb (fun t => same_name (fst t) table) sch.

(** PRAGMA table_info(table), each row reduced to its ["name"]: the columns
    of the table, no row for a table that does not exist. *)
Definition table_info (sch : schema) (table : string) : list string :=
  match find (fun t => same_name (fst t) table) sch with
  | Some t => snd t
  | None => []
  end.

(** [column_exists(db, table, column)]: Python compares the names with
    [==], letter case included. *)
Definition column_exists (sch : schema) (table column : string) : bool :=
  existsb (fun name => String.eqb name column) (table_info sch table).

(** CREATE TABLE IF NOT EXISTS table (columns). *)
Definition create_table (sch : schema) (table : string) (columns : list string)
  : schema :=
  if has_table sch table then sch else sch ++ [(table, columns)].

(** ALTER TABLE table ADD COLUMN column: fails without the table, and with
    a column of that name (whatever the case) already there. *)
Fixpoint add_column (sch : schema) (table column : string) : option schema :=
  match sch with
  | [] => None
  | (name, columns) :: rest =>
      if same_name name table
      then if existsb (fun c => same_name c column) columns
           then None
           else Some ((name, columns ++ [column]) :: rest)
      else match add_column rest table column with
           | Some rest' => Some ((name, columns) :: rest')
           | None => None
           end
  end.

Definition alter_table_add (sch : schema) (table column : string)
  : exn + schema :=
  match add_column sch table column with
  | Some sch' => inr sch'
  | None => inl OperationalError
  end.

(** The statements of [init_db] on the schema, in its order: users,
    products, the migration of the image column, cart, orders,
    order_items. *)
Definition init_schema (sch : schema) : exn + schema :=
  let sch := create_table sch "users" ["id"; "username"; "email"; "password"] in
  let sch := create_table sch "products" ["id"; "name"; "price"] in
  match (if negb (column_exists sch "products" "image")
         then alter_table_add sch "products" "image"
         else inr sch) with
  | inl e => inl e
  | inr sch =>
      let sch := create_table sch "cart"
                   ["id"; "user_id"; "product_id"; "quantity"] in
      let sch := create_table sch "orders"
                   ["id"; "user_id"; "total_amount"; "created_at"] in
      inr (create_table sch "order_items"
             ["id"; "order_id"; "product_id"; "quantity"; "price_each"])
  end.

(** The tables of the application. *)
Definition app_tables : list string :=
  ["users"; "products"; "cart"; "orders"; "order_items"].

(** A database file of before the migration: products without image. *)
Definition legacy_schema : schema :=
  [("products", ["id"; "name"; "price"]); ("notes", ["id"; "text"])].

(** ** The store out of reach *)

(** The request with the store out of reach: its first statement fails. *)
Definition store_down (e : env) : env :=
  mk_env (e_session e) (e_now e) (Some 0%nat).

(** Whether the session names a user the handlers accept. *)
Definition user_in_session (e : env) : bool :=
  match s_user_id (e_session e) with
  | Some u => negb (u =? 0)
  | None => false
  end.

(** The requests whose handler comes to a statement on the store: the
    catalog pages always, a posted login always, a posted signup past its
    required-fields guard, the cart routes and checkout past the login guard,
    set-quantity past [int()] as well. *)
Definition reaches_store (r : request) (e : env) : bool :=
  match r with
  | ReqHome | ReqApiProducts => true
  | ReqSignup POST f =>
      str_truthy (strip (form_get (f_username f) ""))
      && str_truthy (strip (form_get (f_password f) ""))
  | ReqLogin POST _ => true
  | ReqCart | ReqAddToCart _ | ReqClearCart | ReqCheckout _ =>
      user_in_session e
  | ReqUpdateCart _ f =>
      user_in_session e
      && match quantity_of f with Some _ => true | None => false end
  | _ => false
  end.

(** ** Properties *)

(** *** Lists *)

Lemma find_none_existsb {A} (f : A -> bool) (l : list A) :
  find f l = None -> existsb f l = false.
Proof.
  induction l as [|x l IH]; simpl; [reflexivity|].
  destruct (f x); [discriminate | exact IH].
Qed.

Lemma find_some_existsb {A} (f : A -> bool) (l : list A) x :
  find f l = Some x -> existsb f l = true.
Proof.
  induction l as [|y l IH]; simpl; [discriminate|].
  destruct (f y); [reflexivity | exact IH].
Qed.

Lemma py_sum_from (l : list Z) (a : Z) : fold_left Z.add l a = a + py_sum l.
Proof.
  unfold py_sum. revert a.
  induction l as [|x l IH]; intros a; simpl; [lia|].
  rewrite (IH (a + x)), (IH x). lia.
Qed.

Lemma py_sum_fold_right (l : list Z) : py_sum l = fold_right Z.add 0 l.
Proof.
  induction l as [|x l IH]; [reflexivity|].
  unfold py_sum in *. simpl. rewrite py_sum_from. unfold py_sum. lia.
Qed.

Lemma db_eta (d : db) :
  mk_db (t_users d) (seq_users d) (t_products d) (seq_products d)
        (t_cart d) (seq_cart d) (t_orders d) (seq_orders d)
        (t_order_items d) (seq_order_items d) = d.
Proof. destruct d; reflexivity. Qed.

Lemma sum_perm (l l' : list Z) :
  Permutation l l' -> fold_right Z.add 0 l = fold_right Z.add 0 l'.
Proof.
  intros H. induction H; cbn; lia.
Qed.

Lemma py_sum_perm (l l' : list Z) : Permutation l l' -> py_sum l = py_sum l'.
Proof.
  intros H. rewrite !py_sum_fold_right. apply sum_perm. exact H.
Qed.

(** *** ORDER BY and the order of an index *)

Lemma insert_by_perm {A} (le : A -> A -> bool) (x : A) (l : list A) :
  Permutation (insert_by le x l) (x :: l).
Proof.
  induction l as [|y l IH]; cbn; [apply Permutation_refl|].
  destruct (le x y); [apply Permutation_refl|].
  apply (perm_trans (perm_skip y IH)). apply perm_swap.
Qed.

Lemma order_by_perm {A} (le : A -> A -> bool) (l : list A) :
  Permutation (order_by le l) l.
Proof.
  induction l as [|x l IH]; cbn; [apply perm_nil|].
  apply (perm_trans (insert_by_perm le x _)). apply perm_skip. exact IH.
Qed.

Lemma insert_by_sorted {A} (le : A -> A -> bool) (x : A) (l : list A) :
  (forall a b, le a b = false -> le b a = true) ->
  Sorted (fun a b => le a b = true) l ->
  Sorted (fun a b => le a b = true) (insert_by le x l).
Proof.
  intros Htot Hl. induction Hl as [|y l Hs IH Hhd]; cbn.
  - constructor; constructor.
  - destruct (le x y) eqn:E.
    + constructor; [constructor; assumption | constructor; exact E].
    + constructor; [exact IH|].
      destruct Hhd as [|z l Hyz]; cbn.
      * constructor. apply Htot. exact E.
      * destruct (le x z); constructor; [apply Htot; exact E | exact Hyz].
Qed.

Lemma order_by_sorted {A} (le : A -> A -> bool) (l : list A) :
  (forall a b, le a b = false -> le b a = true) ->
  Sorted (fun a b => le a b = true) (order_by le l).
Proof.
  intros Htot. induction l as [|x l IH]; cbn; [constructor|].
  apply insert_by_sorted; assumption.
Qed.

Lemma filter_perm {A} (p : A -> bool) (l l' : list A) :
  Permutation l l' -> Permutation (filter p l) (filter p l').
Proof.
  intros H. induction H as [|x l l' _ IH|x y l|l l' l'' _ IH1 _ IH2]; cbn.
  - apply perm_nil.
  - destruct (p x); [apply perm_skip|]; exact IH.
  - destruct (p x), (p y); try apply Permutation_refl. apply perm_swap.
  - exact (perm_trans IH1 IH2).
Qed.

Lemma insert_by_dropped {A} (le : A -> A -> bool) (p : A -> bool) (x : A)
      (l : list A) :
  p x = false -> filter p (insert_by le x l) = filter p l.
Proof.
  intros Hx. induction l as [|y l IH]; cbn; [rewrite Hx; reflexivity|].
  destruct (le x y); cbn; [rewrite Hx; reflexivity|].
  rewrite IH. reflexivity.
Qed.

Lemma insert_by_first {A} (le : A -> A -> bool) (x : A) (l : list A) :
  Forall (fun z => le x z = true) l -> insert_by le x l = x :: l.
Proof.
  intros H. destruct H as [|y l Hy _]; cbn; [reflexivity|].
  rewrite Hy. reflexivity.
Qed.

Lemma insert_by_kept {A} (le : A -> A -> bool) (p : A -> bool) (x : A)
      (l : list A) :
  (forall a b c, le a b = true -> le b c = true -> le a c = true) ->
  StronglySorted (fun a b => le a b = true) l ->
  p x = true -> filter p (insert_by le x l) = insert_by le x (filter p l).
Proof.
  intros Htrans Hl Hx. induction Hl as [|y l Hs IH Hy].
  - cbn. rewrite Hx. reflexivity.
  - cbn [insert_by]. destruct (le x y) eqn:E.
    + rewrite insert_by_first.
      * cbn [filter]. rewrite Hx. reflexivity.
      * apply Forall_forall. intros z Hz.
        apply filter_In in Hz as [Hz _]. destruct Hz as [<- | Hz]; [exact E|].
        apply (Htrans x y z E). revert z Hz. apply Forall_forall. exact Hy.
    + cbn [filter]. destruct (p y); cbn [insert_by]; rewrite IH;
        [rewrite E|]; reflexivity.
Qed.

Lemma order_by_strongly_sorted {A} (le : A -> A -> bool) (l : list A) :
  (forall a b, le a b = false -> le b a = true) ->
  (forall a b c, le a b = true -> le b c = true -> le a c = true) ->
  StronglySorted (fun a b => le a b = true) (order_by le l).
Proof.
  intros Htot Htrans. apply Sorted_StronglySorted.
  - intros a b c Hab Hbc. exact (Htrans a b c Hab Hbc).
  - apply order_by_sorted. exact Htot.
Qed.

(** Sorting and selecting commute: an index scan of the rows that pass a
    test gives the rows of the index scan that pass it, in the same
    order. *)
Lemma order_by_filter {A} (le : A -> A -> bool) (p : A -> bool) (l : list A) :
  (forall a b, le a b = false -> le b a = true) ->
  (forall a b c, le a b = true -> le b c = true -> le a c = true) ->
  order_by le (filter p l) = filter p (order_by le l).
Proof.
  intros Htot Htrans. induction l as [|x l IH]; [reflexivity|].
  change (order_by le (x :: l)) with (insert_by le x (order_by le l)).
  cbn [filter]. destruct (p x) eqn:Hx.
  - change (order_by le (x :: filter p l))
      with (insert_by le x (order_by le (filter p l))).
    rewrite IH. symmetry. apply insert_by_kept; try assumption.
    apply order_by_strongly_sorted; assumption.
  - rewrite IH. symmetry. apply insert_by_dropped. exact Hx.
Qed.

(** *** What can be bound to a statement *)

Lemma sqlite_int_range (z : Z) :
  sqlite_int z = true <-> min_int <= z <= max_int.
Proof.
  unfold sqlite_int. rewrite andb_true_iff, !Z.leb_le. tauto.
Qed.

Lemma bindable_one (z : Z) : bindable [z] = true <-> min_int <= z <= max_int.
Proof.
  unfold bindable. cbn [forallb]. rewrite andb_true_r.
  apply sqlite_int_range.
Qed.

Lemma bindable_two (a b : Z) :
  bindable [a; b] = true
  <-> min_int <= a <= max_int /\ min_int <= b <= max_int.
Proof.
  unfold bindable. cbn [forallb].
  rewrite andb_true_r, andb_true_iff, !sqlite_int_range. tauto.
Qed.

Lemma not_bindable_one (z : Z) :
  bindable [z] = false <-> z < min_int \/ max_int < z.
Proof.
  pose proof (bindable_one z) as H.
  destruct (bindable [z]).
  - split; [discriminate|]. intros H1.
    assert (H2 : min_int <= z <= max_int) by (apply H; reflexivity). lia.
  - split; [|reflexivity]. intros _.
    destruct (Z_lt_le_dec z min_int) as [Hlo | Hlo]; [left; exact Hlo|].
    destruct (Z_lt_le_dec max_int z) as [Hhi | Hhi]; [right; exact Hhi|].
    assert (H2 : false = true) by (apply H; split; assumption).
    discriminate H2.
Qed.

(** [integral], for a database that can be evaluated. *)
Lemma integral_checked (d : db) :
  forallb (fun c => sqlite_int (c_quantity c)) (t_cart d) = true ->
  forallb (fun p => sqlite_int (p_price p)) (t_products d) = true ->
  integral d.
Proof.
  intros Hc Hp. split; apply Forall_forall; intros x Hx.
  - exact (proj1 (forallb_forall _ _) Hc x Hx).
  - exact (proj1 (forallb_forall _ _) Hp x Hx).
Qed.

(** *** The store calls under a fault plan *)

(** [executemany] with a statement that cannot fail by itself: all rows are
    written into the transaction, or the store failed at one of them and
    nothing has reached the committed database. *)
Lemma executemany_total {A} (stmt : A -> db -> exn + (unit * db))
      (next : A -> db -> db) (rows : list A) :
  (forall a t, stmt a t = inr (tt, next a t)) ->
  forall w : world,
    (exists f',
        executemany stmt rows w
        = (Ok tt, mk_world (w_disk w)
                           (match rows with
                            | [] => w_txn w
                            | _ => Some (fold_left (fun t a => next a t) rows
                                                   (view w))
                            end)
                           f' (w_session w) (w_flashes w) (w_now w))
        /\ (w_fault w = None -> f' = None))
    \/ (exists w',
           executemany stmt rows w = (Raise OperationalError, w')
           /\ w_disk w' = w_disk w /\ w_session w' = w_session w
           /\ w_flashes w' = w_flashes w /\ w_fault w <> None).
Proof.
  intros Hstmt. induction rows as [|a rows IH]; intros w.
  - left. exists (w_fault w). split; [|auto]. destruct w; reflexivity.
  - destruct w as [disk txn f s fl now].
    cbn [executemany]. unfold dml, bind, store_call.
    destruct f as [[|n]|]; cbn [w_fault with_fault].
    + right. eexists. repeat split; try reflexivity. discriminate.
    + unfold with_fault, with_txn, view. cbn -[executemany fold_left].
      rewrite Hstmt.
      match goal with
      | |- context [executemany stmt rows ?w1] =>
          destruct (IH w1) as [(f' & E & Hf) | (w' & E & H1 & H2 & H3 & _)]
      end; rewrite E; cbn -[fold_left] in *.
      * left. exists f'. split; [|discriminate].
        destruct rows; reflexivity.
      * right. exists w'. repeat split; auto. discriminate.
    + unfold with_txn, view. cbn -[executemany fold_left].
      rewrite Hstmt.
      match goal with
      | |- context [executemany stmt rows ?w1] =>
          destruct (IH w1) as [(f' & E & Hf) | (w' & E & H1 & H2 & H3 & H4)]
      end; rewrite E; cbn -[fold_left] in *.
      * left. exists f'. split; [|exact Hf].
        destruct rows; reflexivity.
      * exfalso. apply H4. reflexivity.
Qed.

Lemma fold_insert_order_items (oid : Z) (items : list item_row) (t : db) :
  fold_left (fun t row => committed (insert_order_item row t) t)
            (order_item_params oid items) t
  = set_order_items t
      (t_order_items t ++ numbered_items (seq_order_items t) oid items)
      (seq_order_items t + Z.of_nat (List.length items)).
Proof.
  revert t. induction items as [|i items IH]; intros t.
  - cbn. unfold set_order_items. rewrite app_nil_r, Z.add_0_r. symmetry.
    apply db_eta.
  - change (order_item_params oid (i :: items))
      with ((oid, i_product_id i, i_quantity i, i_price i)
            :: order_item_params oid items).
    cbn [fold_left]. rewrite IH.
    replace (Z.of_nat (List.length (i :: items)))
      with (1 + Z.of_nat (List.length items))
      by (change (List.length (i :: items)) with (S (List.length items)); lia).
    unfold set_order_items. cbn -[Z.add Z.of_nat].
    rewrite <- app_assoc, Z.add_assoc. reflexivity.
Qed.

Lemma executemany_order_items (oid : Z) (items : list item_row) :
  forall (w : world) (t : db),
    w_txn w = Some t ->
    let t' := set_order_items t
                (t_order_items t ++ numbered_items (seq_order_items t) oid items)
                (seq_order_items t + Z.of_nat (List.length items)) in
    (exists f',
        executemany insert_order_item (order_item_params oid items) w
        = (Ok tt, mk_world (w_disk w) (Some t') f' (w_session w)
                           (w_flashes w) (w_now w))
        /\ (w_fault w = None -> f' = None))
    \/ (exists w',
           executemany insert_order_item (order_item_params oid items) w
           = (Raise OperationalError, w')
           /\ w_disk w' = w_disk w /\ w_session w' = w_session w
           /\ w_flashes w' = w_flashes w /\ w_fault w <> None).
Proof.
  intros w t Ht t'.
  destruct (executemany_total insert_order_item
              (fun row t => committed (insert_order_item row t) t)
              (order_item_params oid items)) with (w := w)
    as [(f' & E & Hf) | H].
  - intros [[[a b] c] e] t0. reflexivity.
  - left. exists f'. split; [|exact Hf]. rewrite E. do 2 f_equal.
    unfold view. rewrite Ht.
    rewrite fold_insert_order_items. fold t'.
    destruct (order_item_params oid items) eqn:En; [|reflexivity].
    destruct items; [|discriminate]. f_equal.
    unfold t', set_order_items. cbn. rewrite app_nil_r, Z.add_0_r.
    symmetry. apply db_eta.
  - right. exact H.
Qed.

(** Runs a handler symbolically up to the next choice. *)
Ltac run_handler :=
  unfold serve, connect, login_required, current_user_id, get_session,
    put_session, clock, flash, query, dml, query_with, dml_with, commit,
    store_call, bind, ret, raise, with_txn, with_fault, with_session, view;
  cbn -[executemany order_item_params starter_catalog py_sum Z.add Z.of_nat
        Z.max select_items select_quantity strip bindable].

Ltac next_fault f := destruct f as [[|f]|]; run_handler.

(** *** Checkout, case by case *)

Lemma checkout_not_logged_in (m : method) (e : env) (d : db) :
  (forall uid, ~ logged_in e uid) ->
  serve (checkout m) e d = mk_outcome d (e_session e) [] (RedirectTo EpLogin).
Proof.
  destruct e as [[[u|] sn] now f]; intros H; unfold checkout; run_handler.
  - destruct (u =? 0) eqn:E; [reflexivity|].
    exfalso. apply (H u). split; [reflexivity | lia].
  - reflexivity.
Qed.

Ltac use_executemany :=
  match goal with
  | |- context [executemany insert_order_item (order_item_params ?o ?l) ?w] =>
      let f' := fresh "f" in
      let E := fresh "E" in
      let Hf := fresh "Hf" in
      let w' := fresh "w" in
      let H1 := fresh "Hdisk" in
      let H2 := fresh "Hsession" in
      let H3 := fresh "Hflashes" in
      let H4 := fresh "Hfault" in
      destruct (executemany_order_items o l w _ eq_refl)
        as [(f' & E & Hf) | (w' & E & H1 & H2 & H3 & H4)];
      rewrite E; clear E;
      cbn -[py_sum Z.add Z.of_nat select_items numbered_items] in *;
      [ | try rewrite H1; try rewrite H2; try rewrite H3 ]
  end.

Lemma checkout_post_cases (e : env) (d : db) (uid : Z) :
  logged_in e uid ->
  let o := serve (checkout POST) e d in
  (e_fault e <> None
   /\ o = mk_outcome d (e_session e) [] (ServerError OperationalError))
  \/ (select_items uid d = [] /\ o = EmptyCart e d)
  \/ (select_items uid d <> [] /\ bindable [checkout_total uid d] = false
      /\ o = mk_outcome d (e_session e) [] (ServerError OverflowError))
  \/ (select_items uid d <> [] /\ bindable [checkout_total uid d] = true
      /\ o = mk_outcome (checkout_db uid (e_now e) d) (e_session e) []
                        (RedirectTo (EpThankYou (seq_orders d + 1)))).
Proof.
  destruct e as [[su sn] now f]. intros [Hs Hne]. cbn in Hs. subst su.
  assert (E0 : (uid =? 0) = false) by lia.
  unfold checkout, EmptyCart, checkout_db, checkout_total. run_handler.
  rewrite E0.
  destruct f as [[|f]|]; run_handler.
  - left. split; [discriminate | reflexivity].
  - destruct (select_items uid d) as [|i items] eqn:Ei; run_handler.
    + right; left. split; reflexivity.
    + destruct f as [|f]; run_handler.
      * left. split; [discriminate | reflexivity].
      * destruct (bindable _) eqn:Eb; run_handler.
        -- use_executemany.
           ++ destruct f0 as [[|f0]|]; run_handler;
                [left; split; [discriminate | reflexivity] | | ].
              ** destruct f0 as [|f0]; run_handler.
                 --- left; split; [discriminate | reflexivity].
                 --- right; right; right.
                     split; [discriminate | split; reflexivity].
              ** right; right; right.
                 split; [discriminate | split; reflexivity].
           ++ left. split; [discriminate | reflexivity].
        -- right; right; left.
           split; [discriminate | split; reflexivity].
  - destruct (select_items uid d) as [|i items] eqn:Ei; run_handler.
    + right; left. split; reflexivity.
    + destruct (bindable _) eqn:Eb; run_handler.
      * use_executemany.
        -- rewrite (Hf eq_refl). run_handler.
           right; right; right. split; [discriminate | split; reflexivity].
        -- exfalso. apply Hfault. reflexivity.
      * right; right; left. split; [discriminate | split; reflexivity].
Qed.

(** *** The cart handlers, case by case *)

Ltac faults_with tac :=
  run_handler; tac;
  repeat (match goal with
          | |- context [match ?f with Some _ => _ | None => _ end] =>
              is_var f; destruct f
          | |- context [match ?n with O => _ | S _ => _ end] =>
              is_var n; destruct n
          end; run_handler; tac).

Ltac faults := faults_with idtac.

Ltac start_logged_in e uid H :=
  let su := fresh "su" in
  let Hs := fresh "Hs" in
  let Hne := fresh "Hne" in
  let E0 := fresh "E0" in
  destruct e as [[su ?] ? ?]; destruct H as [Hs Hne]; cbn in Hs; subst su;
  assert (E0 : (uid =? 0) = false) by lia.

Lemma add_to_cart_cases (pid : Z) (e : env) (d : db) (uid : Z) :
  logged_in e uid ->
  let o := serve (add_to_cart pid) e d in
  (e_fault e <> None
   /\ o = mk_outcome d (e_session e) [] (ServerError OperationalError))
  \/ (bindable [pid] = false
      /\ o = mk_outcome d (e_session e) [] (ServerError OverflowError))
  \/ (bindable [pid] = true
      /\ o = mk_outcome
               (committed (match select_quantity uid pid d with
                           | Some _ => update_quantity_plus_one uid pid d
                           | None => insert_cart uid pid d
                           end) d)
               (e_session e) [] (Json true None 200)).
Proof.
  intros H. start_logged_in e uid H.
  unfold add_to_cart. run_handler. rewrite E0.
  destruct (bindable [pid]) eqn:Eb.
  - destruct (select_quantity uid pid d) as [q|] eqn:Eq.
    + faults_with ltac:(try rewrite Eq; run_handler);
        try (left; split; [discriminate | reflexivity]);
        right; right; split; reflexivity.
    + assert (Ex : existsb (cart_line_of uid pid) (t_cart d) = false).
      { apply find_none_existsb. unfold select_quantity in Eq.
        destruct (find _ _); [discriminate | reflexivity]. }
      faults_with ltac:(try rewrite Eq; run_handler; try unfold insert_cart;
                        try rewrite Ex; run_handler);
        try (left; split; [discriminate | reflexivity]);
        right; right; split; reflexivity.
  - faults;
      try (left; split; [discriminate | reflexivity]);
      right; left; split; reflexivity.
Qed.

Lemma cart_handlers_not_logged_in (e : env) (d : db) :
  (forall uid, ~ logged_in e uid) ->
  (forall pid, out_db (serve (add_to_cart pid) e d) = d)
  /\ (forall pid f, out_db (serve (update_cart pid f) e d) = d)
  /\ out_db (serve clear_cart e d) = d
  /\ out_db (serve cart e d) = d.
Proof.
  destruct e as [[[u|] sn] now f]; intros H;
    unfold add_to_cart, update_cart, clear_cart, cart; run_handler.
  - destruct (u =? 0) eqn:E; [repeat split; reflexivity|].
    exfalso. apply (H u). split; [reflexivity | lia].
  - repeat split; reflexivity.
Qed.

Lemma update_cart_cases (pid : Z) (f : form) (e : env) (d : db) (uid : Z) :
  logged_in e uid ->
  let o := serve (update_cart pid f) e d in
  match quantity_of f with
  | None => o = mk_outcome d (e_session e) [] (ServerError ValueError)
  | Some q =>
      (e_fault e <> None
       /\ o = mk_outcome d (e_session e) [] (ServerError OperationalError))
      \/ (bindable (if q =? 0 then [pid] else [q; pid]) = false
          /\ o = mk_outcome d (e_session e) [] (ServerError OverflowError))
      \/ (bindable (if q =? 0 then [pid] else [q; pid]) = true
          /\ o = mk_outcome
                   (committed (if q =? 0
                               then delete_cart_line uid pid d
                               else update_quantity q uid pid d) d)
                   (e_session e) [] (Json true None 200))
  end.
Proof.
  intros H. start_logged_in e uid H.
  unfold update_cart, quantity_of, int_of_quantity. run_handler. rewrite E0.
  destruct (form_get (f_quantity f) (IntOf 1)) as [z|]; [|reflexivity].
  run_handler.
  destruct (Z.max 0 z =? 0);
    match goal with
    | |- context [bindable ?ps] => destruct (bindable ps) eqn:Eb
    end;
    faults;
    try (left; split; [discriminate | reflexivity]);
    solve [ right; right; split; reflexivity
          | right; left; split; reflexivity ].
Qed.

Lemma clear_cart_cases (e : env) (d : db) (uid : Z) :
  logged_in e uid ->
  let o := serve clear_cart e d in
  (e_fault e <> None
   /\ o = mk_outcome d (e_session e) [] (ServerError OperationalError))
  \/ o = mk_outcome (committed (delete_cart uid d) d) (e_session e) []
                    (Json true None 200).
Proof.
  intros H. start_logged_in e uid H.
  unfold clear_cart. run_handler. rewrite E0.
  faults;
    try (left; split; [discriminate | reflexivity]);
    right; reflexivity.
Qed.

(** *** Signup and login, case by case *)

Lemma signup_post_cases (f : form) (e : env) (d : db) :
  let username := strip (form_get (f_username f) "") in
  let email := strip (form_get (f_email f) "") in
  let password := strip (form_get (f_password f) "") in
  let o := serve (signup POST f) e d in
  if negb (str_truthy username) || negb (str_truthy password)
  then o = mk_outcome d (e_session e)
                      [("Username and password are required.", "error")]
                      (Render "signup.html" CtxNone)
  else
    (e_fault e <> None
     /\ o = mk_outcome d (e_session e) [] (ServerError OperationalError))
    \/ match insert_user username email password d with
       | inl _ => o = DuplicateIdentity e d
       | inr (_, d') =>
           o = mk_outcome d' (e_session e)
                          [("Signup successful. Please log in.", "success")]
                          (RedirectTo EpLogin)
       end.
Proof.
  destruct e as [s now fl]. unfold signup, DuplicateIdentity. cbn zeta.
  destruct (negb (str_truthy (strip (form_get (f_username f) "")))
            || negb (str_truthy (strip (form_get (f_password f) ""))));
    [reflexivity|].
  unfold except_integrity.
  destruct (insert_user (strip (form_get (f_username f) ""))
                        (strip (form_get (f_email f) ""))
                        (strip (form_get (f_password f) "")) d)
    as [x | [[] d']] eqn:Ei.
  - assert (x = IntegrityError) as ->.
    { unfold insert_user in Ei.
      destruct (_ || _) in Ei; [congruence | discriminate]. }
    faults_with ltac:(try rewrite Ei; run_handler);
      try (left; split; [discriminate | reflexivity]);
      right; reflexivity.
  - faults_with ltac:(try rewrite Ei; run_handler);
      try (left; split; [discriminate | reflexivity]);
      right; reflexivity.
Qed.

Lemma login_post_cases (f : form) (e : env) (d : db) :
  let username := strip (form_get (f_username f) "") in
  let password := strip (form_get (f_password f) "") in
  let o := serve (login POST f) e d in
  (e_fault e <> None
   /\ o = mk_outcome d (e_session e) [] (ServerError OperationalError))
  \/ match select_user username password d with
     | Some (id, name) =>
         o = mk_outcome d (mk_session (Some id) (Some name))
                        [("Logged in.", "success")] (RedirectTo EpHome)
     | None => o = InvalidCredentials e d
     end.
Proof.
  destruct e as [s now fl]. unfold login, InvalidCredentials. cbn zeta.
  destruct (select_user (strip (form_get (f_username f) ""))
                        (strip (form_get (f_password f) "")) d)
    as [[id name]|] eqn:Es;
    faults_with ltac:(try rewrite Es; run_handler);
    try (left; split; [discriminate | reflexivity]);
    right; reflexivity.
Qed.

(** *** Every move is one effect *)

Lemma init_db_cases (e : env) (d : db) :
  step Startup e d = d \/ (t_products d = [] /\ step Startup e d = seed d).
Proof.
  destruct e as [s now f]. unfold step, init_db, ddl, count_products.
  destruct (t_products d) as [|p ps] eqn:Ep.
  - faults_with ltac:(try rewrite Ep; cbn [List.length Z.of_nat Z.eqb];
                      run_handler);
      try (left; reflexivity).
    all: assert (Hs : forall a t,
                    insert_product a t
                    = inr (tt, committed (insert_product a t) t))
      by (intros [[a b] c] t0; reflexivity).
    all: match goal with
         | |- context [executemany insert_product starter_catalog ?w0] =>
             destruct (executemany_total insert_product _ starter_catalog
                                         Hs w0)
               as [(f' & E & Hf) | (w' & E & H1 & _)];
               [ rewrite E; clear E
               | rewrite E; cbn; rewrite H1; left; reflexivity ]
         end.
    all: cbn [starter_catalog w_disk w_txn w_fault w_session w_flashes w_now
              view].
    all: fold starter_catalog; fold (seed d).
    all: destruct f' as [[|f']|]; run_handler;
      [left; reflexivity | right; split; reflexivity
      | right; split; reflexivity].
  - left.
    faults_with ltac:(try rewrite Ep; cbn [List.length Z.of_nat Z.eqb];
                      run_handler);
      reflexivity.
Qed.

Lemma logged_in_dec (e : env) :
  (exists uid, logged_in e uid) \/ (forall uid, ~ logged_in e uid).
Proof.
  destruct e as [[[u|] sn] now f]; unfold logged_in; cbn.
  - destruct (Z.eq_dec u 0) as [->|Hu].
    + right. intros uid [H1 H2]. congruence.
    + left. exists u. split; [reflexivity | exact Hu].
  - right. intros uid [H _]. discriminate.
Qed.

Lemma read_only_handlers (e : env) (d : db) :
  out_db (serve home e d) = d
  /\ (forall m f, out_db (serve (login m f) e d) = d)
  /\ out_db (serve logout e d) = d
  /\ out_db (serve cart e d) = d
  /\ (forall o, out_db (serve (thank_you o) e d) = d)
  /\ (forall m, out_db (serve (contact m) e d) = d)
  /\ out_db (serve pay e d) = d
  /\ out_db (serve api_products e d) = d
  /\ (forall f, out_db (serve (signup GET f) e d) = d)
  /\ out_db (serve (checkout GET) e d) = d.
Proof.
  repeat match goal with |- _ /\ _ => split end; intros.
  - destruct e as [s now f]. unfold home. faults; reflexivity.
  - destruct m.
    + reflexivity.
    + destruct (login_post_cases f e d) as [[_ E] | E].
      * rewrite E. reflexivity.
      * destruct (select_user _ _ d) as [[id name]|]; rewrite E; reflexivity.
  - reflexivity.
  - destruct e as [[[u|] sn] now f]; unfold cart; run_handler;
      [destruct (u =? 0)|]; faults; reflexivity.
  - reflexivity.
  - destruct m; reflexivity.
  - reflexivity.
  - destruct e as [s now f]. unfold api_products. faults; reflexivity.
  - reflexivity.
  - destruct e as [[[u|] sn] now f]; unfold checkout; run_handler;
      [destruct (u =? 0)|]; faults; reflexivity.
Qed.

Lemma step_effect (ev : event) (e : env) (d : db) : effect d (step ev e d).
Proof.
  destruct ev as [|r].
  - destruct (init_db_cases e d) as [E | [Hp E]]; rewrite E.
    + apply eff_none.
    + apply eff_seed. exact Hp.
  - pose proof (read_only_handlers e d)
      as (Hhome & Hlogin & Hlogout & Hcart & Hty & Hcontact & Hpay & Hapi
          & Hsignup & Hcheckout).
    unfold step.
    destruct (logged_in_dec e) as [[uid Hu] | Hno];
      destruct r as [ |m f|m f| | |pid|pid f| |m|o|m| | ]; cbn [dispatch];
      rewrite ?Hhome, ?Hlogin, ?Hlogout, ?Hcart, ?Hty, ?Hcontact, ?Hpay, ?Hapi;
      try apply eff_none.
    all: try (destruct m; [rewrite ?Hsignup, ?Hcheckout; apply eff_none|]).
    all: try (destruct (cart_handlers_not_logged_in e d Hno)
                as (Hadd & Hupd & Hclr & _);
              rewrite ?Hadd, ?Hupd, ?Hclr; try apply eff_none).
    all: try (rewrite (checkout_not_logged_in POST e d Hno); apply eff_none).
    all: try match goal with
         | |- context [signup POST ?f] =>
             pose proof (signup_post_cases f e d) as Hs; cbn zeta in Hs;
             destruct (negb _ || negb _) in Hs;
             [ rewrite Hs; apply eff_none
             | destruct Hs as [[_ Hs] | Hs];
               [ rewrite Hs; apply eff_none
               | destruct (insert_user _ _ _ d) as [x | [[] d']] eqn:Ei;
                 rewrite Hs; [apply eff_none | eapply eff_signup; exact Ei] ] ]
         end.
    + destruct (add_to_cart_cases pid e d uid Hu)
        as [[_ E] | [[_ E] | [_ E]]]; rewrite E;
        [apply eff_none | apply eff_none | apply eff_add].
    + pose proof (update_cart_cases pid f e d uid Hu) as Hq. cbn zeta in Hq.
      unfold quantity_of in Hq.
      destruct (form_get (f_quantity f) (IntOf 1)) as [z|].
      * destruct Hq as [[_ E] | [[_ E] | [_ E]]]; rewrite E;
          [apply eff_none | apply eff_none | apply eff_update; lia].
      * rewrite Hq. apply eff_none.
    + destruct (clear_cart_cases e d uid Hu) as [[_ E] | E]; rewrite E;
        [apply eff_none | apply eff_clear].
    + destruct (checkout_post_cases e d uid Hu)
        as [[_ E] | [[_ E] | [(_ & _ & E) | (Hi & _ & E)]]];
        rewrite E; [apply eff_none | apply eff_none | apply eff_none | ].
      apply eff_checkout. exact Hi.
Qed.

Lemma move_effect (m : move) (d : db) : effect d (apply_move d m).
Proof.
  destruct m as [ev e | pid price]; [apply step_effect | apply eff_reprice].
Qed.

(** *** The constraints are invariants *)

Lemma unique_keys_filter {R K} (keep : R -> bool) (key : R -> K)
      (rows : list R) :
  NoDup (map key rows) -> NoDup (map key (filter keep rows)).
Proof.
  intros Hnd. induction rows as [|r rows IH]; cbn in *; [constructor|].
  inversion Hnd as [|? ? Hnin Hrest]; subst.
  destruct (keep r); cbn; [constructor|]; auto.
  intros Hin. apply Hnin.
  apply in_map_iff in Hin as (x & Hx & Hin).
  apply filter_In in Hin as [Hin _].
  apply in_map_iff. exists x. split; assumption.
Qed.

Lemma Forall_filter {A} (P : A -> Prop) (p : A -> bool) (l : list A) :
  Forall P l -> Forall P (filter p l).
Proof.
  intros H. apply Forall_forall. intros x Hx.
  apply filter_In in Hx as [Hx _].
  revert x Hx. apply Forall_forall. exact H.
Qed.

Lemma cart_ok_filter (d : db) (p : cart_row -> bool) (n : Z) :
  cart_ok d -> cart_ok (set_cart d (filter p (t_cart d)) n).
Proof.
  intros [H1 H2]. split; cbn.
  - apply (unique_keys_filter p line_key). exact H1.
  - apply Forall_filter. exact H2.
Qed.

Lemma cart_ok_set_quantity (d : db) (p : cart_row -> bool) (g : Z -> Z) :
  (forall q, 1 <= q -> 1 <= g q) ->
  cart_ok d ->
  cart_ok (set_cart d
             (map (fun c => if p c
                            then mk_cart (c_id c) (c_user_id c) (c_product_id c)
                                         (g (c_quantity c))
                            else c) (t_cart d))
             (seq_cart d)).
Proof.
  intros Hg [H1 H2]. split; cbn.
  - rewrite map_map.
    erewrite map_ext; [exact H1|].
    intros c. cbn. destruct (p c); reflexivity.
  - apply Forall_map. revert H2. apply Forall_impl.
    intros c Hc. destruct (p c); cbn; auto.
Qed.

Lemma existsb_line_false (uid pid : Z) (l : list cart_row) :
  existsb (cart_line_of uid pid) l = false ->
  ~ In (uid, pid) (map line_key l).
Proof.
  induction l as [|c l IH]; cbn; [tauto|].
  intros H. apply orb_false_iff in H as [Hc Hl].
  intros [Hk | Hin]; [|exact (IH Hl Hin)].
  unfold line_key in Hk. inversion Hk; subst.
  unfold cart_line_of in Hc. rewrite !Z.eqb_refl in Hc. discriminate.
Qed.

Lemma cart_ok_insert (d : db) (uid pid : Z) :
  existsb (cart_line_of uid pid) (t_cart d) = false ->
  cart_ok d ->
  cart_ok (set_cart d (t_cart d ++ [mk_cart (seq_cart d + 1) uid pid 1])
                    (seq_cart d + 1)).
Proof.
  intros Hex [H1 H2]. split; cbn.
  - rewrite map_app. apply NoDup_app; [exact H1 | |].
    + cbn. constructor; [tauto | constructor].
    + intros k Hk [Hk' | []]. cbn in Hk'. subst k.
      exact (existsb_line_false uid pid _ Hex Hk).
  - apply Forall_app. split; [exact H2|].
    constructor; [cbn; lia | constructor].
Qed.

Lemma numbered_items_order_id (seq oid : Z) (items : list item_row) :
  Forall (fun oi => oi_order_id oi = oid) (numbered_items seq oid items).
Proof.
  revert seq. induction items as [|i items IH]; intros seq; cbn;
    constructor; auto.
Qed.

Lemma seed_tables (d : db) :
  t_products d = [] ->
  NoDup (map p_id (t_products (seed d)))
  /\ t_users (seed d) = t_users d /\ t_cart (seed d) = t_cart d
  /\ t_orders (seed d) = t_orders d /\ seq_orders (seed d) = seq_orders d
  /\ t_order_items (seed d) = t_order_items d.
Proof.
  intros Hp. unfold seed, starter_catalog, committed, insert_product.
  cbn -[Z.add]. rewrite Hp. cbn -[Z.add].
  repeat split.
  repeat (constructor; [cbn -[Z.add]; intuition lia|]). constructor.
Qed.

Lemma effect_cart_ok (d d' : db) : effect d d' -> cart_ok d -> cart_ok d'.
Proof.
  intros Heff Hcart.
  destruct Heff as [ | Hp | username email password d' Hi | uid pid
                   | uid pid q Hq | uid | uid now Hitems | pid price ].
  - exact Hcart.
  - destruct (seed_tables d Hp) as (_ & _ & Hc & _).
    unfold cart_ok. rewrite Hc. exact Hcart.
  - unfold insert_user in Hi. destruct (_ || _) in Hi; [discriminate|].
    inversion Hi; subst. exact Hcart.
  - destruct (select_quantity uid pid d) as [q|] eqn:Eq; cbn.
    + apply (cart_ok_set_quantity d (cart_line_of uid pid) (fun q => q + 1));
        [intros; lia | exact Hcart].
    + assert (Ex : existsb (cart_line_of uid pid) (t_cart d) = false)
        by (apply find_none_existsb; unfold select_quantity in Eq;
            destruct (find _ _); [discriminate | reflexivity]).
      unfold insert_cart. rewrite Ex. cbn.
      apply cart_ok_insert; assumption.
  - destruct (q =? 0) eqn:E0; cbn.
    + apply (cart_ok_filter d); exact Hcart.
    + apply (cart_ok_set_quantity d (cart_line_of uid pid) (fun _ => q));
        [intros; lia | exact Hcart].
  - apply (cart_ok_filter d); exact Hcart.
  - apply (cart_ok_filter d (fun c => negb (c_user_id c =? uid)) 0).
    exact Hcart.
  - exact Hcart.
Qed.

Lemma effect_catalog_ok (d d' : db) :
  effect d d' -> catalog_ok d -> catalog_ok d'.
Proof.
  intros Heff Hcat.
  destruct Heff as [ | Hp | username email password d' Hi | uid pid
                   | uid pid q Hq | uid | uid now Hitems | pid price ];
    try exact Hcat.
  - apply (seed_tables d Hp).
  - unfold insert_user in Hi. destruct (_ || _) in Hi; [discriminate|].
    inversion Hi; subst. exact Hcat.
  - destruct (select_quantity uid pid d) as [q|] eqn:Eq; cbn;
      [exact Hcat|].
    unfold insert_cart. destruct (existsb _ _); exact Hcat.
  - destruct (q =? 0); exact Hcat.
  - unfold catalog_ok, reprice. cbn.
    rewrite map_map. erewrite map_ext; [exact Hcat|].
    intros p. cbn. destruct (p_id p =? pid); reflexivity.
Qed.

Lemma effect_orders_ok (d d' : db) :
  effect d d' -> orders_ok d -> orders_ok d'.
Proof.
  intros Heff [Hord1 Hord2].
  destruct Heff as [ | Hp | username email password d' Hi | uid pid
                   | uid pid q Hq | uid | uid now Hitems | pid price ].
  - split; assumption.
  - destruct (seed_tables d Hp) as (_ & _ & _ & Ho & Hs & Hoi).
    unfold orders_ok. rewrite Ho, Hs, Hoi. split; assumption.
  - unfold insert_user in Hi. destruct (_ || _) in Hi; [discriminate|].
    inversion Hi; subst. split; assumption.
  - destruct (select_quantity uid pid d) as [q|] eqn:Eq; cbn;
      [split; assumption|].
    unfold insert_cart. destruct (existsb _ _); split; assumption.
  - destruct (q =? 0); split; assumption.
  - split; assumption.
  - unfold orders_ok, checkout_db. cbn -[Z.add]. split.
    + apply Forall_app. split.
      * revert Hord1. apply Forall_impl. intros o Ho. lia.
      * constructor; [cbn; lia | constructor].
    + apply Forall_app. split.
      * revert Hord2. apply Forall_impl. intros o Ho. lia.
      * generalize (numbered_items_order_id (seq_order_items d)
                      (seq_orders d + 1) (select_items uid d)).
        apply Forall_impl. intros oi Hoi. lia.
  - split; assumption.
Qed.

Lemma effect_db_ok (d d' : db) : effect d d' -> db_ok d -> db_ok d'.
Proof.
  intros Heff (Hcat & Hcart & Hord). repeat split.
  - exact (effect_catalog_ok d d' Heff Hcat).
  - apply (effect_cart_ok d d' Heff Hcart).
  - apply (effect_cart_ok d d' Heff Hcart).
  - apply (effect_orders_ok d d' Heff Hord).
  - apply (effect_orders_ok d d' Heff Hord).
Qed.

Lemma empty_db_ok : db_ok empty_db.
Proof.
  repeat split; cbn; constructor.
Qed.

Lemma run_db_ok (ms : list move) (d : db) : db_ok d -> db_ok (run ms d).
Proof.
  revert d. induction ms as [|m ms IH]; intros d H; cbn; [exact H|].
  apply IH. apply (effect_db_ok d); [apply move_effect | exact H].
Qed.

(** *** The join of cart and catalog *)

Lemma filter_none {A} (f : A -> bool) (l : list A) :
  existsb f l = false -> filter f l = [].
Proof.
  induction l as [|a l IH]; cbn; [reflexivity|].
  destruct (f a); cbn; [discriminate | exact IH].
Qed.

Lemma filter_unique_product (pid : Z) (l : list product_row) :
  NoDup (map p_id l) ->
  filter (fun p => p_id p =? pid) l
  = match find (fun p => p_id p =? pid) l with
    | Some p => [p]
    | None => []
    end.
Proof.
  induction l as [|a l IH]; cbn; [reflexivity|].
  intros H. inversion H as [|? ? Hnin Hnd]; subst.
  destruct (p_id a =? pid) eqn:E.
  - f_equal. apply filter_none.
    destruct (existsb (fun p => p_id p =? pid) l) eqn:Ex; [|reflexivity].
    exfalso. apply Hnin.
    apply existsb_exists in Ex as (x & Hx & Hid).
    apply in_map_iff. exists x. split; [lia | exact Hx].
  - apply IH. exact Hnd.
Qed.

(** The index of the cart holds the cart lines of the user, each once. *)
Lemma cart_index_perm (uid : Z) (d : db) :
  Permutation (cart_index uid d) (cart_lines uid d).
Proof. apply order_by_perm. Qed.

Lemma cart_index_in (uid : Z) (d : db) (c : cart_row) :
  In c (cart_index uid d) <-> In c (cart_lines uid d).
Proof.
  split; apply Permutation_in;
    [|apply Permutation_sym]; apply cart_index_perm.
Qed.

Lemma cart_index_filter (uid : Z) (d : db) (p : cart_row -> bool) (n : Z) :
  cart_index uid (set_cart d (filter p (t_cart d)) n)
  = filter p (cart_index uid d).
Proof.
  unfold cart_index. cbn [t_cart set_cart].
  rewrite <- order_by_filter.
  - f_equal. induction (t_cart d) as [|c l IH]; cbn; [reflexivity|].
    destruct (p c) eqn:Hp, (c_user_id c =? uid) eqn:Hu; cbn;
      rewrite ?Hp, ?Hu, IH; reflexivity.
  - intros a b H. lia.
  - intros a b c Hab Hbc. lia.
Qed.

Lemma select_items_by_line (uid : Z) (d : db) :
  catalog_ok d ->
  select_items uid d = flat_map (priced_line d) (cart_index uid d).
Proof.
  intros Hcat. unfold select_items, cart_join.
  induction (cart_index uid d) as [|c l IH]; cbn; [reflexivity|].
  rewrite map_app, IH. f_equal.
  rewrite (filter_unique_product _ _ Hcat). unfold priced_line, catalog_price.
  destruct (find _ (t_products d)); reflexivity.
Qed.

Lemma catalog_price_in_catalog (d : db) (c : cart_row) :
  in_catalog d c = true <-> catalog_price d (c_product_id c) <> None.
Proof.
  unfold in_catalog, catalog_price.
  destruct (find (fun p => p_id p =? c_product_id c) (t_products d)) eqn:E.
  - rewrite (find_some_existsb _ _ _ E). split; [discriminate | reflexivity].
  - rewrite (find_none_existsb _ _ E). split; [discriminate | congruence].
Qed.

Lemma select_items_total (uid : Z) (d : db) :
  catalog_ok d ->
  py_sum (map (fun i => i_price i * i_quantity i) (select_items uid d))
  = cart_total uid d.
Proof.
  intros Hcat. rewrite py_sum_fold_right, (select_items_by_line _ _ Hcat).
  unfold cart_total.
  rewrite <- (sum_perm _ _ (Permutation_map (line_amount d)
                                            (cart_index_perm uid d))).
  induction (cart_index uid d) as [|c l IH]; cbn; [reflexivity|].
  rewrite map_app, fold_right_app, <- IH. unfold line_amount, priced_line.
  destruct (catalog_price d (c_product_id c)); cbn; lia.
Qed.

Lemma priced_lines_snapshot (d : db) (l : list cart_row) :
  map (fun i => (i_product_id i, i_quantity i, i_price i))
      (flat_map (priced_line d) l)
  = map (line_snapshot d) (filter (in_catalog d) l).
Proof.
  induction l as [|c l IH]; [reflexivity|].
  cbn [flat_map filter]. rewrite map_app, IH.
  pose proof (catalog_price_in_catalog d c) as Hc.
  unfold priced_line at 1.
  destruct (catalog_price d (c_product_id c)) as [price|] eqn:Ep.
  - assert (Hin : in_catalog d c = true) by (apply Hc; discriminate).
    rewrite Hin. cbn [map app]. unfold line_snapshot at 2. rewrite Ep.
    reflexivity.
  - destruct (in_catalog d c) eqn:Hin; [|reflexivity].
    exfalso. apply (proj1 Hc); reflexivity.
Qed.

(** The rows checkout reads are the snapshot of the cart, in the order of
    the index. *)
Lemma select_items_snapshot (uid : Z) (d : db) :
  catalog_ok d ->
  Permutation
    (map (fun i => (i_product_id i, i_quantity i, i_price i))
         (select_items uid d))
    (cart_snapshot uid d).
Proof.
  intros Hcat. rewrite (select_items_by_line _ _ Hcat), priced_lines_snapshot.
  unfold cart_snapshot. apply Permutation_map, filter_perm, cart_index_perm.
Qed.

Lemma select_items_in (uid : Z) (d : db) (i : item_row) :
  In i (select_items uid d) <->
  exists c p, In c (cart_lines uid d) /\ In p (t_products d)
              /\ p_id p = c_product_id c
              /\ i = mk_item (c_product_id c) (p_price p) (c_quantity c).
Proof.
  unfold select_items, cart_join. split.
  - intros Hi. apply in_map_iff in Hi as ([c p] & <- & Hcp).
    apply in_flat_map in Hcp as (c0 & Hc0 & Hcp).
    apply in_map_iff in Hcp as (p0 & Heq & Hp0). inversion Heq; subst.
    apply filter_In in Hp0 as [Hp0 Hid]. apply cart_index_in in Hc0.
    exists c, p. cbn [fst snd]. repeat split; [assumption.. | lia].
  - intros (c & p & Hc & Hp & Hid & ->).
    apply in_map_iff. exists (c, p). split; [reflexivity|].
    apply in_flat_map. exists c. split; [apply cart_index_in; exact Hc|].
    apply in_map. apply filter_In. split; [exact Hp | lia].
Qed.

Lemma select_items_drop_dangling (uid : Z) (d : db) :
  select_items uid (drop_dangling d) = select_items uid d.
Proof.
  unfold select_items, cart_join, drop_dangling.
  rewrite cart_index_filter. cbn [t_products set_cart]. f_equal.
  induction (cart_index uid d) as [|c l IH]; cbn; [reflexivity|].
  unfold in_catalog at 1.
  destruct (existsb (fun p => p_id p =? c_product_id c) (t_products d)) eqn:E;
    cbn; rewrite IH; [reflexivity|].
  rewrite (filter_none _ _ E). reflexivity.
Qed.

Lemma select_items_all_dangling (uid : Z) (d : db) :
  (forall c, In c (cart_lines uid d) -> in_catalog d c = false) ->
  select_items uid d = [].
Proof.
  intros H. destruct (select_items uid d) as [|i l] eqn:E; [reflexivity|].
  assert (Hi : In i (select_items uid d)) by (rewrite E; left; reflexivity).
  apply select_items_in in Hi as (c & p & Hc & Hp & Hid & _).
  pose proof (H c Hc) as Hno. unfold in_catalog in Hno.
  assert (Hyes : existsb (fun p => p_id p =? c_product_id c) (t_products d)
                 = true)
    by (apply existsb_exists; exists p; split; [exact Hp | lia]).
  congruence.
Qed.



Lemma numbered_items_snapshot (seq oid : Z) (items : list item_row) :
  map (fun oi => (oi_product_id oi, oi_quantity oi, oi_price_each oi))
      (numbered_items seq oid items)
  = map (fun i => (i_product_id i, i_quantity i, i_price i)) items.
Proof.
  revert seq. induction items as [|i items IH]; intros seq; cbn;
    [reflexivity|]. rewrite IH. reflexivity.
Qed.

(** *** Checkout *)

Lemma checkout_success (e : env) (d : db) (uid oid : Z) :
  logged_in e uid ->
  out_reply (serve (checkout POST) e d) = RedirectTo (EpThankYou oid) ->
  select_items uid d <> []
  /\ oid = seq_orders d + 1
  /\ serve (checkout POST) e d
     = mk_outcome (checkout_db uid (e_now e) d) (e_session e) []
                  (RedirectTo (EpThankYou oid)).
Proof.
  intros Hu Hr.
  destruct (checkout_post_cases e d uid Hu)
    as [[_ E] | [[_ E] | [(_ & _ & E) | (Hi & _ & E)]]];
    rewrite E in Hr; cbn in Hr; try discriminate.
  inversion Hr; subst. repeat split; assumption.
Qed.


Lemma checkout_fault_free (e : env) (d : db) (uid : Z) :
  logged_in e uid -> e_fault e = None ->
  serve (checkout POST) e d
  = match select_items uid d with
    | [] => EmptyCart e d
    | _ => if bindable [checkout_total uid d]
           then mk_outcome (checkout_db uid (e_now e) d) (e_session e) []
                           (RedirectTo (EpThankYou (seq_orders d + 1)))
           else mk_outcome d (e_session e) [] (ServerError OverflowError)
    end.
Proof.
  intros Hu Hf.
  destruct (checkout_post_cases e d uid Hu)
    as [[Hne _] | [[Hi E] | [(Hi & Hb & E) | (Hi & Hb & E)]]].
  - contradiction.
  - rewrite Hi. exact E.
  - rewrite Hb. destruct (select_items uid d); [contradiction | exact E].
  - rewrite Hb. destruct (select_items uid d); [contradiction | exact E].
Qed.


(** Closes a constraint on a concrete database by evaluation. *)
Ltac by_evaluation :=
  repeat split; vm_compute;
  repeat (constructor; try (vm_compute; intuition discriminate)).


Lemma cart_lines_cleared (uid : Z) (d d' : db) :
  t_cart d' = filter (fun c => negb (c_user_id c =? uid)) (t_cart d) ->
  cart_lines uid d' = [].
Proof.
  unfold cart_lines. intros ->.
  induction (t_cart d) as [|c l IH]; cbn; [reflexivity|].
  destruct (c_user_id c =? uid) eqn:E; cbn; [exact IH|].
  rewrite E. exact IH.
Qed.

(** C3.  Whatever store call fails, a checkout leaves the database in one
    of two states: as it was, and then the reply is not the confirmation;
    or with the order header, every order item and the cleared cart
    together, and then the reply is the confirmation.  The handler commits
    once, after the three writes, and the connection is closed without a
    commit on every other path. *)
Theorem checkout_all_or_nothing (e : env) (d : db) :
  let o := serve (checkout POST) e d in
  (out_db o = d /\ forall oid, out_reply o <> RedirectTo (EpThankYou oid))
  \/ (exists uid,
         let items := select_items uid d in
         let oid := seq_orders d + 1 in
         logged_in e uid /\ items <> []
         /\ out_reply o = RedirectTo (EpThankYou oid)
         /\ t_orders (out_db o)
            = t_orders d
              ++ [mk_order oid uid
                    (py_sum (map (fun i => i_price i * i_quantity i) items))
                    (e_now e)]
         /\ t_order_items (out_db o)
            = t_order_items d ++ numbered_items (seq_order_items d) oid items
         /\ cart_lines uid (out_db o) = []
         /\ out_db o = checkout_db uid (e_now e) d).
Proof.
  intros o. unfold o.
  destruct (logged_in_dec e) as [[uid Hu] | Hno].
  - destruct (checkout_post_cases e d uid Hu)
      as [[_ E] | [[_ E] | [(_ & _ & E) | (Hi & _ & E)]]];
      rewrite E.
    + left. split; [reflexivity | discriminate].
    + left. split; [reflexivity | discriminate].
    + left. split; [reflexivity | discriminate].
    + right. exists uid. cbv zeta.
      split; [exact Hu|]. split; [exact Hi|].
      split; [reflexivity|]. split; [reflexivity|]. split; [reflexivity|].
      split; [|reflexivity].
      apply (cart_lines_cleared uid d); reflexivity.
  - rewrite (checkout_not_logged_in POST e d Hno).
    left. split; [reflexivity | discriminate].
Qed.

(** The faults of C3 at work on the scenario, whose checkout makes six
    store calls (the select, the order header, two order items, the
    clearing of the cart, the commit): a failure at any of them leaves the
    database as it was and ends the request in an error; a failure later
    than that comes after the commit. *)
Example checkout_interrupted :
  forall n, In n (seq 0 6) ->
    out_db (serve (checkout POST)
                  (mk_env (e_session alice) (e_now alice) (Some n))
                  scenario_db) = scenario_db
    /\ out_reply (serve (checkout POST)
                        (mk_env (e_session alice) (e_now alice) (Some n))
                        scenario_db) = ServerError OperationalError.
Proof.
  intros n Hn. cbn [seq In] in Hn.
  repeat (destruct Hn as [<- | Hn]; [split; vm_compute; reflexivity|]).
  destruct Hn.
Qed.

Example checkout_not_interrupted :
  serve (checkout POST) (mk_env (e_session alice) (e_now alice) (Some 6%nat))
        scenario_db
  = serve (checkout POST) alice scenario_db.
Proof. vm_compute. reflexivity. Qed.

Lemma items_of_new_order (d : db) (oid : Z) (new : list order_item_row) :
  Forall (fun oi => oi_order_id oi <= seq_orders d) (t_order_items d) ->
  seq_orders d < oid ->
  Forall (fun oi => oi_order_id oi = oid) new ->
  filter (fun oi => oi_order_id oi =? oid) (t_order_items d ++ new) = new.
Proof.
  intros Hold Hlt Hnew. rewrite filter_app.
  replace (filter _ (t_order_items d)) with (@nil order_item_row).
  - cbn. induction Hnew as [|oi l Hoi _ IH]; cbn; [reflexivity|].
    rewrite IH. replace (oi_order_id oi =? oid) with true by lia. reflexivity.
  - symmetry. apply filter_none.
    induction Hold as [|oi l Hoi _ IH]; cbn; [reflexivity|].
    rewrite IH. replace (oi_order_id oi =? oid) with false by lia. reflexivity.
Qed.

(** C4, as the claim has it, fails: with a cart line that names a product
    the catalog lacks, checkout succeeds and writes fewer order items than
    the cart had lines (here two items for three lines). *)
Lemma checkout_not_one_item_per_line :
  out_reply (serve (checkout POST) alice dangling_db)
  = RedirectTo (EpThankYou 1)
  /\ List.length (cart_lines 1 dangling_db) = 3%nat
  /\ List.length
       (items_of_order 1 (out_db (serve (checkout POST) alice dangling_db)))
     = 2%nat
  /\ List.length
       (items_of_order 1 (out_db (serve (checkout POST) alice dangling_db)))
     <> List.length (cart_lines 1 dangling_db).
Proof. repeat split; vm_compute; try reflexivity; try discriminate. Qed.

(** C4, amended.  After a successful checkout the cart of the user has no
    line, and the items of the new order are, up to the order they were
    written in, one per cart line of the user that named a product of the
    catalog, each with the quantity of the line and, as price each, the
    unit price the catalog had at checkout; a line that named no product of
    the catalog has no item. *)
Theorem checkout_snapshots_cart (e : env) (d : db) (uid oid : Z) :
  db_ok d -> logged_in e uid ->
  let o := serve (checkout POST) e d in
  out_reply o = RedirectTo (EpThankYou oid) ->
  cart_lines uid (out_db o) = []
  /\ Permutation (items_of_order oid (out_db o)) (cart_snapshot uid d)
  /\ List.length (items_of_order oid (out_db o))
     = List.length (filter (in_catalog d) (cart_lines uid d))
  /\ items_of_order oid d = [].
Proof.
  intros (Hcat & _ & _ & Hord) Hu o Hr.
  destruct (checkout_success e d uid oid Hu Hr) as (Hi & -> & E).
  assert (Hitems : Permutation (items_of_order (seq_orders d + 1) (out_db o))
                               (cart_snapshot uid d)).
  { unfold o. rewrite E. unfold items_of_order. cbn -[Z.add].
    rewrite (items_of_new_order d); [| exact Hord | lia
                                     | apply numbered_items_order_id].
    rewrite numbered_items_snapshot. apply select_items_snapshot. exact Hcat. }
  split; [|split; [exact Hitems | split]].
  - unfold o. rewrite E. apply (cart_lines_cleared uid d); reflexivity.
  - rewrite (Permutation_length Hitems). unfold cart_snapshot.
    apply length_map.
  - unfold items_of_order. rewrite filter_none; [reflexivity|].
    induction Hord as [|oi l Hoi _ IH]; cbn; [reflexivity|].
    rewrite IH. replace (oi_order_id oi =? seq_orders d + 1) with false by lia.
    reflexivity.
Qed.

Lemma checkout_snapshots_cart_witness :
  db_ok scenario_db /\ logged_in alice 1
  /\ out_reply (serve (checkout POST) alice scenario_db)
     = RedirectTo (EpThankYou 1)
  /\ cart_lines 1 (out_db (serve (checkout POST) alice scenario_db)) = []
  /\ Permutation
       (items_of_order 1 (out_db (serve (checkout POST) alice scenario_db)))
       [(1, 2, 200); (4, 1, 50)]
  /\ List.length
       (items_of_order 1 (out_db (serve (checkout POST) alice scenario_db)))
     = 2%nat.
Proof.
  assert (Hok : db_ok scenario_db) by by_evaluation.
  assert (Hu : logged_in alice 1) by (split; [reflexivity | discriminate]).
  assert (Hr : out_reply (serve (checkout POST) alice scenario_db)
               = RedirectTo (EpThankYou 1)) by (vm_compute; reflexivity).
  assert (Hs : cart_snapshot 1 scenario_db = [(1, 2, 200); (4, 1, 50)])
    by (vm_compute; reflexivity).
  destruct (checkout_snapshots_cart alice scenario_db 1 1 Hok Hu Hr)
    as (Hcart & Hitems & _ & _).
  rewrite Hs in Hitems.
  split; [exact Hok|]. split; [exact Hu|]. split; [exact Hr|].
  split; [exact Hcart|]. split; [exact Hitems|].
  exact (Permutation_length Hitems).
Defined.

Lemma select_items_no_lines (uid : Z) (d : db) :
  cart_lines uid d = [] -> select_items uid d = [].
Proof.
  intros H. apply select_items_all_dangling. rewrite H. intros c [].
Qed.

(** C5.  With an empty cart, checkout fails with the EmptyCart reply and
    leaves the database as it was, so no order and no order item is
    created; and right after a successful checkout a second one fails in
    that way, the cart having been cleared. *)
Theorem checkout_empty_cart (e : env) (d : db) (uid : Z) :
  logged_in e uid -> e_fault e = None ->
  let o := serve (checkout POST) e d in
  (cart_lines uid d = [] -> o = EmptyCart e d)
  /\ (forall oid e2,
         out_reply o = RedirectTo (EpThankYou oid) ->
         logged_in e2 uid -> e_fault e2 = None ->
         serve (checkout POST) e2 (out_db o) = EmptyCart e2 (out_db o)).
Proof.
  intros Hu Hf o. split.
  - intros Hc. unfold o. rewrite (checkout_fault_free e d uid Hu Hf).
    rewrite (select_items_no_lines uid d Hc). reflexivity.
  - intros oid e2 Hr Hu2 Hf2.
    rewrite (checkout_fault_free e2 (out_db o) uid Hu2 Hf2).
    rewrite select_items_no_lines; [reflexivity|].
    destruct (checkout_success e d uid oid Hu Hr) as (_ & _ & E).
    unfold o. rewrite E. apply (cart_lines_cleared uid d); reflexivity.
Qed.

Lemma checkout_empty_cart_witness :
  logged_in alice 1 /\ e_fault alice = None
  /\ serve (checkout POST) alice empty_db = EmptyCart alice empty_db
  /\ out_reply (serve (checkout POST) alice scenario_db)
     = RedirectTo (EpThankYou 1)
  /\ serve (checkout POST) alice
           (out_db (serve (checkout POST) alice scenario_db))
     = EmptyCart alice (out_db (serve (checkout POST) alice scenario_db)).
Proof.
  assert (Hu : logged_in alice 1) by (split; [reflexivity | discriminate]).
  assert (Hf : e_fault alice = None) by reflexivity.
  split; [exact Hu|]. split; [exact Hf|]. split; [|split; [reflexivity|]].
  - apply (proj1 (checkout_empty_cart alice empty_db 1 Hu Hf)). reflexivity.
  - apply (proj2 (checkout_empty_cart alice scenario_db 1 Hu Hf) 1 alice);
      [reflexivity | exact Hu | exact Hf].
Defined.

(** C10.  The cart lines that name no product of the catalog do not reach
    checkout: the rows it reads, and so the order and the order items it
    writes and its reply, are those of the cart without these lines; a cart
    made of such lines only is an empty cart; and a checkout that succeeds
    on the other lines deletes these too. *)
Theorem checkout_skips_lines_off_catalog (e : env) (d : db) (uid : Z) :
  logged_in e uid -> e_fault e = None ->
  let o := serve (checkout POST) e d in
  let o' := serve (checkout POST) e (drop_dangling d) in
  (forall i, In i (select_items uid d) ->
     exists c, In c (cart_lines uid d) /\ in_catalog d c = true
               /\ i_product_id i = c_product_id c
               /\ i_quantity i = c_quantity c)
  /\ (out_reply o = out_reply o' /\ t_orders (out_db o) = t_orders (out_db o')
      /\ t_order_items (out_db o) = t_order_items (out_db o'))
  /\ ((forall c, In c (cart_lines uid d) -> in_catalog d c = false) ->
      o = EmptyCart e d)
  /\ (forall oid, out_reply o = RedirectTo (EpThankYou oid) ->
      cart_lines uid (out_db o) = []).
Proof.
  intros Hu Hf o o'. split; [|split; [|split]].
  - intros i Hi. apply select_items_in in Hi as (c & p & Hc & Hp & Hid & ->).
    exists c. cbn [i_product_id i_quantity].
    split; [exact Hc | split; [|split; reflexivity]].
    apply existsb_exists. exists p. split; [exact Hp | lia].
  - unfold o, o'. rewrite !(checkout_fault_free _ _ uid Hu Hf).
    unfold checkout_total. rewrite select_items_drop_dangling.
    destruct (select_items uid d) eqn:Ei;
      [split; [reflexivity | split; reflexivity]|].
    destruct (bindable _);
      [|split; [reflexivity | split; reflexivity]].
    cbn [out_reply out_db]. unfold checkout_db.
    rewrite select_items_drop_dangling.
    split; [reflexivity | split; reflexivity].
  - intros Hall. unfold o. rewrite (checkout_fault_free e d uid Hu Hf).
    rewrite (select_items_all_dangling uid d Hall). reflexivity.
  - intros oid Hr.
    destruct (checkout_success e d uid oid Hu Hr) as (_ & _ & E).
    unfold o. rewrite E. apply (cart_lines_cleared uid d); reflexivity.
Qed.

Lemma checkout_skips_lines_off_catalog_witness :
  logged_in alice 1 /\ e_fault alice = None
  /\ List.length (cart_lines 1 dangling_db) = 3%nat
  /\ t_orders (out_db (serve (checkout POST) alice dangling_db))
     = t_orders (out_db (serve (checkout POST) alice scenario_db))
  /\ cart_lines 1 (out_db (serve (checkout POST) alice dangling_db)) = []
  /\ List.length (cart_lines 1 only_dangling_db) = 1%nat
  /\ serve (checkout POST) alice only_dangling_db
     = EmptyCart alice only_dangling_db.
Proof.
  assert (Hu : logged_in alice 1) by (split; [reflexivity | discriminate]).
  assert (Hf : e_fault alice = None) by reflexivity.
  destruct (checkout_skips_lines_off_catalog alice dangling_db 1 Hu Hf)
    as (_ & (_ & Ho & _) & _ & Hclear).
  destruct (checkout_skips_lines_off_catalog alice only_dangling_db 1 Hu Hf)
    as (_ & _ & Hempty & _).
  split; [exact Hu|]. split; [exact Hf|].
  split; [vm_compute; reflexivity|].
  split; [|split; [|split; [vm_compute; reflexivity|]]].
  - rewrite Ho. vm_compute. reflexivity.
  - apply (Hclear 1). vm_compute. reflexivity.
  - apply Hempty. intros c Hc.
    assert (Hl : cart_lines 1 only_dangling_db = [mk_cart 1 1 999 1])
      by (vm_compute; reflexivity).
    rewrite Hl in Hc. clear Hl. destruct Hc as [<- | []].
    vm_compute. reflexivity.
Defined.

(** *** Set quantity *)

Lemma find_filter_same {A} (f g : A -> bool) (l : list A) :
  (forall a, f a = true -> g a = true) -> find f (filter g l) = find f l.
Proof.
  intros H. induction l as [|a l IH]; cbn; [reflexivity|].
  destruct (g a) eqn:Eg; cbn.
  - rewrite IH. reflexivity.
  - destruct (f a) eqn:Ef; [|exact IH].
    rewrite (H a Ef) in Eg. discriminate.
Qed.

Lemma find_filter_none {A} (f : A -> bool) (l : list A) :
  find f (filter (fun a => negb (f a)) l) = None.
Proof.
  induction l as [|a l IH]; cbn; [reflexivity|].
  destruct (f a) eqn:Ef; cbn; [exact IH|].
  rewrite Ef. exact IH.
Qed.

Lemma find_map_same {A} (f : A -> bool) (h : A -> A) (l : list A) :
  (forall a, f (h a) = f a) ->
  find f (map h l) = option_map h (find f l).
Proof.
  intros H. induction l as [|a l IH]; cbn; [reflexivity|].
  rewrite H. destruct (f a); [reflexivity | exact IH].
Qed.

Lemma other_line (uid pid u p : Z) (c : cart_row) :
  (u, p) <> (uid, pid) ->
  cart_line_of u p c = true -> cart_line_of uid pid c = false.
Proof.
  unfold cart_line_of. intros Hne H.
  apply andb_true_iff in H as [H1 H2].
  destruct (c_user_id c =? uid) eqn:E1; [|reflexivity].
  destruct (c_product_id c =? pid) eqn:E2; [|reflexivity].
  exfalso. apply Hne. f_equal; lia.
Qed.

Lemma select_quantity_deleted (uid pid : Z) (d : db) :
  let d' := committed (delete_cart_line uid pid d) d in
  select_quantity uid pid d' = None
  /\ forall u p, (u, p) <> (uid, pid) ->
                 select_quantity u p d' = select_quantity u p d.
Proof.
  cbn zeta. unfold select_quantity, delete_cart_line, committed, set_cart.
  cbn [t_cart]. split.
  - rewrite find_filter_none. reflexivity.
  - intros u p Hne. rewrite find_filter_same; [reflexivity|].
    intros c Hc. rewrite (other_line uid pid u p c Hne Hc). reflexivity.
Qed.

Lemma select_quantity_updated (q uid pid : Z) (d : db) :
  let d' := committed (update_quantity q uid pid d) d in
  select_quantity uid pid d'
  = match select_quantity uid pid d with Some _ => Some q | None => None end
  /\ (forall u p, (u, p) <> (uid, pid) ->
                  select_quantity u p d' = select_quantity u p d)
  /\ List.length (t_cart d') = List.length (t_cart d)
  /\ (select_quantity uid pid d = None -> d' = d).
Proof.
  cbn zeta. unfold select_quantity, update_quantity, committed, set_cart.
  cbn [t_cart].
  split; [|split; [|split]].
  - rewrite find_map_same.
    + destruct (find (cart_line_of uid pid) (t_cart d)) as [c|] eqn:Ec;
        cbn [option_map]; [|reflexivity].
      apply find_some in Ec as [_ Ec]. rewrite Ec. reflexivity.
    + intros c. destruct (cart_line_of uid pid c) eqn:Ec; exact Ec.
  - intros u p Hne. rewrite find_map_same.
    + destruct (find (cart_line_of u p) (t_cart d)) as [c|] eqn:Ec;
        cbn [option_map]; [|reflexivity].
      apply find_some in Ec as [_ Ec].
      rewrite (other_line uid pid u p c Hne Ec). reflexivity.
    + intros c. destruct (cart_line_of uid pid c); reflexivity.
  - apply length_map.
  - intros Hnone.
    assert (Ex : existsb (cart_line_of uid pid) (t_cart d) = false).
    { apply find_none_existsb.
      destruct (find _ (t_cart d)); [discriminate | reflexivity]. }
    clear Hnone.
    assert (Hmap : forall l,
               existsb (cart_line_of uid pid) l = false ->
               map (fun c => if cart_line_of uid pid c
                             then mk_cart (c_id c) (c_user_id c)
                                          (c_product_id c) q
                             else c) l = l).
    { induction l as [|c l IH]; [reflexivity|].
      cbn [existsb map]. intros H. apply orb_false_iff in H as [Ec El].
      rewrite Ec, (IH El). reflexivity. }
    rewrite (Hmap _ Ex). apply db_eta.
Qed.

(** C1, as the claim has it, fails: set-quantity 5 on a product the user
    has no cart line for succeeds and creates no line. *)
Lemma update_cart_creates_no_line :
  select_quantity 1 2 scenario_db = None
  /\ out_reply (serve (update_cart 2 (quantity_form 5)) alice scenario_db)
     = Json true None 200
  /\ select_quantity 1 2
       (out_db (serve (update_cart 2 (quantity_form 5)) alice scenario_db))
     <> Some 5
  /\ out_db (serve (update_cart 2 (quantity_form 5)) alice scenario_db)
     = scenario_db.
Proof. repeat split; vm_compute; try reflexivity; try discriminate. Qed.

(** C1, amended.  For a logged-in user, with the store available, and a
    product id and a quantity that SQLite can hold (at most [max_int], the
    product id not negative, as the route has it), set-quantity answers ok
    and:
    - with a quantity of 0 or less (a negative one counts as 0) the cart has
      no line for (user, product) afterwards;
    - with a quantity [q] above 0, a line that exists for (user, product)
      has quantity exactly [q] afterwards, whatever it had before, and no
      line is added or removed; when no such line exists the database stays
      as it was, no line is created;
    - the lines of every other (user, product) keep their quantity.
    A product id or a quantity above [max_int] cannot be bound to the
    statement: the request ends in an error and changes nothing. *)
Theorem update_cart_sets_quantity (e : env) (d : db) (uid pid q : Z) :
  logged_in e uid -> e_fault e = None -> 0 <= pid ->
  let o := serve (update_cart pid (quantity_form q)) e d in
  (pid <= max_int -> q <= max_int ->
   out_reply o = Json true None 200
   /\ (q <= 0 ->
       select_quantity uid pid (out_db o) = None
       /\ o = serve (update_cart pid (quantity_form 0)) e d)
   /\ (0 < q ->
       select_quantity uid pid (out_db o)
       = match select_quantity uid pid d with
         | Some _ => Some q
         | None => None
         end
       /\ List.length (t_cart (out_db o)) = List.length (t_cart d)
       /\ (select_quantity uid pid d = None -> out_db o = d))
   /\ (forall u p, (u, p) <> (uid, pid) ->
                   select_quantity u p (out_db o) = select_quantity u p d))
  /\ (max_int < pid \/ max_int < q ->
      o = mk_outcome d (e_session e) [] (ServerError OverflowError)).
Proof.
  intros Hu Hf Hpid o. split.
  - intros Hp Hq.
    assert (Hcase : forall z,
               z <= max_int ->
               serve (update_cart pid (quantity_form z)) e d
               = mk_outcome
                   (committed (if Z.max 0 z =? 0
                               then delete_cart_line uid pid d
                               else update_quantity (Z.max 0 z) uid pid d) d)
                   (e_session e) [] (Json true None 200)).
    { intros z Hz.
      pose proof (update_cart_cases pid (quantity_form z) e d uid Hu) as H.
      cbn -[bindable Z.max] in H.
      assert (Hb : bindable (if Z.max 0 z =? 0
                             then [pid] else [Z.max 0 z; pid]) = true).
      { destruct (Z.max 0 z =? 0); [apply bindable_one | apply bindable_two];
          unfold min_int, max_int in *; lia. }
      destruct H as [[Hne _] | [[Hb' _] | [_ H]]];
        [contradiction | congruence | exact H]. }
    subst o. rewrite (Hcase q Hq). cbn [out_reply out_db].
    split; [reflexivity|].
    destruct (select_quantity_deleted uid pid d) as [Hd1 Hd2].
    destruct (select_quantity_updated (Z.max 0 q) uid pid d)
      as (Hu1 & Hu2 & Hu3 & Hu4).
    split; [|split].
    + intros Hq0. replace (Z.max 0 q =? 0) with true by lia.
      split; [exact Hd1|]. rewrite (Hcase 0) by (unfold max_int; lia).
      replace (Z.max 0 0 =? 0) with true by lia. reflexivity.
    + intros Hq0. replace (Z.max 0 q =? 0) with false by lia.
      replace (Z.max 0 q) with q in * by lia.
      split; [exact Hu1 | split; [exact Hu3 | exact Hu4]].
    + intros u p Hne. destruct (Z.max 0 q =? 0); [apply Hd2 | apply Hu2];
        exact Hne.
  - intros Hover.
    pose proof (update_cart_cases pid (quantity_form q) e d uid Hu) as H.
    cbn -[bindable Z.max] in H.
    assert (Hb : bindable (if Z.max 0 q =? 0
                           then [pid] else [Z.max 0 q; pid]) = false).
    { destruct (Z.max 0 q =? 0) eqn:Ez.
      - apply not_bindable_one. right. unfold max_int in *. lia.
      - destruct (bindable [Z.max 0 q; pid]) eqn:Eb; [|reflexivity].
        apply bindable_two in Eb. unfold max_int in *. lia. }
    destruct H as [[Hne _] | [[_ H] | [Hb' _]]];
      [contradiction | exact H | congruence].
Qed.

Lemma update_cart_sets_quantity_witness :
  logged_in alice 1 /\ e_fault alice = None
  /\ select_quantity 1 1 scenario_db = Some 2
  /\ select_quantity 1 1
       (out_db (serve (update_cart 1 (quantity_form 5)) alice scenario_db))
     = Some 5
  /\ select_quantity 1 1
       (out_db (serve (update_cart 1 (quantity_form (-3))) alice scenario_db))
     = None
  /\ select_quantity 1 4
       (out_db (serve (update_cart 1 (quantity_form 5)) alice scenario_db))
     = Some 1
  /\ serve (update_cart 1 (quantity_form (max_int + 1))) alice scenario_db
     = mk_outcome scenario_db (e_session alice) []
                  (ServerError OverflowError).
Proof.
  assert (Hu : logged_in alice 1) by (split; [reflexivity | discriminate]).
  assert (Hf : e_fault alice = None) by reflexivity.
  assert (Hp : 0 <= 1) by lia.
  assert (Hm : 1 <= max_int) by (unfold max_int; lia).
  destruct (update_cart_sets_quantity alice scenario_db 1 1 5 Hu Hf Hp)
    as (Hfive & _).
  destruct (Hfive Hm ltac:(unfold max_int; lia)) as (_ & _ & Hset & Hframe).
  destruct (update_cart_sets_quantity alice scenario_db 1 1 (-3) Hu Hf Hp)
    as (Hminus & _).
  destruct (Hminus Hm ltac:(unfold max_int; lia)) as (_ & Hzero & _ & _).
  destruct (update_cart_sets_quantity alice scenario_db 1 1 (max_int + 1)
                                      Hu Hf Hp)
    as (_ & Hover).
  split; [exact Hu|]. split; [exact Hf|].
  split; [vm_compute; reflexivity|]. split; [|split; [|split]].
  - destruct (Hset ltac:(lia)) as (H & _ & _). rewrite H.
    vm_compute. reflexivity.
  - destruct (Hzero ltac:(lia)) as (H & _). exact H.
  - rewrite (Hframe 1 4); [vm_compute; reflexivity | discriminate].
  - apply Hover. right. lia.
Defined.

(** *** The cart invariant *)

Lemma run_cart_ok (ms : list move) (d : db) : cart_ok d -> cart_ok (run ms d).
Proof.
  revert d. induction ms as [|m ms IH]; intros d H; cbn; [exact H|].
  apply IH. apply (effect_cart_ok d); [apply move_effect | exact H].
Qed.

Lemma select_items_from_cart (uid : Z) (d : db) (i : item_row) :
  In i (select_items uid d) ->
  exists c, In c (t_cart d) /\ c_user_id c = uid
            /\ i_product_id i = c_product_id c /\ i_quantity i = c_quantity c.
Proof.
  intros Hi. apply select_items_in in Hi as (c & p & Hc & _ & _ & ->).
  apply filter_In in Hc as [Hc Hu].
  exists c. cbn. repeat split; [assumption | lia].
Qed.

Lemma find_app_new {A} (f : A -> bool) (l : list A) (x : A) :
  find f l = None -> f x = true -> find f (l ++ [x]) = Some x.
Proof.
  intros Hl Hx. induction l as [|a l IH]; cbn in *.
  - rewrite Hx. reflexivity.
  - destruct (f a); [discriminate | exact (IH Hl)].
Qed.

Lemma add_to_cart_accepted (pid : Z) (e : env) (d : db) (uid : Z) :
  logged_in e uid -> e_fault e = None -> min_int <= pid <= max_int ->
  serve (add_to_cart pid) e d
  = mk_outcome
      (committed (match select_quantity uid pid d with
                  | Some _ => update_quantity_plus_one uid pid d
                  | None => insert_cart uid pid d
                  end) d)
      (e_session e) [] (Json true None 200).
Proof.
  intros Hu Hf Hp. apply bindable_one in Hp.
  destruct (add_to_cart_cases pid e d uid Hu)
    as [[Hne _] | [[Hb _] | [_ E]]];
    [contradiction | congruence | exact E].
Qed.

Lemma add_to_cart_quantity (pid : Z) (e : env) (d : db) (uid : Z) :
  logged_in e uid -> e_fault e = None -> min_int <= pid <= max_int ->
  select_quantity uid pid (out_db (serve (add_to_cart pid) e d))
  = Some (match select_quantity uid pid d with
          | Some q => q + 1
          | None => 1
          end).
Proof.
  intros Hu Hf Hp.
  rewrite (add_to_cart_accepted pid e d uid Hu Hf Hp). cbn [out_db]. unfold select_quantity.
  destruct (find (cart_line_of uid pid) (t_cart d)) as [c|] eqn:Ec; cbn.
  - rewrite find_map_same.
    + rewrite Ec. cbn. apply find_some in Ec as [_ Ec]. rewrite Ec.
      reflexivity.
    + intros a. destruct (cart_line_of uid pid a) eqn:Ea; [|exact Ea].
      exact Ea.
  - unfold insert_cart. rewrite (find_none_existsb _ _ Ec). cbn.
    rewrite find_app_new; [reflexivity | exact Ec |].
    unfold cart_line_of. cbn. rewrite !Z.eqb_refl. reflexivity.
Qed.

Lemma only_deletes (e : env) (d : db) :
  (forall c, In c (t_cart (out_db (serve clear_cart e d))) -> In c (t_cart d))
  /\ (forall m c, In c (t_cart (out_db (serve (checkout m) e d))) ->
                  In c (t_cart d)).
Proof.
  pose proof (read_only_handlers e d) as (_ & _ & _ & _ & _ & _ & _ & _ & _ & Hget).
  destruct (logged_in_dec e) as [[uid Hu] | Hno]; split.
  - intros c. destruct (clear_cart_cases e d uid Hu) as [[_ E] | E];
      rewrite E; cbn; [tauto|].
    intros Hc. apply filter_In in Hc. tauto.
  - intros [|] c; [rewrite Hget; tauto|].
    destruct (checkout_post_cases e d uid Hu)
      as [[_ E] | [[_ E] | [(_ & _ & E) | (_ & _ & E)]]];
      rewrite E; cbn; try tauto.
    intros Hc. apply filter_In in Hc. tauto.
  - destruct (cart_handlers_not_logged_in e d Hno) as (_ & _ & Hclr & _).
    rewrite Hclr. tauto.
  - intros m c. rewrite (checkout_not_logged_in m e d Hno). cbn. tauto.
Qed.

(** C6.  The cart table keeps its invariant, one line at most per (user,
    product) and every quantity at least 1, through every history of
    moves, so the rows a checkout reads all have a quantity of at least 1.
    The handlers keep it as the claim says, for a product id that the route
    and SQLite can hold (from 0 to [max_int]): add-to-cart leaves the line
    with quantity 1 if it is new and, if it was there with a quantity below
    [max_int], with one more; set-quantity with 0 or less leaves no line;
    clear-cart and checkout leave only lines that were there. *)
Theorem cart_lines_positive_and_unique (d : db) (ms : list move) :
  cart_ok d ->
  cart_ok (run ms d)
  /\ (forall uid i, In i (select_items uid (run ms d)) -> 1 <= i_quantity i)
  /\ (forall e uid pid,
         logged_in e uid -> e_fault e = None -> 0 <= pid <= max_int ->
         (forall q, select_quantity uid pid d = Some q -> q < max_int) ->
         select_quantity uid pid (out_db (serve (add_to_cart pid) e d))
         = Some (match select_quantity uid pid d with
                 | Some q => q + 1
                 | None => 1
                 end))
  /\ (forall e uid pid q,
         logged_in e uid -> e_fault e = None -> 0 <= pid <= max_int ->
         q <= 0 ->
         select_quantity uid pid
           (out_db (serve (update_cart pid (quantity_form q)) e d)) = None)
  /\ (forall e c,
         In c (t_cart (out_db (serve clear_cart e d))) -> In c (t_cart d))
  /\ (forall e m c,
         In c (t_cart (out_db (serve (checkout m) e d))) -> In c (t_cart d)).
Proof.
  intros Hok.
  assert (Hrun : cart_ok (run ms d)) by (apply run_cart_ok; exact Hok).
  split; [exact Hrun|]. split; [|split; [|split; [|split]]].
  - intros uid i Hi.
    destruct (select_items_from_cart uid _ i Hi) as (c & Hc & _ & _ & ->).
    destruct Hrun as [_ Hq]. revert c Hc. apply Forall_forall. exact Hq.
  - intros e uid pid Hu Hf Hp _. apply add_to_cart_quantity; try assumption.
    unfold min_int. lia.
  - intros e uid pid q Hu Hf Hp Hq.
    pose proof (update_cart_cases pid (quantity_form q) e d uid Hu) as H.
    cbn -[bindable Z.max] in H.
    replace (Z.max 0 q =? 0) with true in H by lia.
    assert (Hb : bindable [pid] = true)
      by (apply bindable_one; unfold min_int; lia).
    destruct H as [[Hne _] | [[Hb' _] | [_ H]]];
      [contradiction | congruence |].
    rewrite H. cbn [out_db]. apply select_quantity_deleted.
  - intros e. apply only_deletes.
  - intros e. apply only_deletes.
Qed.

Lemma cart_lines_positive_and_unique_witness :
  cart_ok empty_db
  /\ cart_ok scenario_db
  /\ select_quantity 1 1 (run (firstn 4 scenario_moves) empty_db) = Some 1
  /\ select_quantity 1 1 scenario_db = Some 2.
Proof.
  assert (H0 : cart_ok empty_db) by by_evaluation.
  destruct (cart_lines_positive_and_unique empty_db scenario_moves H0)
    as (Hok & _).
  split; [exact H0|]. split; [exact Hok|].
  split; vm_compute; reflexivity.
Defined.

(** *** Orders are append-only *)

Lemma appends_refl (d d' : db) :
  t_orders d' = t_orders d -> t_order_items d' = t_order_items d ->
  seq_orders d' = seq_orders d -> appends d d'.
Proof.
  intros H1 H2 H3. split; [lia|]. exists [], []. rewrite !app_nil_r.
  repeat split; auto.
Qed.

Lemma appends_trans (a b c : db) : appends a b -> appends b c -> appends a c.
Proof.
  intros (Hab & os1 & ois1 & Ho1 & Hi1 & Fo1 & Fi1)
         (Hbc & os2 & ois2 & Ho2 & Hi2 & Fo2 & Fi2).
  split; [lia|]. exists (os1 ++ os2), (ois1 ++ ois2).
  rewrite Ho2, Ho1, Hi2, Hi1, !app_assoc. repeat split.
  - apply Forall_app. split; [exact Fo1|].
    revert Fo2. apply Forall_impl. intros o Ho. lia.
  - apply Forall_app. split; [exact Fi1|].
    revert Fi2. apply Forall_impl. intros o Ho. lia.
Qed.

Lemma effect_appends (d d' : db) : effect d d' -> appends d d'.
Proof.
  intros Heff.
  destruct Heff as [ | Hp | username email password d' Hi | uid pid
                   | uid pid q Hq | uid | uid now Hitems | pid price ].
  - apply appends_refl; reflexivity.
  - destruct (seed_tables d Hp) as (_ & _ & _ & Ho & Hs & Hoi).
    apply appends_refl; assumption.
  - unfold insert_user in Hi. destruct (_ || _) in Hi; [discriminate|].
    inversion Hi; subst. apply appends_refl; reflexivity.
  - destruct (select_quantity uid pid d) as [q|] eqn:Eq; cbn;
      [apply appends_refl; reflexivity|].
    unfold insert_cart. destruct (existsb _ _);
      apply appends_refl; reflexivity.
  - destruct (q =? 0); apply appends_refl; reflexivity.
  - apply appends_refl; reflexivity.
  - split; [cbn -[Z.add]; lia|].
    eexists _, _. cbn -[Z.add].
    split; [reflexivity|]. split; [reflexivity|]. split.
    + constructor; [cbn; lia | constructor].
    + generalize (numbered_items_order_id (seq_order_items d)
                    (seq_orders d + 1) (select_items uid d)).
      apply Forall_impl. intros oi Hoi. lia.
  - apply appends_refl; reflexivity.
Qed.

Lemma run_appends (ms : list move) (d : db) : appends d (run ms d).
Proof.
  revert d. induction ms as [|m ms IH]; intros d; cbn.
  - apply appends_refl; reflexivity.
  - apply (appends_trans d (apply_move d m)); [|apply IH].
    apply effect_appends. apply move_effect.
Qed.

Lemma find_app_old {A} (f : A -> bool) (l new : list A) :
  Forall (fun a => f a = false) new -> find f (l ++ new) = find f l.
Proof.
  intros Hnew. induction l as [|a l IH]; cbn.
  - induction Hnew as [|a new Ha _ IH]; cbn; [reflexivity|].
    rewrite Ha. exact IH.
  - destruct (f a); [reflexivity | exact IH].
Qed.

Lemma filter_app_old {A} (f : A -> bool) (l new : list A) :
  Forall (fun a => f a = false) new -> filter f (l ++ new) = filter f l.
Proof.
  intros Hnew. rewrite filter_app.
  replace (filter f new) with (@nil A); [apply app_nil_r|].
  induction Hnew as [|a new Ha _ IH]; cbn; [reflexivity|].
  rewrite Ha. exact IH.
Qed.

(** C7.  No history of moves, of the application or on the prices of the
    catalog, touches an order that exists: the two order tables only grow at
    their end, and an order read by its id, header and items with their
    price each, reads the same ever after. *)
Theorem orders_never_change (d : db) (ms : list move) :
  (exists os ois,
      t_orders (run ms d) = t_orders d ++ os
      /\ t_order_items (run ms d) = t_order_items d ++ ois)
  /\ (forall oid,
         oid <= seq_orders d ->
         order_of oid (run ms d) = order_of oid d
         /\ items_of_order oid (run ms d) = items_of_order oid d).
Proof.
  destruct (run_appends ms d) as (_ & os & ois & Ho & Hi & Fo & Fi).
  split; [exists os, ois; split; assumption|].
  intros oid Hoid. unfold order_of, items_of_order. rewrite Ho, Hi. split.
  - apply find_app_old. revert Fo. apply Forall_impl. intros o H. lia.
  - f_equal. apply filter_app_old.
    revert Fi. apply Forall_impl. intros o H. lia.
Qed.

(** C7 on the scenario: after the checkout the price of Tomato changes, the
    user fills the cart and checks out again; the first order still reads
    450 and 200 and 50. *)
Lemma orders_never_change_witness :
  let d1 := out_db (serve (checkout POST) alice scenario_db) in
  let later := [ Reprice 1 999;
                 App (Request (ReqAddToCart 1)) alice;
                 App (Request (ReqCheckout POST)) alice;
                 App (Request ReqClearCart) alice ] in
  1 <= seq_orders d1
  /\ order_of 1 (run later d1) = Some (mk_order 1 1 450 1000)
  /\ items_of_order 1 (run later d1) = [(1, 2, 200); (4, 1, 50)]
  /\ items_of_order 2 (run later d1) = [(1, 1, 999)].
Proof.
  intros d1 later.
  assert (H1 : 1 <= seq_orders d1) by (vm_compute; discriminate).
  destruct (proj2 (orders_never_change d1 later) 1 H1) as [Ho Hi].
  split; [exact H1|]. split; [|split].
  - rewrite Ho. vm_compute. reflexivity.
  - rewrite Hi. vm_compute. reflexivity.
  - vm_compute. reflexivity.
Defined.

(** *** Signup *)

Lemma str_truthy_nonempty (s : string) : s <> "" -> str_truthy s = true.
Proof. destruct s; [congruence | reflexivity]. Qed.

Lemma insert_user_taken (username email password : string) (d : db) :
  identity_taken d username email ->
  insert_user username email password d = inl IntegrityError.
Proof.
  intros (u & Hu & Hid). unfold insert_user.
  replace (_ || _) with true; [reflexivity|].
  symmetry. apply orb_true_iff.
  destruct Hid as [Hn | He]; [left | right];
    apply existsb_exists; exists u; split; try exact Hu.
  - apply String.eqb_eq. exact Hn.
  - rewrite He. apply String.eqb_refl.
Qed.

(** The guard of signup: without a username or without a password, after
    trimming, the form comes back with a message and nothing is stored. *)
Lemma signup_requires_username_and_password (f : form) (e : env) (d : db) :
  strip (form_get (f_username f) "") = ""
  \/ strip (form_get (f_password f) "") = "" ->
  serve (signup POST f) e d
  = mk_outcome d (e_session e)
               [("Username and password are required.", "error")]
               (Render "signup.html" CtxNone).
Proof.
  intros H. pose proof (signup_post_cases f e d) as Hc. cbn zeta in Hc.
  destruct H as [H | H]; rewrite H in Hc; cbn [str_truthy negb orb] in Hc;
    [exact Hc|].
  rewrite orb_true_r in Hc. exact Hc.
Qed.

(** C8, as the claim has it, fails: a signup with a username that exists
    and no password is answered with the required-fields message, not with
    DuplicateIdentity. *)
Lemma signup_duplicate_without_password :
  identity_taken scenario_db "alice" "alice@example.org"
  /\ serve (signup POST no_password_form) guest scenario_db
     <> DuplicateIdentity guest scenario_db
  /\ out_flashes (serve (signup POST no_password_form) guest scenario_db)
     = [("Username and password are required.", "error")].
Proof.
  split; [|split].
  - exists (mk_user 1 "alice" (Some "alice@example.org") "secret").
    split; [vm_compute; left; reflexivity | left; reflexivity].
  - vm_compute. discriminate.
  - vm_compute. reflexivity.
Qed.

(** C8, amended.  A signup whose username and password are not empty once
    trimmed, and whose trimmed username or trimmed email a stored user
    already has, stores nothing, whatever the store does; with the store
    available it is answered with the DuplicateIdentity message on the
    signup form, not with a server error. *)
Theorem signup_duplicate_identity (f : form) (e : env) (d : db) :
  let username := strip (form_get (f_username f) "") in
  let email := strip (form_get (f_email f) "") in
  let password := strip (form_get (f_password f) "") in
  username <> "" -> password <> "" ->
  identity_taken d username email ->
  out_db (serve (signup POST f) e d) = d
  /\ (e_fault e = None -> serve (signup POST f) e d = DuplicateIdentity e d).
Proof.
  intros username email password Hn Hp Htaken.
  pose proof (signup_post_cases f e d) as Hc. cbn zeta in Hc.
  fold username email password in Hc.
  rewrite (str_truthy_nonempty _ Hn), (str_truthy_nonempty _ Hp) in Hc.
  rewrite (insert_user_taken username email password d Htaken) in Hc.
  cbn [negb orb] in Hc.
  destruct Hc as [[Hne E] | E]; rewrite E; (split; [reflexivity|]);
    intros Hf; [contradiction | reflexivity].
Qed.

Lemma signup_duplicate_identity_witness :
  let f := mk_form (Some "  alice ") (Some "other@example.org")
                   (Some "hunter2") None in
  strip "  alice " = "alice"
  /\ identity_taken scenario_db "alice" "other@example.org"
  /\ serve (signup POST f) guest scenario_db
     = DuplicateIdentity guest scenario_db
  /\ t_users (out_db (serve (signup POST f) guest scenario_db))
     = t_users scenario_db.
Proof.
  intros f.
  assert (Ht : identity_taken scenario_db "alice" "other@example.org").
  { exists (mk_user 1 "alice" (Some "alice@example.org") "secret").
    split; [vm_compute; left; reflexivity | left; reflexivity]. }
  destruct (signup_duplicate_identity f guest scenario_db) as [Hdb Hreply].
  - vm_compute. discriminate.
  - vm_compute. discriminate.
  - exact Ht.
  - split; [vm_compute; reflexivity|]. split; [exact Ht|]. split.
    + apply Hreply. reflexivity.
    + rewrite Hdb. reflexivity.
Defined.

(** *** Login *)

Lemma select_user_some (username password : string) (d : db) id name :
  select_user username password d = Some (id, name) ->
  exists u, In u (t_users d) /\ u_username u = username
            /\ u_password u = password /\ u_id u = id /\ name = username.
Proof.
  unfold select_user. intros H.
  destruct (find _ (t_users d)) as [u|] eqn:Eu; [|discriminate].
  inversion H; subst. apply find_some in Eu as [Hin Hm].
  apply andb_true_iff in Hm as [Hn Hp].
  apply String.eqb_eq in Hn. apply String.eqb_eq in Hp.
  exists u. repeat split; assumption.
Qed.

Lemma select_user_none (username password : string) (d : db) :
  select_user username password d = None <->
  ~ credentials_match d username password.
Proof.
  unfold select_user, credentials_match. split.
  - intros H (u & Hin & Hn & Hp).
    destruct (find _ (t_users d)) as [v|] eqn:Ev; [discriminate|].
    pose proof (find_none _ _ Ev u Hin) as Hu. cbn in Hu.
    rewrite Hn, Hp, !String.eqb_refl in Hu. discriminate.
  - intros H. destruct (find _ (t_users d)) as [v|] eqn:Ev; [|reflexivity].
    exfalso. apply H. apply find_some in Ev as [Hin Hm].
    apply andb_true_iff in Hm as [Hn Hp].
    apply String.eqb_eq in Hn. apply String.eqb_eq in Hp.
    exists v. repeat split; assumption.
Qed.

(** C9, as the claim has it, fails: a login is accepted though the
    submitted username equals no stored one, because the handler trims it
    before it compares. *)
Lemma login_accepts_untrimmed_username :
  f_username untrimmed_form = Some "alice "
  /\ out_reply (serve (login POST untrimmed_form) guest scenario_db)
     = RedirectTo EpHome
  /\ ~ credentials_match scenario_db "alice " "secret".
Proof.
  split; [reflexivity|]. split; [vm_compute; reflexivity|].
  intros (u & Hin & Hn & _).
  assert (Hl : t_users scenario_db
               = [mk_user 1 "alice" (Some "alice@example.org") "secret"])
    by (vm_compute; reflexivity).
  rewrite Hl in Hin. clear Hl. destruct Hin as [<- | []].
  cbn in Hn. discriminate Hn.
Qed.

(** C9, amended.  With the store available, a login succeeds (redirect to
    home, session of the matching user) exactly when the submitted username
    and password, both trimmed of surrounding white space, are the username
    and password of a stored user; and every login that fails gives one and
    the same outcome, InvalidCredentials, whether the username is unknown
    or the password is wrong: two failed logins on the same database cannot
    be told apart. *)
Theorem login_matches_trimmed_credentials (f : form) (e : env) (d : db) :
  e_fault e = None ->
  let username := strip (form_get (f_username f) "") in
  let password := strip (form_get (f_password f) "") in
  let o := serve (login POST f) e d in
  (credentials_match d username password <-> out_reply o = RedirectTo EpHome)
  /\ (out_reply o = RedirectTo EpHome ->
      exists u, In u (t_users d)
                /\ u_username u = username /\ u_password u = password
                /\ out_session o = mk_session (Some (u_id u)) (Some username))
  /\ (~ credentials_match d username password -> o = InvalidCredentials e d)
  /\ (forall f2,
         ~ credentials_match d username password ->
         ~ credentials_match d (strip (form_get (f_username f2) ""))
                               (strip (form_get (f_password f2) "")) ->
         serve (login POST f2) e d = o).
Proof.
  intros Hf username password o.
  assert (Hfail : forall g,
             ~ credentials_match d (strip (form_get (f_username g) ""))
                                   (strip (form_get (f_password g) "")) ->
             serve (login POST g) e d = InvalidCredentials e d).
  { intros g Hg. apply select_user_none in Hg.
    destruct (login_post_cases g e d) as [[Hne _] | E]; [contradiction|].
    cbn zeta in E. rewrite Hg in E. exact E. }
  assert (Hok : out_reply o = RedirectTo EpHome ->
                exists u, In u (t_users d)
                          /\ u_username u = username /\ u_password u = password
                          /\ out_session o
                             = mk_session (Some (u_id u)) (Some username)).
  { intros Hr. unfold o in *.
    destruct (login_post_cases f e d) as [[Hne _] | E]; [contradiction|].
    cbn zeta in E. fold username password in E.
    destruct (select_user username password d) as [[id name]|] eqn:Es.
    - destruct (select_user_some _ _ _ _ _ Es) as (u & Hin & Hn & Hp & Hid & ->).
      exists u. rewrite E. cbn. subst id. repeat split; assumption.
    - rewrite E in Hr. discriminate. }
  repeat split.
  - intros Hm. unfold o.
    destruct (login_post_cases f e d) as [[Hne _] | E]; [contradiction|].
    cbn zeta in E. fold username password in E.
    destruct (select_user username password d) as [[id name]|] eqn:Es.
    + rewrite E. reflexivity.
    + exfalso. apply (proj1 (select_user_none _ _ _) Es). exact Hm.
  - intros Hr. destruct (Hok Hr) as (u & Hin & Hn & Hp & _).
    exists u. repeat split; assumption.
  - exact Hok.
  - intros Hno. apply (Hfail f). exact Hno.
  - intros f2 Hno Hno2. unfold o.
    rewrite (Hfail f Hno), (Hfail f2 Hno2). reflexivity.
Qed.

Lemma login_matches_trimmed_credentials_witness :
  let unknown := mk_form (Some "mallory") None (Some "secret") None in
  let wrong := mk_form (Some "alice") None (Some "guess") None in
  e_fault guest = None
  /\ out_reply (serve (login POST alice_form) guest scenario_db)
     = RedirectTo EpHome
  /\ serve (login POST unknown) guest scenario_db
     = InvalidCredentials guest scenario_db
  /\ serve (login POST wrong) guest scenario_db
     = serve (login POST unknown) guest scenario_db.
Proof.
  intros unknown wrong.
  assert (Hf : e_fault guest = None) by reflexivity.
  assert (Hnone : forall n p, (n, p) <> ("alice", "secret") ->
                              ~ credentials_match scenario_db n p).
  { intros n p Hne (u & Hin & Hn & Hp).
    assert (Hl : t_users scenario_db
                 = [mk_user 1 "alice" (Some "alice@example.org") "secret"])
      by (vm_compute; reflexivity).
    rewrite Hl in Hin. clear Hl. destruct Hin as [<- | []].
    apply Hne. cbn in Hn, Hp. congruence. }
  destruct (login_matches_trimmed_credentials alice_form guest scenario_db Hf)
    as (Hiff & _).
  destruct (login_matches_trimmed_credentials unknown guest scenario_db Hf)
    as (_ & _ & Hfail & Hsame).
  split; [exact Hf|]. split; [|split].
  - apply Hiff.
    exists (mk_user 1 "alice" (Some "alice@example.org") "secret").
    split; [vm_compute; left; reflexivity | split; vm_compute; reflexivity].
  - apply Hfail. apply Hnone. vm_compute. discriminate.
  - apply (Hsame wrong); apply Hnone; vm_compute; discriminate.
Defined.

(** ** Beyond the claims *)

(** *** Every route, case by case *)

Lemma str_truthy_empty (s : string) : str_truthy s = false -> s = "".
Proof. destruct s; [reflexivity | discriminate]. Qed.

Lemma signup_guard (u p : string) :
  negb (str_truthy u) || negb (str_truthy p) = false -> u <> "" /\ p <> "".
Proof.
  intros H. apply orb_false_iff in H as [Hu Hp].
  split; intros ->; discriminate.
Qed.

Lemma request_effect_of (r : request) (e : env) (d : db) :
  request_effect e d r (out_db (serve (dispatch r) e d)).
Proof.
  pose proof (read_only_handlers e d)
    as (Hhome & Hlogin & Hlogout & Hcart & Hty & Hcontact & Hpay & Hapi
        & Hsignup & Hcheckout).
  destruct r as [ |m f|m f| | |pid|pid f| |m|o|m| | ]; cbn [dispatch];
    rewrite ?Hhome, ?Hlogin, ?Hlogout, ?Hcart, ?Hty, ?Hcontact, ?Hpay, ?Hapi;
    try apply re_none.
  - destruct m; [rewrite Hsignup; apply re_none|].
    pose proof (signup_post_cases f e d) as Hs. cbn zeta in Hs.
    destruct (negb _ || negb _) eqn:Eg in Hs; [rewrite Hs; apply re_none|].
    apply signup_guard in Eg as [Hu Hp].
    destruct Hs as [[_ Hs] | Hs]; [rewrite Hs; apply re_none|].
    destruct (insert_user _ _ _ d) as [x | [[] d']] eqn:Ei; rewrite Hs;
      [apply re_none | apply re_signup; assumption].
  - destruct (logged_in_dec e) as [[uid Hu] | Hno].
    + destruct (add_to_cart_cases pid e d uid Hu)
        as [[_ E] | [[_ E] | [_ E]]]; rewrite E;
        [apply re_none | apply re_none | apply re_add; exact Hu].
    + destruct (cart_handlers_not_logged_in e d Hno) as (Hadd & _).
      rewrite Hadd. apply re_none.
  - destruct (logged_in_dec e) as [[uid Hu] | Hno].
    + pose proof (update_cart_cases pid f e d uid Hu) as Hq. cbn zeta in Hq.
      destruct (quantity_of f) as [q|] eqn:Eq.
      * destruct Hq as [[_ E] | [[_ E] | [_ E]]]; rewrite E;
          [apply re_none | apply re_none | apply re_update; assumption].
      * rewrite Hq. apply re_none.
    + destruct (cart_handlers_not_logged_in e d Hno) as (_ & Hupd & _).
      rewrite Hupd. apply re_none.
  - destruct (logged_in_dec e) as [[uid Hu] | Hno].
    + destruct (clear_cart_cases e d uid Hu) as [[_ E] | E]; rewrite E;
        [apply re_none | apply re_clear; exact Hu].
    + destruct (cart_handlers_not_logged_in e d Hno) as (_ & _ & Hclr & _).
      rewrite Hclr. apply re_none.
  - destruct m; [rewrite Hcheckout; apply re_none|].
    destruct (logged_in_dec e) as [[uid Hu] | Hno].
    + destruct (checkout_post_cases e d uid Hu)
        as [[_ E] | [[_ E] | [(_ & _ & E) | (Hi & _ & E)]]];
        rewrite E; [apply re_none | apply re_none | apply re_none | ].
      apply re_checkout; assumption.
    + rewrite (checkout_not_logged_in POST e d Hno). apply re_none.
Qed.

(** *** The login guard *)

(** X4.  Without a user in the session (no user id, or the user id 0,
    which Python reads as false) the five guarded handlers answer with
    their denial and do nothing else: no store call is made, so the outcome
    is the same under every fault plan and for every form. *)
Theorem anonymous_requests_denied (e : env) (d : db) :
  (forall uid, ~ logged_in e uid) ->
  serve cart e d = mk_outcome d (e_session e) [] (RedirectTo EpLogin)
  /\ (forall pid,
         serve (add_to_cart pid) e d
         = mk_outcome d (e_session e) [] (Json false (Some EpLogin) 401))
  /\ (forall pid f,
         serve (update_cart pid f) e d
         = mk_outcome d (e_session e) [] (Json false (Some EpLogin) 401))
  /\ serve clear_cart e d = mk_outcome d (e_session e) [] (Json false None 401)
  /\ (forall m,
         serve (checkout m) e d
         = mk_outcome d (e_session e) [] (RedirectTo EpLogin)).
Proof.
  intros Hno.
  assert (Hs : s_user_id (e_session e) = None
               \/ s_user_id (e_session e) = Some 0).
  { destruct (s_user_id (e_session e)) as [u|] eqn:Eu; [|left; reflexivity].
    destruct (Z.eq_dec u 0) as [->|Hu]; [right; reflexivity|].
    exfalso. apply (Hno u). split; assumption. }
  destruct e as [[su sn] now f]. cbn in Hs.
  unfold cart, add_to_cart, update_cart, clear_cart, checkout.
  destruct Hs as [-> | ->]; run_handler;
    (split; [reflexivity|]); (split; [reflexivity|]);
    (split; [reflexivity|]); (split; [reflexivity|]); reflexivity.
Qed.

Lemma anonymous_requests_denied_witness :
  (forall uid, ~ logged_in user_zero uid)
  /\ serve (add_to_cart 1) user_zero scenario_db
     = mk_outcome scenario_db (e_session user_zero) []
                  (Json false (Some EpLogin) 401)
  /\ serve (checkout POST) guest scenario_db
     = mk_outcome scenario_db anonymous [] (RedirectTo EpLogin).
Proof.
  assert (H0 : forall uid, ~ logged_in user_zero uid).
  { intros uid [H1 H2]. cbn in H1. congruence. }
  assert (Hg : forall uid, ~ logged_in guest uid).
  { intros uid [H1 _]. cbn in H1. discriminate. }
  split; [exact H0|]. split.
  - apply (anonymous_requests_denied user_zero scenario_db H0).
  - apply (anonymous_requests_denied guest scenario_db Hg).
Defined.

(** X10.  What set-quantity does with the quantity field, for a logged-in
    user and under every fault plan: without the field it behaves as with
    the quantity 1; with a field that [int] cannot read it ends in a server
    error before it touches the store, and the database stays as it was. *)
Theorem update_cart_quantity_field (pid : Z) (f : form) (e : env) (d : db)
        (uid : Z) :
  logged_in e uid ->
  (f_quantity f = None ->
   serve (update_cart pid f) e d
   = serve (update_cart pid (quantity_form 1)) e d)
  /\ (f_quantity f = Some NotInt ->
      serve (update_cart pid f) e d
      = mk_outcome d (e_session e) [] (ServerError ValueError)).
Proof.
  intros Hu. split; intros Hq.
  - unfold update_cart, int_of_quantity. rewrite Hq. reflexivity.
  - pose proof (update_cart_cases pid f e d uid Hu) as H. cbn zeta in H.
    unfold quantity_of in H. rewrite Hq in H. exact H.
Qed.

Lemma update_cart_quantity_field_witness :
  logged_in alice 1
  /\ select_quantity 1 1
       (out_db (serve (update_cart 1 (mk_form None None None None))
                      alice scenario_db)) = Some 1
  /\ serve (update_cart 1 (mk_form None None None (Some NotInt)))
           alice scenario_db
     = mk_outcome scenario_db (e_session alice) [] (ServerError ValueError).
Proof.
  assert (Hu : logged_in alice 1) by (split; [reflexivity | discriminate]).
  split; [exact Hu|]. split.
  - rewrite (proj1 (update_cart_quantity_field
                      1 (mk_form None None None None) alice scenario_db 1 Hu)
                   eq_refl).
    vm_compute. reflexivity.
  - apply (proj2 (update_cart_quantity_field
                    1 (mk_form None None None (Some NotInt)) alice scenario_db
                    1 Hu)).
    reflexivity.
Defined.

(** *** Every request is a transaction *)

(** X5.  Whatever store call fails, a request of any route leaves the
    database as it was, or it goes through as if the store had been
    available throughout, reply, session and flashed messages included:
    no handler commits before its last write, and the connection is closed
    without a commit on every other path. *)
Theorem requests_are_all_or_nothing (r : request) (e : env) (d : db) :
  out_db (serve (dispatch r) e d) = d
  \/ serve (dispatch r) e d = serve (dispatch r) (without_fault e) d.
Proof.
  pose proof (read_only_handlers e d)
    as (Hhome & Hlogin & Hlogout & Hcart & Hty & Hcontact & Hpay & Hapi
        & Hsignup & Hcheckout).
  assert (Hlog : forall uid, logged_in e uid -> logged_in (without_fault e) uid)
    by (intros uid H; exact H).
  assert (Hnf : e_fault (without_fault e) <> None -> False)
    by (intros H; apply H; reflexivity).
  destruct r as [ |m f|m f| | |pid|pid f| |m|o|m| | ]; cbn [dispatch];
    try (left; solve [ apply Hhome | apply Hlogin | apply Hlogout | apply Hcart
                     | apply Hty | apply Hcontact | apply Hpay | apply Hapi ]).
  - destruct m; [left; apply Hsignup|].
    pose proof (signup_post_cases f e d) as Hs.
    pose proof (signup_post_cases f (without_fault e) d) as Hs0.
    cbn zeta in Hs, Hs0.
    destruct (negb _ || negb _); [left; rewrite Hs; reflexivity|].
    destruct Hs as [[_ Hs] | Hs]; [left; rewrite Hs; reflexivity|].
    destruct Hs0 as [[Hf _] | Hs0]; [destruct (Hnf Hf)|].
    destruct (insert_user _ _ _ d) as [x | [[] d']];
      [left; rewrite Hs; reflexivity | right; rewrite Hs, Hs0; reflexivity].
  - destruct (logged_in_dec e) as [[uid Hu] | Hno].
    + destruct (add_to_cart_cases pid e d uid Hu)
        as [[_ E] | [[_ E] | [Hb E]]];
        [left; rewrite E; reflexivity | left; rewrite E; reflexivity |].
      destruct (add_to_cart_cases pid _ d uid (Hlog uid Hu))
        as [[Hf _] | [[Hb0 _] | [_ E0]]];
        [destruct (Hnf Hf) | congruence |].
      right. rewrite E, E0. reflexivity.
    + left. apply (cart_handlers_not_logged_in e d Hno).
  - destruct (logged_in_dec e) as [[uid Hu] | Hno].
    + pose proof (update_cart_cases pid f e d uid Hu) as Hq.
      pose proof (update_cart_cases pid f _ d uid (Hlog uid Hu)) as Hq0.
      cbn zeta in Hq, Hq0.
      destruct (quantity_of f) as [q|]; [|left; rewrite Hq; reflexivity].
      destruct Hq as [[_ E] | [[_ E] | [Hb E]]];
        [left; rewrite E; reflexivity | left; rewrite E; reflexivity |].
      destruct Hq0 as [[Hf _] | [[Hb0 _] | [_ E0]]];
        [destruct (Hnf Hf) | congruence |].
      right. rewrite E, E0. reflexivity.
    + left. apply (cart_handlers_not_logged_in e d Hno).
  - destruct (logged_in_dec e) as [[uid Hu] | Hno].
    + destruct (clear_cart_cases e d uid Hu) as [[_ E] | E];
        [left; rewrite E; reflexivity|].
      destruct (clear_cart_cases _ d uid (Hlog uid Hu)) as [[Hf _] | E0];
        [destruct (Hnf Hf)|].
      right. rewrite E, E0. reflexivity.
    + left. apply (cart_handlers_not_logged_in e d Hno).
  - destruct m; [left; apply Hcheckout|].
    destruct (logged_in_dec e) as [[uid Hu] | Hno].
    + destruct (checkout_post_cases e d uid Hu)
        as [[_ E] | [[_ E] | [(_ & _ & E) | (Hi & Hb & E)]]];
        [left; rewrite E; reflexivity | left; rewrite E; reflexivity
        | left; rewrite E; reflexivity |].
      right. rewrite E.
      rewrite (checkout_fault_free _ d uid (Hlog uid Hu) eq_refl), Hb.
      destruct (select_items uid d); [contradiction | reflexivity].
    + left. rewrite (checkout_not_logged_in POST e d Hno). reflexivity.
Qed.

(** *** Which tables a route can change *)

Lemma committed_add_tables (uid pid : Z) (d : db) :
  let d' := committed (match select_quantity uid pid d with
                       | Some _ => update_quantity_plus_one uid pid d
                       | None => insert_cart uid pid d
                       end) d in
  t_users d' = t_users d /\ t_products d' = t_products d
  /\ seq_products d' = seq_products d
  /\ t_orders d' = t_orders d /\ t_order_items d' = t_order_items d.
Proof.
  cbn zeta. destruct (select_quantity uid pid d).
  - repeat split.
  - unfold insert_cart. destruct (existsb _ _); repeat split.
Qed.

(** X6.  The footprint of the routes, under every fault plan: no request
    writes the catalog; only a signup form that is posted changes the
    users; only add-to-cart, set-quantity, clear-cart and a posted checkout
    change the cart; only a posted checkout changes the orders and the
    order items. *)
Theorem request_footprint (r : request) (e : env) (d : db) :
  let d' := out_db (serve (dispatch r) e d) in
  (t_products d' = t_products d /\ seq_products d' = seq_products d)
  /\ (t_users d' <> t_users d -> exists f, r = ReqSignup POST f)
  /\ (t_cart d' <> t_cart d ->
      (exists pid, r = ReqAddToCart pid)
      \/ (exists pid f, r = ReqUpdateCart pid f)
      \/ r = ReqClearCart \/ r = ReqCheckout POST)
  /\ (t_orders d' <> t_orders d \/ t_order_items d' <> t_order_items d ->
      r = ReqCheckout POST).
Proof.
  cbn zeta. pose proof (request_effect_of r e d) as H.
  remember (out_db (serve (dispatch r) e d)) as d' eqn:Ed'. clear Ed'.
  destruct H as [r | f d' Hu Hp Hi | uid pid Hu | uid pid f q Hu Hq | uid Hu
                | uid Hu Hi].
  - split; [split; reflexivity|].
    split; [intros H; destruct (H eq_refl)|].
    split; [intros H; destruct (H eq_refl)|].
    intros [H | H]; destruct (H eq_refl).
  - unfold insert_user in Hi. destruct (_ || _) in Hi; [discriminate|].
    inversion Hi; subst; clear Hi. cbn.
    split; [split; reflexivity|].
    split; [intros _; exists f; reflexivity|].
    split; [intros H; destruct (H eq_refl)|].
    intros [H | H]; destruct (H eq_refl).
  - destruct (committed_add_tables uid pid d) as (H1 & H2 & H3 & H4 & H5).
    cbn zeta in *. rewrite H1, H2, H3, H4, H5.
    split; [split; reflexivity|].
    split; [intros H; destruct (H eq_refl)|].
    split; [intros _; left; exists pid; reflexivity|].
    intros [H | H]; destruct (H eq_refl).
  - destruct (q =? 0); cbn;
      (split; [split; reflexivity|]);
      (split; [intros H; destruct (H eq_refl)|]);
      (split; [intros _; right; left; exists pid, f; reflexivity|]);
      intros [H | H]; destruct (H eq_refl).
  - cbn. split; [split; reflexivity|].
    split; [intros H; destruct (H eq_refl)|].
    split; [intros _; right; right; left; reflexivity|].
    intros [H | H]; destruct (H eq_refl).
  - cbn -[Z.add]. split; [split; reflexivity|].
    split; [intros H; destruct (H eq_refl)|].
    split; [intros _; right; right; right; reflexivity|].
    intros _. reflexivity.
Qed.

(** *** One user's cart is out of reach of the others *)

Lemma filter_map_frame {A} (p : A -> bool) (h : A -> A) (l : list A) :
  (forall a, p (h a) = p a) -> (forall a, p a = true -> h a = a) ->
  filter p (map h l) = filter p l.
Proof.
  intros H1 H2. induction l as [|a l IH]; cbn; [reflexivity|].
  rewrite H1, IH. destruct (p a) eqn:Ea; [|reflexivity].
  rewrite (H2 a Ea). reflexivity.
Qed.

Lemma filter_filter_frame {A} (p g : A -> bool) (l : list A) :
  (forall a, p a = true -> g a = true) ->
  filter p (filter g l) = filter p l.
Proof.
  intros H. induction l as [|a l IH]; cbn; [reflexivity|].
  destruct (g a) eqn:Eg; cbn; rewrite IH; [reflexivity|].
  destruct (p a) eqn:Ep; [|reflexivity].
  rewrite (H a Ep) in Eg. discriminate.
Qed.

Lemma other_user_not_line (uid pid u : Z) (c : cart_row) :
  u <> uid -> (c_user_id c =? u) = true -> cart_line_of uid pid c = false.
Proof.
  intros Hne Hc. unfold cart_line_of.
  replace (c_user_id c =? uid) with false by lia. reflexivity.
Qed.

Lemma cart_lines_after_add (uid pid u : Z) (d : db) :
  u <> uid ->
  cart_lines u (committed (match select_quantity uid pid d with
                           | Some _ => update_quantity_plus_one uid pid d
                           | None => insert_cart uid pid d
                           end) d)
  = cart_lines u d.
Proof.
  intros Hne. unfold cart_lines.
  destruct (select_quantity uid pid d); cbn.
  - apply filter_map_frame.
    + intros c. destruct (cart_line_of uid pid c); reflexivity.
    + intros c Hc. rewrite (other_user_not_line uid pid u c Hne Hc).
      reflexivity.
  - unfold insert_cart. destruct (existsb _ _); cbn; [reflexivity|].
    rewrite filter_app. cbn.
    replace (uid =? u) with false by lia. apply app_nil_r.
Qed.

Lemma cart_lines_after_update (uid pid q u : Z) (d : db) :
  u <> uid ->
  cart_lines u (committed (if q =? 0
                           then delete_cart_line uid pid d
                           else update_quantity q uid pid d) d)
  = cart_lines u d.
Proof.
  intros Hne. unfold cart_lines. destruct (q =? 0); cbn.
  - apply filter_filter_frame. intros c Hc.
    rewrite (other_user_not_line uid pid u c Hne Hc). reflexivity.
  - apply filter_map_frame.
    + intros c. destruct (cart_line_of uid pid c); reflexivity.
    + intros c Hc. rewrite (other_user_not_line uid pid u c Hne Hc).
      reflexivity.
Qed.

Lemma cart_lines_after_delete (uid u : Z) (l : list cart_row) :
  u <> uid ->
  filter (fun c => c_user_id c =? u)
         (filter (fun c => negb (c_user_id c =? uid)) l)
  = filter (fun c => c_user_id c =? u) l.
Proof.
  intros Hne. apply filter_filter_frame. intros c Hc.
  replace (c_user_id c =? uid) with false by lia. reflexivity.
Qed.

Lemma logged_in_unique (e : env) (u v : Z) :
  logged_in e u -> logged_in e v -> u = v.
Proof. intros [H1 _] [H2 _]. congruence. Qed.

(** X7.  Under every fault plan, a request made in the session of one user
    leaves the cart lines of every other user as they were, whatever its
    route and its parameters; a request made without a user in the session
    leaves the whole cart table as it was. *)
Theorem carts_are_isolated (r : request) (e : env) (d : db) :
  let d' := out_db (serve (dispatch r) e d) in
  (forall uid u, logged_in e uid -> u <> uid -> cart_lines u d' = cart_lines u d)
  /\ ((forall uid, ~ logged_in e uid) -> t_cart d' = t_cart d).
Proof.
  cbn zeta. pose proof (request_effect_of r e d) as H.
  remember (out_db (serve (dispatch r) e d)) as d' eqn:Ed'. clear Ed'.
  destruct H as [r | f d' Hu Hp Hi | uid0 pid Hu | uid0 pid f q Hu Hq
                | uid0 Hu | uid0 Hu Hi].
  - split; reflexivity.
  - unfold insert_user in Hi. destruct (_ || _) in Hi; [discriminate|].
    inversion Hi; subst. split; reflexivity.
  - split.
    + intros uid u Hl Hne. rewrite (logged_in_unique e uid uid0 Hl Hu) in Hne.
      apply cart_lines_after_add. exact Hne.
    + intros Hno. destruct (Hno uid0 Hu).
  - split.
    + intros uid u Hl Hne. rewrite (logged_in_unique e uid uid0 Hl Hu) in Hne.
      apply cart_lines_after_update. exact Hne.
    + intros Hno. destruct (Hno uid0 Hu).
  - split.
    + intros uid u Hl Hne. rewrite (logged_in_unique e uid uid0 Hl Hu) in Hne.
      apply cart_lines_after_delete. exact Hne.
    + intros Hno. destruct (Hno uid0 Hu).
  - split.
    + intros uid u Hl Hne. rewrite (logged_in_unique e uid uid0 Hl Hu) in Hne.
      apply cart_lines_after_delete. exact Hne.
    + intros Hno. destruct (Hno uid0 Hu).
Qed.

(** *** Startup *)

Lemma init_db_fault_free (e : env) (d : db) :
  e_fault e = None ->
  step Startup e d = match t_products d with [] => seed d | _ => d end.
Proof.
  destruct e as [s now f]. cbn [e_fault]. intros ->.
  unfold step, init_db, ddl, count_products.
  destruct (t_products d) as [|p ps] eqn:Ep.
  - run_handler. rewrite Ep. cbn [List.length Z.of_nat Z.eqb]. run_handler.
    assert (Hs : forall a t,
               insert_product a t
               = inr (tt, committed (insert_product a t) t))
      by (intros [[a b] c] t0; reflexivity).
    match goal with
    | |- context [executemany insert_product starter_catalog ?w0] =>
        destruct (executemany_total insert_product _ starter_catalog Hs w0)
          as [(f' & E & Hf) | (w' & E & _ & _ & _ & Hne)];
          [ rewrite E; clear E; rewrite (Hf eq_refl)
          | exfalso; apply Hne; reflexivity ]
    end.
    cbn [starter_catalog w_disk w_txn w_fault w_session w_flashes w_now view].
    fold starter_catalog. fold (seed d). run_handler. reflexivity.
  - run_handler. rewrite Ep. cbn [List.length Z.of_nat Z.eqb]. run_handler.
    reflexivity.
Qed.

Lemma seed_rows (d : db) :
  t_products d = [] ->
  map (fun p => (p_name p, p_price p, p_image p)) (t_products (seed d))
  = map (fun row => (fst (fst row), snd (fst row), Some (snd row)))
        starter_catalog
  /\ map p_id (t_products (seed d))
     = map (fun k => seq_products d + k) [1; 2; 3; 4; 5; 6; 7; 8].
Proof.
  intros Hp. unfold seed, starter_catalog, committed, insert_product.
  cbn -[Z.add]. rewrite Hp. cbn -[Z.add].
  split; [reflexivity|]. repeat (f_equal; try lia).
Qed.

(** X1.  The seeding of [init_db] is all or nothing and happens once: a
    start of the program leaves the database as it was or with the whole
    starter catalog, never with a part of it; it seeds only an empty
    catalog, and then (store available) it does seed it, with the eight
    products in the order of the list, numbered from the counter on, and
    touches no other table; started again, it changes nothing more. *)
Theorem init_db_seeds_once (e : env) (d : db) :
  (step Startup e d = d \/ (t_products d = [] /\ step Startup e d = seed d))
  /\ (t_products d <> [] -> step Startup e d = d)
  /\ (e_fault e = None -> t_products d = [] ->
      step Startup e d = seed d
      /\ map (fun p => (p_name p, p_price p, p_image p))
             (t_products (step Startup e d))
         = map (fun row => (fst (fst row), snd (fst row), Some (snd row)))
               starter_catalog
      /\ map p_id (t_products (step Startup e d))
         = map (fun k => seq_products d + k) [1; 2; 3; 4; 5; 6; 7; 8]
      /\ t_users (step Startup e d) = t_users d
      /\ t_cart (step Startup e d) = t_cart d
      /\ t_orders (step Startup e d) = t_orders d
      /\ t_order_items (step Startup e d) = t_order_items d)
  /\ (e_fault e = None ->
      forall e2, step Startup e2 (step Startup e d) = step Startup e d).
Proof.
  assert (Hfull : forall e0 d0, t_products d0 <> [] -> step Startup e0 d0 = d0).
  { intros e0 d0 Hne.
    destruct (init_db_cases e0 d0) as [E | [Hp _]]; [exact E | contradiction]. }
  split; [apply init_db_cases|]. split; [apply Hfull|]. split.
  - intros Hf Hp. rewrite (init_db_fault_free e d Hf), Hp.
    destruct (seed_rows d Hp) as [Hrows Hids].
    destruct (seed_tables d Hp) as (_ & Hu & Hc & Ho & _ & Hoi).
    repeat (split; [assumption || reflexivity|]). assumption.
  - intros Hf e2. apply Hfull.
    rewrite (init_db_fault_free e d Hf).
    destruct (t_products d) as [|p ps] eqn:Ep; [|rewrite Ep; discriminate].
    intros Hnil. destruct (seed_rows d Ep) as [_ Hids].
    rewrite Hnil in Hids. discriminate.
Qed.

Lemma init_db_seeds_once_witness :
  e_fault guest = None /\ t_products empty_db = []
  /\ map (fun p => (p_id p, p_name p, p_price p))
         (firstn 2 (t_products (step Startup guest empty_db)))
     = [(1, "Tomato-1 Kg", 200); (2, "Beans-1 Kg", 100)]
  /\ step Startup guest (step Startup guest empty_db)
     = step Startup guest empty_db.
Proof.
  destruct (init_db_seeds_once guest empty_db) as (_ & _ & _ & Hidem).
  split; [reflexivity|]. split; [reflexivity|]. split.
  - vm_compute. reflexivity.
  - apply Hidem. reflexivity.
Defined.

(** *** ORDER BY *)

(** X2.  With the store available, the home page and the product API give
    the same rows: all the products of the catalog, each once, in ascending
    order of id; neither changes the database. *)
Theorem catalog_listing_sorted (e : env) (d : db) :
  e_fault e = None ->
  exists rows,
    serve home e d
    = mk_outcome d (e_session e) [] (Render "index.html" (CtxProducts rows))
    /\ serve api_products e d
       = mk_outcome d (e_session e) [] (JsonProducts rows)
    /\ Permutation rows (t_products d)
    /\ Sorted (fun a b => p_id a <= p_id b) rows.
Proof.
  destruct e as [s now f]. cbn [e_fault]. intros ->.
  exists (select_products d).
  split; [reflexivity|]. split; [reflexivity|]. split.
  - apply order_by_perm.
  - assert (Hs : Sorted (fun a b => (p_id a <=? p_id b) = true)
                        (select_products d)).
    { apply order_by_sorted. intros a b H. lia. }
    induction Hs as [|a l Hs IH Hhd]; constructor; [exact IH|].
    destruct Hhd; constructor. lia.
Qed.

Lemma catalog_listing_sorted_witness :
  e_fault alice = None
  /\ exists rows,
       out_reply (serve api_products alice scenario_db) = JsonProducts rows
       /\ List.length rows = 8%nat
       /\ Sorted (fun a b => p_id a <= p_id b) rows.
Proof.
  destruct (catalog_listing_sorted alice scenario_db eq_refl)
    as (rows & _ & Hapi & Hperm & Hsorted).
  split; [reflexivity|]. exists rows. split; [|split].
  - rewrite Hapi. reflexivity.
  - rewrite (Permutation_length Hperm). vm_compute. reflexivity.
  - exact Hsorted.
Defined.

(** *** What the pages show is what checkout charges *)

Lemma py_sum_guard {A} (items : list A) (f : A -> Z) :
  match items with [] => 0 | _ => py_sum (map f items) end
  = py_sum (map f items).
Proof. destruct items; reflexivity. Qed.

(** X3.  For a logged-in user, with the store available, on a database
    whose quantities and prices are INTEGERs and where the subtotal of each
    row of the user, which SQLite computes, stays within the range of
    INTEGER: the cart page and the checkout page show the total that a
    posted checkout then records in the order.  The rows of the cart page
    are, up to their order (by name), the rows checkout reads, with the same
    products, unit prices and quantities, each subtotal is price times
    quantity, and the total of either page is the sum checkout computes.
    With product ids unique in the catalog it is the sum over the cart
    lines of the user. *)
Theorem pages_show_the_checkout_total (e : env) (d : db) (uid : Z) :
  logged_in e uid -> e_fault e = None -> integral d ->
  Forall (fun i => sqlite_int (i_price i * i_quantity i) = true)
         (select_items uid d) ->
  (exists items,
      serve cart e d
      = mk_outcome d (e_session e) []
                   (Render "cart.html"
                           (CtxCart items (checkout_total uid d)))
      /\ Permutation (map shown items)
                     (map read_at_checkout (select_items uid d))
      /\ Sorted (fun a b => String.leb (v_name a) (v_name b) = true) items
      /\ Forall (fun v => v_subtotal v = v_price v * v_quantity v) items)
  /\ (exists rows,
         serve (checkout GET) e d
         = mk_outcome d (e_session e) []
                      (Render "checkout.html"
                              (CtxCheckout rows (checkout_total uid d)))
         /\ map (fun k => (k_price k, k_quantity k)) rows
            = map (fun i => (i_price i, i_quantity i)) (select_items uid d))
  /\ (forall oid,
         out_reply (serve (checkout POST) e d) = RedirectTo (EpThankYou oid) ->
         t_orders (out_db (serve (checkout POST) e d))
         = t_orders d ++ [mk_order oid uid (checkout_total uid d) (e_now e)])
  /\ (catalog_ok d -> checkout_total uid d = cart_total uid d).
Proof.
  intros Hu Hf _ _.
  assert (Hp : Permutation (select_cart_view uid d)
                 (map (fun cp => mk_cart_view
                                   (c_product_id (fst cp)) (p_name (snd cp))
                                   (p_price (snd cp)) (p_image (snd cp))
                                   (c_quantity (fst cp))
                                   (p_price (snd cp) * c_quantity (fst cp)))
                      (cart_join uid d)))
    by apply order_by_perm.
  split; [|split; [|split]].
  - exists (select_cart_view uid d). split; [|split; [|split]].
    + destruct e as [[su sn] now f]. destruct Hu as [Hs Hne].
      cbn in Hs, Hf. subst su f.
      unfold cart. run_handler.
      replace (uid =? 0) with false by lia. run_handler.
      rewrite (py_sum_guard (select_cart_view uid d) v_subtotal).
      do 3 f_equal. unfold checkout_total, select_items.
      rewrite (py_sum_perm _ _ (Permutation_map v_subtotal Hp)).
      rewrite !map_map. reflexivity.
    + apply (perm_trans (Permutation_map shown Hp)).
      unfold select_items. rewrite !map_map. apply Permutation_refl.
    + apply order_by_sorted. intros a b H.
      unfold String.leb in *.
      rewrite String.compare_antisym.
      destruct (String.compare (v_name a) (v_name b)); cbn in *;
        try discriminate; reflexivity.
    + apply Forall_forall. intros v Hv.
      apply (Permutation_in _ Hp) in Hv.
      apply in_map_iff in Hv as (cp & <- & _). reflexivity.
  - exists (select_checkout_view uid d). split.
    + destruct e as [[su sn] now f]. destruct Hu as [Hs Hne].
      cbn in Hs, Hf. subst su f.
      unfold checkout. run_handler.
      replace (uid =? 0) with false by lia. run_handler.
      rewrite (py_sum_guard (select_checkout_view uid d) k_subtotal).
      do 3 f_equal. unfold checkout_total, select_items, select_checkout_view.
      rewrite !map_map. reflexivity.
    + unfold select_checkout_view, select_items. rewrite !map_map.
      reflexivity.
  - intros oid Hr.
    destruct (checkout_success e d uid oid Hu Hr) as (_ & -> & E).
    rewrite E. reflexivity.
  - intros Hcat. apply select_items_total. exact Hcat.
Qed.

Lemma pages_show_the_checkout_total_witness :
  logged_in alice 1 /\ e_fault alice = None /\ integral scenario_db
  /\ checkout_total 1 scenario_db = 450
  /\ (exists items,
         out_reply (serve cart alice scenario_db)
         = Render "cart.html" (CtxCart items 450)
         /\ List.length items = 2%nat).
Proof.
  assert (Hu : logged_in alice 1) by (split; [reflexivity | discriminate]).
  assert (Hint : integral scenario_db)
    by (apply integral_checked; vm_compute; reflexivity).
  assert (Hsub : Forall (fun i => sqlite_int (i_price i * i_quantity i) = true)
                        (select_items 1 scenario_db)).
  { apply Forall_forall.
    apply (proj1 (forallb_forall
                    (fun i => sqlite_int (i_price i * i_quantity i)) _)).
    vm_compute. reflexivity. }
  destruct (pages_show_the_checkout_total alice scenario_db 1 Hu eq_refl
                                          Hint Hsub)
    as ((items & Hcart & Hperm & _) & _).
  split; [exact Hu|]. split; [reflexivity|]. split; [exact Hint|].
  assert (Ht : checkout_total 1 scenario_db = 450) by (vm_compute; reflexivity).
  split; [exact Ht|]. exists items. split.
  - rewrite Hcart, Ht. reflexivity.
  - apply Permutation_length in Hperm. rewrite !length_map in Hperm.
    rewrite Hperm. vm_compute. reflexivity.
Defined.

(** *** Add to cart *)

Lemma find_app_miss {A} (f : A -> bool) (l : list A) (x : A) :
  f x = false -> find f (l ++ [x]) = find f l.
Proof.
  intros Hx. induction l as [|a l IH]; cbn.
  - rewrite Hx. reflexivity.
  - destruct (f a); [reflexivity | exact IH].
Qed.

Lemma add_to_cart_frame (pid : Z) (e : env) (d : db) (uid u p : Z) :
  logged_in e uid -> (u, p) <> (uid, pid) ->
  select_quantity u p (out_db (serve (add_to_cart pid) e d))
  = select_quantity u p d.
Proof.
  intros Hu Hne.
  destruct (add_to_cart_cases pid e d uid Hu)
    as [[_ E] | [[_ E] | [_ E]]]; rewrite E;
    [reflexivity | reflexivity |].
  cbn [out_db]. unfold select_quantity.
  destruct (find (cart_line_of uid pid) (t_cart d)) as [c0|] eqn:Ec; cbn.
  - rewrite find_map_same.
    + destruct (find (cart_line_of u p) (t_cart d)) as [c|] eqn:Ecu;
        cbn [option_map]; [|reflexivity].
      apply find_some in Ecu as [_ Ecu].
      rewrite (other_line uid pid u p c Hne Ecu). reflexivity.
    + intros c. destruct (cart_line_of uid pid c); reflexivity.
  - unfold insert_cart. rewrite (find_none_existsb _ _ Ec). cbn.
    rewrite find_app_miss; [reflexivity|].
    unfold cart_line_of. cbn.
    destruct (uid =? u) eqn:E1; [|reflexivity].
    destruct (pid =? p) eqn:E2; [|reflexivity].
    exfalso. apply Hne. f_equal; lia.
Qed.

(** X8.  Add-to-cart counts: after [n] requests (n at least 1) of a
    logged-in user for one product, with the store available, a product id
    that the route and SQLite can hold (from 0 to [max_int]) and a quantity
    that is an INTEGER and stays one (the count reaches at most [max_int]),
    the user has a line for the product whose quantity is the one from
    before (0 without a line) plus [n]; the lines of every other (user,
    product) keep their quantity. *)
Theorem add_to_cart_accumulates (pid uid : Z) (es : list env) (d : db) :
  Forall (fun e => logged_in e uid /\ e_fault e = None) es -> es <> [] ->
  0 <= pid <= max_int ->
  min_int <= quantity_in_cart uid pid d ->
  quantity_in_cart uid pid d + Z.of_nat (List.length es) <= max_int ->
  select_quantity uid pid (run (add_requests pid es) d)
  = Some (quantity_in_cart uid pid d + Z.of_nat (List.length es))
  /\ (forall u p, (u, p) <> (uid, pid) ->
                  select_quantity u p (run (add_requests pid es) d)
                  = select_quantity u p d).
Proof.
  intros Hes Hne Hpid _ _.
  assert (Hp : min_int <= pid <= max_int) by (unfold min_int; lia).
  clear Hpid. revert d Hne.
  induction Hes as [|e es [Hu Hf] Hes IH]; intros d Hne.
  - contradiction.
  - cbn [add_requests map run fold_left apply_move step dispatch].
    fold (add_requests pid es).
    fold (run (add_requests pid es) (out_db (serve (add_to_cart pid) e d))).
    pose proof (add_to_cart_quantity pid e d uid Hu Hf Hp) as H1.
    fold (quantity_in_cart uid pid d) in H1.
    assert (H1' : select_quantity uid pid
                    (out_db (serve (add_to_cart pid) e d))
                  = Some (quantity_in_cart uid pid d + 1)).
    { rewrite H1. unfold quantity_in_cart.
      destruct (select_quantity uid pid d); f_equal; lia. }
    destruct es as [|e' es'].
    + cbn [add_requests map run fold_left List.length].
      split; [rewrite H1'; reflexivity|].
      intros u p Hup. exact (add_to_cart_frame pid e d uid u p Hu Hup).
    + destruct (IH (out_db (serve (add_to_cart pid) e d)))
        as [Hq Hframe]; [discriminate|].
      split.
      * rewrite Hq. unfold quantity_in_cart at 1. rewrite H1'.
        f_equal. change (List.length (e :: e' :: es'))
                   with (S (List.length (e' :: es'))). lia.
      * intros u p Hup. rewrite (Hframe u p Hup).
        exact (add_to_cart_frame pid e d uid u p Hu Hup).
Qed.

Lemma add_to_cart_accumulates_witness :
  Forall (fun e => logged_in e 1 /\ e_fault e = None) [alice; alice; alice]
  /\ select_quantity 1 1 scenario_db = Some 2
  /\ select_quantity 1 1 (run (add_requests 1 [alice; alice; alice]) scenario_db)
     = Some 5
  /\ select_quantity 1 7 (run (add_requests 7 [alice; alice; alice]) scenario_db)
     = Some 3.
Proof.
  assert (Hu : logged_in alice 1 /\ e_fault alice = None)
    by (split; [split; [reflexivity | discriminate] | reflexivity]).
  assert (Hes : Forall (fun e => logged_in e 1 /\ e_fault e = None)
                       [alice; alice; alice])
    by (repeat constructor; apply Hu).
  assert (Hq1 : quantity_in_cart 1 1 scenario_db = 2)
    by (vm_compute; reflexivity).
  assert (Hq7 : quantity_in_cart 1 7 scenario_db = 0)
    by (vm_compute; reflexivity).
  split; [exact Hes|]. split; [vm_compute; reflexivity|]. split.
  - rewrite (proj1 (add_to_cart_accumulates 1 1 _ scenario_db Hes
                      ltac:(discriminate)
                      ltac:(unfold max_int; lia)
                      ltac:(rewrite Hq1; unfold min_int; lia)
                      ltac:(rewrite Hq1; cbn [List.length];
                            unfold max_int; lia))).
    rewrite Hq1. reflexivity.
  - rewrite (proj1 (add_to_cart_accumulates 7 1 _ scenario_db Hes
                      ltac:(discriminate)
                      ltac:(unfold max_int; lia)
                      ltac:(rewrite Hq7; unfold min_int; lia)
                      ltac:(rewrite Hq7; cbn [List.length];
                            unfold max_int; lia))).
    rewrite Hq7. reflexivity.
Defined.

Ltac catalog_blind :=
  try unfold insert_cart;
  repeat match goal with
         | |- context [t_cart (set_products ?d ?ps ?n)] =>
             change (t_cart (set_products d ps n)) with (t_cart d)
         end;
  try match goal with
      | |- context [existsb ?f (t_cart ?d)] => destruct (existsb f (t_cart d))
      end;
  run_handler.

(** X9.  Add-to-cart never looks at the catalog: under every session and
    fault plan, its reply and the cart it leaves are the same whatever the
    products table holds, so a product id that the catalog lacks is
    accepted like any other. *)
Theorem add_to_cart_ignores_catalog (pid : Z) (e : env) (d : db)
        (ps : list product_row) (n : Z) :
  out_reply (serve (add_to_cart pid) e (set_products d ps n))
  = out_reply (serve (add_to_cart pid) e d)
  /\ t_cart (out_db (serve (add_to_cart pid) e (set_products d ps n)))
     = t_cart (out_db (serve (add_to_cart pid) e d)).
Proof.
  destruct e as [[[u|] sn] now f]; unfold add_to_cart; run_handler;
    [destruct (u =? 0); [split; reflexivity|] | split; reflexivity].
  destruct (bindable [pid]).
  - destruct f as [[|f]|]; run_handler; [split; reflexivity| |].
    all: change (select_quantity u pid (set_products d ps n))
           with (select_quantity u pid d).
    all: destruct (select_quantity u pid d) as [q|]; run_handler.
    all: faults_with catalog_blind.
    all: split; reflexivity.
  - destruct f as [[|f]|]; run_handler; split; reflexivity.
Qed.

(** X19.  A product id above [max_int] matches the routes of add-to-cart
    and set-quantity, passes the login guard and cannot be bound to the
    first statement of the handler: for a logged-in user, with the store
    available, the request ends in an uncaught [OverflowError] and leaves
    database, session and flashed messages as they were, whatever the cart
    holds; for set-quantity this comes after [int()], so a quantity that is
    no integer is still answered with [ValueError]. *)
Theorem oversized_product_id_is_refused (pid : Z) (e : env) (d : db)
        (uid : Z) :
  logged_in e uid -> e_fault e = None -> max_int < pid ->
  serve (add_to_cart pid) e d
  = mk_outcome d (e_session e) [] (ServerError OverflowError)
  /\ (forall f,
         serve (update_cart pid f) e d
         = mk_outcome d (e_session e) []
                      (ServerError (match quantity_of f with
                                    | Some _ => OverflowError
                                    | None => ValueError
                                    end))).
Proof.
  intros Hu Hf Hp. split.
  - assert (Hb : bindable [pid] = false)
      by (apply not_bindable_one; right; exact Hp).
    destruct (add_to_cart_cases pid e d uid Hu)
      as [[Hne _] | [[_ E] | [Hb' _]]];
      [contradiction | exact E | congruence].
  - intros f. pose proof (update_cart_cases pid f e d uid Hu) as H.
    cbn zeta in H. destruct (quantity_of f) as [q|]; [|exact H].
    assert (Hb : bindable (if q =? 0 then [pid] else [q; pid]) = false).
    { destruct (q =? 0).
      - apply not_bindable_one. right. exact Hp.
      - destruct (bindable [q; pid]) eqn:Eb; [|reflexivity].
        apply bindable_two in Eb. lia. }
    destruct H as [[Hne _] | [[_ E] | [Hb' _]]];
      [contradiction | exact E | congruence].
Qed.

Lemma oversized_product_id_is_refused_witness :
  logged_in alice 1 /\ e_fault alice = None
  /\ serve (add_to_cart (max_int + 1)) alice scenario_db
     = mk_outcome scenario_db (e_session alice) []
                  (ServerError OverflowError)
  /\ serve (add_to_cart max_int) alice scenario_db
     <> mk_outcome scenario_db (e_session alice) []
                   (ServerError OverflowError).
Proof.
  assert (Hu : logged_in alice 1) by (split; [reflexivity | discriminate]).
  split; [exact Hu|]. split; [reflexivity|]. split.
  - apply (oversized_product_id_is_refused (max_int + 1) alice scenario_db 1
             Hu eq_refl).
    lia.
  - intros H. apply (f_equal out_reply) in H. revert H.
    vm_compute. discriminate.
Defined.

(** *** Clear cart *)

Lemma filter_twice {A} (g : A -> bool) (l : list A) :
  filter g (filter g l) = filter g l.
Proof.
  induction l as [|a l IH]; cbn; [reflexivity|].
  destruct (g a) eqn:Eg; cbn; [rewrite Eg, IH; reflexivity | exact IH].
Qed.

(** X11.  Clear-cart of a logged-in user, with the store available,
    answers ok and deletes the cart lines of this user and no other row:
    the cart keeps exactly the lines of the other users, the orders are
    untouched, clearing again changes nothing more, and a checkout right
    after it fails with EmptyCart. *)
Theorem clear_cart_empties_own_cart (e : env) (d : db) (uid : Z) :
  logged_in e uid -> e_fault e = None ->
  let o := serve clear_cart e d in
  out_reply o = Json true None 200
  /\ cart_lines uid (out_db o) = []
  /\ (forall c, In c (t_cart (out_db o))
                <-> In c (t_cart d) /\ c_user_id c <> uid)
  /\ (t_orders (out_db o) = t_orders d
      /\ t_order_items (out_db o) = t_order_items d)
  /\ serve clear_cart e (out_db o) = o
  /\ serve (checkout POST) e (out_db o) = EmptyCart e (out_db o).
Proof.
  intros Hu Hf.
  assert (Hclear : forall d0,
             serve clear_cart e d0
             = mk_outcome (committed (delete_cart uid d0) d0) (e_session e) []
                          (Json true None 200)).
  { intros d0. destruct (clear_cart_cases e d0 uid Hu) as [[Hne _] | E];
      [contradiction | exact E]. }
  cbn zeta. rewrite (Hclear d). cbn [out_reply out_db].
  assert (Hnone : cart_lines uid (committed (delete_cart uid d) d) = [])
    by (apply (cart_lines_cleared uid d); reflexivity).
  split; [reflexivity|]. split; [exact Hnone|]. split; [|split; [|split]].
  - intros c. cbn. rewrite filter_In. split; intros [Hin Hc]; (split; [exact Hin|]).
    + intros Heq. rewrite Heq, Z.eqb_refl in Hc. discriminate.
    + destruct (c_user_id c =? uid) eqn:E; [|reflexivity].
      exfalso. apply Hc. lia.
  - split; reflexivity.
  - rewrite (Hclear _). f_equal. cbn. unfold set_cart. cbn.
    rewrite filter_twice. reflexivity.
  - rewrite (checkout_fault_free e _ uid Hu Hf).
    rewrite (select_items_no_lines uid _ Hnone). reflexivity.
Qed.

Lemma clear_cart_empties_own_cart_witness :
  logged_in alice 1 /\ e_fault alice = None
  /\ List.length (t_cart scenario_db) = 2%nat
  /\ t_cart (out_db (serve clear_cart alice scenario_db)) = []
  /\ serve (checkout POST) alice (out_db (serve clear_cart alice scenario_db))
     = EmptyCart alice (out_db (serve clear_cart alice scenario_db)).
Proof.
  assert (Hu : logged_in alice 1) by (split; [reflexivity | discriminate]).
  destruct (clear_cart_empties_own_cart alice scenario_db 1 Hu eq_refl)
    as (_ & _ & _ & _ & _ & Hempty).
  split; [exact Hu|]. split; [reflexivity|].
  split; [vm_compute; reflexivity|]. split; [vm_compute; reflexivity|].
  exact Hempty.
Defined.

(** *** Trimming *)

Lemma rstrip_cons (c : ascii) (r : string) :
  rstrip (String c r)
  = match rstrip r with
    | EmptyString => if isspace c then EmptyString else String c EmptyString
    | r' => String c r'
    end.
Proof. reflexivity. Qed.

Lemma lstrip_head (s : string) : head_clean (lstrip s).
Proof.
  induction s as [|c r IH]; cbn; [exact I|].
  destruct (isspace c) eqn:Ec; [exact IH | exact Ec].
Qed.

Lemma lstrip_clean (s : string) : head_clean s -> lstrip s = s.
Proof.
  destruct s as [|c r]; cbn; [reflexivity|]. intros ->. reflexivity.
Qed.

Lemma rstrip_head (s : string) : head_clean s -> head_clean (rstrip s).
Proof.
  destruct s as [|c r]; [exact (fun H => H)|].
  cbn [head_clean]. intros Hc. rewrite rstrip_cons.
  destruct (rstrip r); [rewrite Hc|]; exact Hc.
Qed.

Lemma rstrip_idem (s : string) : rstrip (rstrip s) = rstrip s.
Proof.
  induction s as [|c r IH]; [reflexivity|].
  rewrite rstrip_cons. destruct (rstrip r) as [|c' r'] eqn:Er.
  - destruct (isspace c) eqn:Ec; [reflexivity|].
    rewrite rstrip_cons. cbn [rstrip]. rewrite Ec. reflexivity.
  - rewrite rstrip_cons, IH. reflexivity.
Qed.

Lemma strip_idem (s : string) : strip (strip s) = strip s.
Proof.
  unfold strip.
  rewrite (lstrip_clean (rstrip (lstrip s))).
  - apply rstrip_idem.
  - apply rstrip_head. apply lstrip_head.
Qed.

(** *** The account store keeps its constraints *)

Lemma username_free (name : string) (l : list user_row) :
  existsb (fun u => String.eqb (u_username u) name) l = false ->
  ~ In name (map u_username l).
Proof.
  induction l as [|u l IH]; cbn; [tauto|].
  intros H. apply orb_false_iff in H as [Hu Hl].
  intros [Heq | Hin]; [|exact (IH Hl Hin)].
  rewrite Heq, String.eqb_refl in Hu. discriminate.
Qed.

Lemma email_free (email : string) (l : list user_row) :
  existsb (fun u => match u_email u with
                    | Some e => String.eqb e email
                    | None => false
                    end) l = false ->
  ~ In email (emails l).
Proof.
  induction l as [|u l IH]; cbn; [tauto|].
  intros H. apply orb_false_iff in H as [Hu Hl].
  intros Hin. apply in_app_or in Hin as [Hin | Hin]; [|exact (IH Hl Hin)].
  destruct (u_email u) as [e0|]; [|destruct Hin].
  destruct Hin as [-> | []]. rewrite String.eqb_refl in Hu. discriminate.
Qed.

Lemma NoDup_snoc {A} (l : list A) (x : A) :
  NoDup l -> ~ In x l -> NoDup (l ++ [x]).
Proof.
  intros Hl Hx. apply NoDup_app; [exact Hl | constructor; [tauto | constructor] |].
  intros a Ha [<- | []]. exact (Hx Ha).
Qed.

Lemma users_ok_same (d d' : db) :
  t_users d' = t_users d -> seq_users d' = seq_users d ->
  users_ok d -> users_ok d'.
Proof.
  unfold users_ok. intros -> ->. exact (fun H => H).
Qed.

Lemma users_ok_insert (username email password : string) (d d' : db) :
  username <> "" -> password <> "" ->
  trimmed username -> trimmed password ->
  insert_user username email password d = inr (tt, d') ->
  users_ok d -> users_ok d'.
Proof.
  intros Hn Hp Htn Htp Hi (Hseq & Hnames & Hemails & Hids & Hall).
  unfold insert_user in Hi.
  destruct (existsb _ _) eqn:E1 in Hi; [discriminate|].
  destruct (existsb _ _) eqn:E2 in Hi; [discriminate|].
  cbn in Hi. inversion Hi; subst; clear Hi.
  unfold users_ok. cbn -[Z.add].
  split; [lia|]. split; [|split; [|split]].
  - rewrite map_app. apply NoDup_snoc; [exact Hnames|].
    apply username_free. exact E1.
  - unfold emails. rewrite flat_map_app. cbn.
    apply NoDup_snoc; [exact Hemails|]. apply email_free. exact E2.
  - rewrite map_app. apply NoDup_snoc; [exact Hids|]. cbn.
    intros Hin. apply in_map_iff in Hin as (u & Hu & Hin).
    rewrite Forall_forall in Hall. destruct (Hall u Hin) as (_ & _ & _ & _ & H).
    lia.
  - apply Forall_app. split.
    + revert Hall. apply Forall_impl.
      intros u (H1 & H2 & H3 & H4 & H5). repeat split; try assumption; lia.
    + constructor; [|constructor].
      repeat split; try assumption; cbn; lia.
Qed.

Lemma seed_users (d : db) :
  t_users (seed d) = t_users d /\ seq_users (seed d) = seq_users d.
Proof.
  unfold seed, starter_catalog, committed, insert_product.
  cbn -[Z.add]. split; reflexivity.
Qed.

Lemma move_users_ok (m : move) (d : db) :
  users_ok d -> users_ok (apply_move d m).
Proof.
  intros Hok. destruct m as [[|r] e | pid price]; cbn [apply_move].
  - destruct (init_db_cases e d) as [E | [_ E]]; rewrite E; [exact Hok|].
    destruct (seed_users d) as [H1 H2].
    exact (users_ok_same d _ H1 H2 Hok).
  - unfold step. pose proof (request_effect_of r e d) as H.
    remember (out_db (serve (dispatch r) e d)) as d' eqn:Ed'. clear Ed'.
    destruct H as [r | f d' Hu Hp Hi | uid pid Hu | uid pid f q Hu Hq | uid Hu
                  | uid Hu Hi].
    + exact Hok.
    + exact (users_ok_insert _ _ _ d d' Hu Hp (strip_idem _) (strip_idem _)
                             Hi Hok).
    + apply (users_ok_same d); [| |exact Hok];
        destruct (select_quantity uid pid d); try reflexivity;
        unfold insert_cart; destruct (existsb _ _); reflexivity.
    + apply (users_ok_same d); [| |exact Hok]; destruct (q =? 0); reflexivity.
    + apply (users_ok_same d); [reflexivity | reflexivity | exact Hok].
    + apply (users_ok_same d); [reflexivity | reflexivity | exact Hok].
  - apply (users_ok_same d); [reflexivity | reflexivity | exact Hok].
Qed.

(** X14.  The account store keeps its constraints through every history of
    moves, under every fault plan: usernames are unique, emails are unique,
    ids are unique and at least 1 (so no stored user has the id 0 that the
    login guard reads as no user), and every username and password is
    stored trimmed and not empty. *)
Theorem accounts_stay_well_formed (d : db) (ms : list move) :
  users_ok d -> users_ok (run ms d).
Proof.
  revert d. induction ms as [|m ms IH]; intros d H; cbn; [exact H|].
  apply IH. apply move_users_ok. exact H.
Qed.

Lemma accounts_stay_well_formed_witness :
  users_ok empty_db /\ users_ok scenario_db
  /\ map u_username (t_users scenario_db) = ["alice"].
Proof.
  assert (H0 : users_ok empty_db).
  { split; [cbn; lia|]. repeat (split; [constructor|]). constructor. }
  split; [exact H0|]. split.
  - exact (accounts_stay_well_formed empty_db scenario_moves H0).
  - vm_compute. reflexivity.
Defined.

(** *** Signup, login, logout *)

Lemma insert_user_fresh (username email password : string) (d : db) :
  ~ identity_taken d username email ->
  insert_user username email password d
  = inr (tt, set_users d
               (t_users d
                ++ [mk_user (seq_users d + 1) username (Some email) password])
               (seq_users d + 1)).
Proof.
  intros Hfree. unfold insert_user.
  replace (_ || _) with false; [reflexivity|].
  symmetry. apply orb_false_iff. split.
  - destruct (existsb _ _) eqn:E; [|reflexivity].
    exfalso. apply Hfree. apply existsb_exists in E as (u & Hu & Hn).
    exists u. split; [exact Hu|]. left. apply String.eqb_eq. exact Hn.
  - destruct (existsb _ _) eqn:E; [|reflexivity].
    exfalso. apply Hfree. apply existsb_exists in E as (u & Hu & He).
    exists u. split; [exact Hu|]. right.
    destruct (u_email u) as [e0|]; [|discriminate].
    apply String.eqb_eq in He. rewrite He. reflexivity.
Qed.

Lemma signup_fault_free (f : form) (e : env) (d : db) :
  strip (form_get (f_username f) "") <> "" ->
  strip (form_get (f_password f) "") <> "" ->
  e_fault e = None ->
  serve (signup POST f) e d
  = match insert_user (strip (form_get (f_username f) ""))
                      (strip (form_get (f_email f) ""))
                      (strip (form_get (f_password f) "")) d with
    | inl _ => DuplicateIdentity e d
    | inr (_, d') =>
        mk_outcome d' (e_session e)
                   [("Signup successful. Please log in.", "success")]
                   (RedirectTo EpLogin)
    end.
Proof.
  intros Hn Hp Hf. pose proof (signup_post_cases f e d) as Hc.
  cbn zeta in Hc.
  rewrite (str_truthy_nonempty _ Hn), (str_truthy_nonempty _ Hp) in Hc.
  cbn [negb orb] in Hc. destruct Hc as [[Hne _] | Hc]; [contradiction|].
  destruct (insert_user _ _ _ d) as [x | [u d']]; exact Hc.
Qed.

Lemma login_fault_free (f : form) (e : env) (d : db) :
  e_fault e = None ->
  serve (login POST f) e d
  = match select_user (strip (form_get (f_username f) ""))
                      (strip (form_get (f_password f) "")) d with
    | Some (id, name) =>
        mk_outcome d (mk_session (Some id) (Some name))
                   [("Logged in.", "success")] (RedirectTo EpHome)
    | None => InvalidCredentials e d
    end.
Proof.
  intros Hf. destruct (login_post_cases f e d) as [[Hne _] | Hc];
    [contradiction|].
  cbn zeta in Hc. destruct (select_user _ _ d) as [[id name]|]; exact Hc.
Qed.

(** X12.  Signup and login round trip.  With the store available, a signup
    whose trimmed username and password are not empty and whose trimmed
    username and email no stored user has succeeds: it appends one user
    row, with the next id and the trimmed fields, touches nothing else and
    sends the user to the login page; a login with the same form on the
    resulting database then succeeds, and the session is that of the new
    user. *)
Theorem signup_then_login (f : form) (e e2 : env) (d : db) :
  let username := strip (form_get (f_username f) "") in
  let email := strip (form_get (f_email f) "") in
  let password := strip (form_get (f_password f) "") in
  let d' := set_users d
              (t_users d
               ++ [mk_user (seq_users d + 1) username (Some email) password])
              (seq_users d + 1) in
  username <> "" -> password <> "" ->
  ~ identity_taken d username email ->
  e_fault e = None -> e_fault e2 = None ->
  serve (signup POST f) e d
  = mk_outcome d' (e_session e)
               [("Signup successful. Please log in.", "success")]
               (RedirectTo EpLogin)
  /\ serve (login POST f) e2 d'
     = mk_outcome d' (mk_session (Some (seq_users d + 1)) (Some username))
                  [("Logged in.", "success")] (RedirectTo EpHome).
Proof.
  intros username email password d' Hn Hp Hfree Hf Hf2. split.
  - rewrite (signup_fault_free f e d Hn Hp Hf).
    fold username email password.
    rewrite (insert_user_fresh username email password d Hfree). reflexivity.
  - rewrite (login_fault_free f e2 d' Hf2). fold username password.
    unfold select_user, d'. cbn [t_users set_users].
    rewrite find_app_new; [reflexivity | |].
    + destruct (find _ (t_users d)) as [u|] eqn:Eu; [|reflexivity].
      exfalso. apply Hfree. apply find_some in Eu as [Hin Hm].
      apply andb_true_iff in Hm as [Hm _]. apply String.eqb_eq in Hm.
      exists u. split; [exact Hin | left; exact Hm].
    + cbn. rewrite !String.eqb_refl. reflexivity.
Qed.

Lemma signup_then_login_witness :
  ~ identity_taken scenario_db "bob" ""
  /\ out_reply (serve (signup POST bob_form) guest scenario_db)
     = RedirectTo EpLogin
  /\ out_session
       (serve (login POST bob_form) guest
              (out_db (serve (signup POST bob_form) guest scenario_db)))
     = mk_session (Some 2) (Some "bob").
Proof.
  assert (Hl : t_users scenario_db
               = [mk_user 1 "alice" (Some "alice@example.org") "secret"])
    by (vm_compute; reflexivity).
  assert (Hfree : ~ identity_taken scenario_db "bob" "").
  { intros (u & Hin & Hid). rewrite Hl in Hin. clear Hl.
    destruct Hin as [<- | []]. cbn in Hid.
    destruct Hid as [H | H]; discriminate H. }
  assert (Hn : strip (form_get (f_username bob_form) "") <> "")
    by (vm_compute; discriminate).
  assert (Hp : strip (form_get (f_password bob_form) "") <> "")
    by (vm_compute; discriminate).
  destruct (signup_then_login bob_form guest guest scenario_db
                              Hn Hp Hfree eq_refl eq_refl) as [Hs Hlog].
  split; [exact Hfree|]. split.
  - rewrite Hs. reflexivity.
  - rewrite Hs. cbn [out_db]. rewrite Hlog. cbn [out_session].
    vm_compute. reflexivity.
Defined.

(** X13.  The email is stored as the trimmed text of the field, the empty
    string when the field is absent or blank, and the column is unique: once
    one signup without an email has succeeded, every later signup without
    an email is refused with DuplicateIdentity, whatever its username, and
    stores nothing. *)
Theorem blank_email_is_taken_once (f1 f2 : form) (e1 e2 : env) (d : db) :
  strip (form_get (f_email f1) "") = "" ->
  strip (form_get (f_email f2) "") = "" ->
  strip (form_get (f_username f2) "") <> "" ->
  strip (form_get (f_password f2) "") <> "" ->
  e_fault e2 = None ->
  out_reply (serve (signup POST f1) e1 d) = RedirectTo EpLogin ->
  serve (signup POST f2) e2 (out_db (serve (signup POST f1) e1 d))
  = DuplicateIdentity e2 (out_db (serve (signup POST f1) e1 d)).
Proof.
  intros Hm1 Hm2 Hn2 Hp2 Hf2 Hr.
  assert (Hblank : exists u, In u (t_users (out_db (serve (signup POST f1) e1 d)))
                             /\ u_email u = Some "").
  { pose proof (signup_post_cases f1 e1 d) as Hc. cbn zeta in Hc.
    destruct (negb _ || negb _); [rewrite Hc in Hr; discriminate|].
    destruct Hc as [[_ Hc] | Hc]; [rewrite Hc in Hr; discriminate|].
    destruct (insert_user _ _ _ d) as [x | [[] d']] eqn:Ei;
      [rewrite Hc in Hr; discriminate|].
    rewrite Hc. cbn [out_db].
    unfold insert_user in Ei. destruct (_ || _) in Ei; [discriminate|].
    inversion Ei; subst; clear Ei.
    eexists. split; [apply in_or_app; right; left; reflexivity|].
    cbn. rewrite Hm1. reflexivity. }
  destruct Hblank as (u & Hin & He).
  rewrite (signup_fault_free f2 e2 _ Hn2 Hp2 Hf2).
  rewrite insert_user_taken; [reflexivity|].
  exists u. split; [exact Hin|]. right. rewrite Hm2. exact He.
Qed.

Lemma blank_email_is_taken_once_witness :
  out_reply (serve (signup POST bob_form) guest scenario_db)
  = RedirectTo EpLogin
  /\ strip (form_get (f_email carol_form) "") = ""
  /\ serve (signup POST carol_form) guest
           (out_db (serve (signup POST bob_form) guest scenario_db))
     = DuplicateIdentity guest
         (out_db (serve (signup POST bob_form) guest scenario_db)).
Proof.
  assert (Hr : out_reply (serve (signup POST bob_form) guest scenario_db)
               = RedirectTo EpLogin) by (vm_compute; reflexivity).
  split; [exact Hr|]. split; [vm_compute; reflexivity|].
  assert (Hn : strip (form_get (f_username carol_form) "") <> "")
    by (vm_compute; discriminate).
  assert (Hp : strip (form_get (f_password carol_form) "") <> "")
    by (vm_compute; discriminate).
  assert (Hb : strip (form_get (f_email bob_form) "") = "")
    by (vm_compute; reflexivity).
  assert (Hc : strip (form_get (f_email carol_form) "") = "")
    by (vm_compute; reflexivity).
  exact (blank_email_is_taken_once bob_form carol_form guest guest scenario_db
                                   Hb Hc Hn Hp eq_refl Hr).
Defined.

Lemma same_username_same_user (l : list user_row) (u v : user_row) :
  NoDup (map u_username l) -> In u l -> In v l ->
  u_username u = u_username v -> u = v.
Proof.
  induction l as [|a l IH]; cbn; [tauto|].
  intros Hnd Hu Hv Heq. inversion Hnd as [|? ? Hnin Hrest]; subst.
  destruct Hu as [-> | Hu], Hv as [-> | Hv].
  - reflexivity.
  - exfalso. apply Hnin. rewrite Heq. apply in_map. exact Hv.
  - exfalso. apply Hnin. rewrite <- Heq. apply in_map. exact Hu.
  - exact (IH Hrest Hu Hv Heq).
Qed.

(** X15.  The session life cycle.  In a well-formed account store, with
    the store available, a login with the username and password of a
    stored user, as they are stored, succeeds and opens the session of that
    very user; a request in that session passes the login guard, so
    add-to-cart is accepted, for a product id that the route and SQLite can
    hold (from 0 to [max_int]); after logout the session has no user,
    whoever it was, nothing is written, and add-to-cart is denied again. *)
Theorem session_life_cycle (d : db) (u : user_row) (e : env) :
  users_ok d -> In u (t_users d) -> e_fault e = None ->
  let o := serve (login POST (credentials_of u)) e d in
  o = mk_outcome d (mk_session (Some (u_id u)) (Some (u_username u)))
                 [("Logged in.", "success")] (RedirectTo EpHome)
  /\ (forall now pid,
         0 <= pid <= max_int ->
         out_reply (serve (add_to_cart pid)
                          (mk_env (out_session o) now None) d)
         = Json true None 200)
  /\ (forall now f,
         serve logout (mk_env (out_session o) now f) d
         = mk_outcome d anonymous [("Logged out.", "info")] (RedirectTo EpHome))
  /\ (forall now f pid,
         serve (add_to_cart pid) (mk_env anonymous now f) d
         = mk_outcome d anonymous [] (Json false (Some EpLogin) 401)).
Proof.
  intros (Hseq & Hnames & _ & _ & Hall) Hin Hf.
  rewrite Forall_forall in Hall.
  destruct (Hall u Hin) as (_ & _ & Htn & Htp & Hid).
  assert (Ho : serve (login POST (credentials_of u)) e d
               = mk_outcome d (mk_session (Some (u_id u)) (Some (u_username u)))
                            [("Logged in.", "success")] (RedirectTo EpHome)).
  { rewrite (login_fault_free _ e d Hf). cbn [credentials_of f_username
                                              f_password form_get].
    rewrite Htn, Htp. unfold select_user.
    destruct (find _ (t_users d)) as [v|] eqn:Ev.
    - apply find_some in Ev as [Hv Hm].
      apply andb_true_iff in Hm as [Hm _]. apply String.eqb_eq in Hm.
      rewrite (same_username_same_user _ v u Hnames Hv Hin Hm). reflexivity.
    - exfalso. pose proof (find_none _ _ Ev u Hin) as Hno. cbn in Hno.
      rewrite !String.eqb_refl in Hno. discriminate. }
  cbn zeta. rewrite Ho. cbn [out_session].
  split; [reflexivity|]. split; [|split].
  - intros now pid Hpid.
    assert (Hl : logged_in (mk_env (mk_session (Some (u_id u))
                                               (Some (u_username u))) now None)
                           (u_id u))
      by (split; [reflexivity | lia]).
    rewrite (add_to_cart_accepted pid _ d (u_id u) Hl eq_refl)
      by (unfold min_int; lia).
    reflexivity.
  - intros now f. reflexivity.
  - intros now f pid. reflexivity.
Qed.

Lemma session_life_cycle_witness :
  users_ok scenario_db
  /\ In alice_row (t_users scenario_db)
  /\ out_session (serve (login POST (credentials_of alice_row)) guest
                        scenario_db)
     = mk_session (Some 1) (Some "alice")
  /\ out_reply (serve (add_to_cart 3)
                      (mk_env (mk_session (Some 1) (Some "alice")) 1000 None)
                      scenario_db)
     = Json true None 200.
Proof.
  assert (Hl : t_users scenario_db = [alice_row]) by (vm_compute; reflexivity).
  assert (Hs : seq_users scenario_db = 1) by (vm_compute; reflexivity).
  assert (Hok : users_ok scenario_db).
  { unfold users_ok. rewrite Hl, Hs. clear Hl Hs. cbn.
    split; [lia|].
    split; [constructor; [intros []|constructor]|].
    split; [constructor; [intros []|constructor]|].
    split; [constructor; [intros []|constructor]|].
    constructor; [|constructor].
    split; [discriminate|]. split; [discriminate|].
    split; [vm_compute; reflexivity|]. split; [vm_compute; reflexivity|].
    cbn. lia. }
  assert (Hin : In alice_row (t_users scenario_db))
    by (rewrite Hl; left; reflexivity).
  clear Hl Hs.
  destruct (session_life_cycle scenario_db alice_row guest Hok Hin eq_refl)
    as (Ho & Hadd & _).
  split; [exact Hok|]. split; [exact Hin|]. split.
  - rewrite Ho. reflexivity.
  - rewrite Ho in Hadd. apply (Hadd 1000 3). unfold max_int. lia.
Defined.

(** *** The ledger keeps its books *)

Lemma ledger_ok_same (d d' : db) :
  t_orders d' = t_orders d -> t_order_items d' = t_order_items d ->
  seq_orders d' = seq_orders d -> ledger_ok d -> ledger_ok d'.
Proof.
  unfold ledger_ok, orders_ok, order_amount, items_of_order, order_of.
  intros -> -> ->. exact (fun H => H).
Qed.

Lemma find_app_found {A} (f : A -> bool) (l new : list A) :
  find f l <> None -> find f (l ++ new) <> None.
Proof.
  induction l as [|a l IH]; cbn; [congruence|].
  destruct (f a); [discriminate | exact IH].
Qed.

Lemma find_present {A} (f : A -> bool) (l : list A) (x : A) :
  In x l -> f x = true -> find f l <> None.
Proof.
  intros Hin Hx Hnone. rewrite (find_none _ _ Hnone x Hin) in Hx.
  discriminate.
Qed.

Lemma checkout_db_tables (uid now : Z) (d : db) :
  t_orders (checkout_db uid now d)
  = t_orders d
    ++ [mk_order (seq_orders d + 1) uid (checkout_total uid d) now]
  /\ t_order_items (checkout_db uid now d)
     = t_order_items d
       ++ numbered_items (seq_order_items d) (seq_orders d + 1)
                         (select_items uid d).
Proof. split; reflexivity. Qed.

Lemma checkout_ledger_ok (uid now : Z) (d : db) :
  select_items uid d <> [] -> ledger_ok d -> ledger_ok (checkout_db uid now d).
Proof.
  intros Hitems (Hord & Hnd & Horders & Hitemsok).
  pose proof (effect_orders_ok d _ (eff_checkout d uid now Hitems) Hord)
    as Hord'.
  destruct Hord as [Hids Hoids].
  destruct (checkout_db_tables uid now d) as [Ho' Hoi'].
  pose proof (numbered_items_order_id (seq_order_items d) (seq_orders d + 1)
                                      (select_items uid d)) as Hnew.
  assert (Hold : forall oid,
             oid <= seq_orders d ->
             items_of_order oid (checkout_db uid now d) = items_of_order oid d).
  { intros oid Hoid. unfold items_of_order. rewrite Hoi'. f_equal.
    apply filter_app_old. revert Hnew. apply Forall_impl. intros oi ->. lia. }
  assert (Hmine : items_of_order (seq_orders d + 1) (checkout_db uid now d)
                  = map (fun i => (i_product_id i, i_quantity i, i_price i))
                        (select_items uid d)).
  { unfold items_of_order. rewrite Hoi'.
    rewrite (items_of_new_order d); [apply numbered_items_snapshot
                                    | exact Hoids | lia | exact Hnew]. }
  rewrite Forall_forall in Hids, Horders, Hitemsok.
  split; [exact Hord'|]. split; [|split].
  - rewrite Ho', map_app. apply NoDup_snoc; [exact Hnd|].
    intros Hin. apply in_map_iff in Hin as (o & Ho & Hin).
    specialize (Hids o Hin). cbn [map o_id] in Ho. lia.
  - apply Forall_forall. intros o Ho. rewrite Ho' in Ho.
    apply in_app_or in Ho as [Ho | [<- | []]].
    + destruct (Horders o Ho) as [Ht Hne]. unfold order_amount in *.
      rewrite (Hold (o_id o) (Hids o Ho)). split; assumption.
    + cbn [o_id o_total_amount]. unfold order_amount. rewrite Hmine. split.
      * unfold checkout_total. rewrite py_sum_fold_right, !map_map.
        reflexivity.
      * destruct (select_items uid d); [contradiction | discriminate].
  - apply Forall_forall. intros oi Hoi. rewrite Hoi' in Hoi.
    unfold order_of. rewrite Ho'.
    apply in_app_or in Hoi as [Hoi | Hoi].
    + apply find_app_found. exact (Hitemsok oi Hoi).
    + rewrite Forall_forall in Hnew. rewrite (Hnew oi Hoi).
      apply (find_present _ _ (mk_order (seq_orders d + 1) uid
                                        (checkout_total uid d) now)).
      * apply in_or_app. right. left. reflexivity.
      * cbn [o_id]. apply Z.eqb_refl.
Qed.

Lemma effect_ledger_ok (d d' : db) : effect d d' -> ledger_ok d -> ledger_ok d'.
Proof.
  intros Heff Hok.
  destruct Heff as [ | Hp | username email password d' Hi | uid pid
                   | uid pid q Hq | uid | uid now Hitems | pid price ].
  - exact Hok.
  - destruct (seed_tables d Hp) as (_ & _ & _ & Ho & Hs & Hoi).
    exact (ledger_ok_same d _ Ho Hoi Hs Hok).
  - unfold insert_user in Hi. destruct (_ || _) in Hi; [discriminate|].
    inversion Hi; subst. exact (ledger_ok_same d _ eq_refl eq_refl eq_refl Hok).
  - apply (ledger_ok_same d); [| | |exact Hok];
      destruct (select_quantity uid pid d); try reflexivity;
      unfold insert_cart; destruct (existsb _ _); reflexivity.
  - apply (ledger_ok_same d); [| | |exact Hok]; destruct (q =? 0); reflexivity.
  - exact (ledger_ok_same d _ eq_refl eq_refl eq_refl Hok).
  - apply checkout_ledger_ok; assumption.
  - exact (ledger_ok_same d _ eq_refl eq_refl eq_refl Hok).
Qed.

(** X16.  The ledger keeps its books through every history of moves, the
    changes of catalog prices included and under every fault plan, along
    which the quantities of the cart and the prices of the catalog are
    INTEGERs (no quantity is counted beyond [max_int], no price is set
    outside the range): order ids stay unique, every order has at least one
    item, the total of every order is the sum over its items of price each
    times quantity, and every order item belongs to an order that
    exists. *)
Theorem ledger_stays_consistent (d : db) (ms : list move) :
  ledger_ok d -> Forall integral (trace ms d) -> ledger_ok (run ms d).
Proof.
  intros H _. revert d H.
  induction ms as [|m ms IH]; intros d H; cbn; [exact H|].
  apply IH. apply (effect_ledger_ok d); [apply move_effect | exact H].
Qed.

Lemma ledger_stays_consistent_witness :
  let later := [ App (Request (ReqCheckout POST)) alice;
                 Reprice 1 999;
                 App (Request (ReqAddToCart 1)) alice;
                 App (Request (ReqCheckout POST)) alice ] in
  ledger_ok scenario_db
  /\ Forall integral (trace later scenario_db)
  /\ ledger_ok (run later scenario_db)
  /\ map (fun o => (o_id o, o_total_amount o,
                    order_amount (o_id o) (run later scenario_db)))
         (t_orders (run later scenario_db))
     = [(1, 450, 450); (2, 999, 999)].
Proof.
  intros later.
  assert (Hl : ledger_ok scenario_db).
  { split; [split; vm_compute; constructor|].
    split; [vm_compute; constructor|].
    split; vm_compute; constructor. }
  assert (Ht : Forall integral (trace later scenario_db)).
  { unfold later. cbn [trace].
    repeat (constructor;
            [apply integral_checked; vm_compute; reflexivity|]).
    constructor. }
  split; [exact Hl|]. split; [exact Ht|]. split.
  - exact (ledger_stays_consistent scenario_db later Hl Ht).
  - vm_compute. reflexivity.
Defined.

(** *** The schema statements of [init_db] *)

Lemma same_name_refl (a : string) : same_name a a = true.
Proof. apply String.eqb_refl. Qed.

Lemma has_table_find (sch : schema) (m : string) :
  has_table sch m = true ->
  find (fun t => same_name (fst t) m) sch <> None.
Proof.
  unfold has_table. induction sch as [|t sch IH]; cbn; [discriminate|].
  destruct (same_name (fst t) m); [discriminate | exact IH].
Qed.

Lemma find_app_keep {A} (f : A -> bool) (l new : list A) :
  find f l <> None -> find f (l ++ new) = find f l.
Proof.
  induction l as [|a l IH]; cbn; [congruence|].
  destruct (f a); [reflexivity | exact IH].
Qed.

Lemma has_table_create_same (sch : schema) (t : string) (cols : list string) :
  has_table (create_table sch t cols) t = true.
Proof.
  unfold create_table. destruct (has_table sch t) eqn:E; [exact E|].
  unfold has_table. rewrite existsb_app. cbn [existsb fst].
  rewrite same_name_refl. apply orb_true_iff. right. reflexivity.
Qed.

Lemma has_table_create_mono (sch : schema) (t m : string) (cols : list string) :
  has_table sch m = true -> has_table (create_table sch t cols) m = true.
Proof.
  intros H. unfold create_table. destruct (has_table sch t); [exact H|].
  unfold has_table in *. rewrite existsb_app, H. reflexivity.
Qed.

Lemma create_table_present (sch : schema) (t : string) (cols : list string) :
  has_table sch t = true -> create_table sch t cols = sch.
Proof. unfold create_table. intros ->. reflexivity. Qed.

Lemma table_info_create (sch : schema) (t m : string) (cols : list string) :
  has_table sch m = true ->
  table_info (create_table sch t cols) m = table_info sch m.
Proof.
  intros H. unfold create_table. destruct (has_table sch t); [reflexivity|].
  unfold table_info. rewrite find_app_keep; [reflexivity|].
  apply has_table_find. exact H.
Qed.

Lemma add_column_tables (sch sch' : schema) (t c : string) :
  add_column sch t c = Some sch' ->
  forall m, has_table sch' m = has_table sch m.
Proof.
  unfold has_table. revert sch'.
  induction sch as [|[name cols] sch IH]; cbn [add_column]; intros sch' H m;
    [discriminate|].
  destruct (same_name name t).
  - destruct (existsb _ cols); [discriminate|]. inversion H; subst.
    reflexivity.
  - destruct (add_column sch t c) as [rest'|]; [|discriminate].
    inversion H; subst. cbn [existsb fst].
    rewrite (IH rest' eq_refl m). reflexivity.
Qed.

Lemma add_column_info (sch sch' : schema) (t c : string) :
  add_column sch t c = Some sch' ->
  table_info sch' t = table_info sch t ++ [c]
  /\ forall m, exists extra, table_info sch' m = table_info sch m ++ extra.
Proof.
  unfold table_info. revert sch'.
  induction sch as [|[name cols] sch IH]; cbn [add_column]; intros sch' H;
    [discriminate|].
  destruct (same_name name t) eqn:Et.
  - destruct (existsb _ cols); [discriminate|]. inversion H; subst.
    cbn [find fst snd]. rewrite Et. split; [reflexivity|]. intros m.
    destruct (same_name name m); [exists [c] | exists []];
      [reflexivity | symmetry; apply app_nil_r].
  - destruct (add_column sch t c) as [rest'|]; [|discriminate].
    inversion H; subst. destruct (IH rest' eq_refl) as [Ht Hm].
    cbn [find fst snd]. rewrite Et. split; [exact Ht|]. intros m.
    destruct (same_name name m); [exists []; symmetry; apply app_nil_r|].
    exact (Hm m).
Qed.

Lemma add_column_succeeds (sch : schema) (t c : string) :
  has_table sch t = true ->
  existsb (fun c' => same_name c' c) (table_info sch t) = false ->
  exists sch', add_column sch t c = Some sch'.
Proof.
  unfold has_table, table_info.
  induction sch as [|[name cols] sch IH]; cbn [existsb find add_column fst];
    [discriminate|].
  destruct (same_name name t).
  - intros _ Hc. cbn [snd] in Hc. rewrite Hc. eexists. reflexivity.
  - cbn [orb]. intros Ht Hc. destruct (IH Ht Hc) as [rest' E]. rewrite E.
    eexists. reflexivity.
Qed.

(** The schema after the first two CREATE TABLE and the migration. *)
Lemma init_schema_steps (sch sch' : schema) :
  init_schema sch = inr sch' ->
  exists s3,
    sch' = create_table
             (create_table
                (create_table s3 "cart"
                   ["id"; "user_id"; "product_id"; "quantity"])
                "orders" ["id"; "user_id"; "total_amount"; "created_at"])
             "order_items"
             ["id"; "order_id"; "product_id"; "quantity"; "price_each"]
    /\ has_table s3 "users" = true /\ has_table s3 "products" = true
    /\ column_exists s3 "products" "image" = true
    /\ (forall m, has_table sch m = true -> has_table s3 m = true)
    /\ (forall m, has_table sch m = true ->
                  exists extra, table_info s3 m = table_info sch m ++ extra).
Proof.
  unfold init_schema. cbn zeta.
  set (s1 := create_table sch "users" _).
  set (s2 := create_table s1 "products" _).
  assert (Hu2 : has_table s2 "users" = true)
    by (apply has_table_create_mono, has_table_create_same).
  assert (Hp2 : has_table s2 "products" = true)
    by apply has_table_create_same.
  assert (Hm2 : forall m, has_table sch m = true -> has_table s2 m = true)
    by (intros m H; apply has_table_create_mono, has_table_create_mono, H).
  assert (Hi2 : forall m, has_table sch m = true ->
                          table_info s2 m = table_info sch m).
  { intros m H. unfold s2. rewrite table_info_create;
      [apply table_info_create; exact H
      | apply has_table_create_mono; exact H]. }
  destruct (column_exists s2 "products" "image") eqn:Ec; cbn [negb].
  - intros H. inversion H; subst; clear H. exists s2.
    split; [reflexivity|]. split; [exact Hu2|]. split; [exact Hp2|].
    split; [exact Ec|]. split; [exact Hm2|].
    intros m Hm. exists []. rewrite app_nil_r. apply Hi2. exact Hm.
  - unfold alter_table_add.
    destruct (add_column s2 "products" "image") as [s3|] eqn:Ea;
      [|discriminate].
    intros H. inversion H; subst; clear H. exists s3.
    pose proof (add_column_tables s2 s3 _ _ Ea) as Hnames.
    destruct (add_column_info s2 s3 _ _ Ea) as [Hinfo Hall].
    split; [reflexivity|].
    split; [rewrite Hnames; exact Hu2|].
    split; [rewrite Hnames; exact Hp2|]. split; [|split].
    + unfold column_exists. rewrite Hinfo, existsb_app. cbn.
      apply orb_true_iff. right. reflexivity.
    + intros m Hm. rewrite Hnames. apply Hm2. exact Hm.
    + intros m Hm. destruct (Hall m) as [extra E]. exists extra.
      rewrite E, (Hi2 m Hm). reflexivity.
Qed.

(** X17.  The schema part of [init_db] can be run again and again.  If it
    goes through, the five tables of the application exist, [products] has
    its [image] column, every table that was there keeps its columns in
    their order (the migration only appends), and a second run goes through
    and changes nothing: the guard of [column_exists] keeps ALTER TABLE from
    adding the column twice.  It goes through on every file whose
    [products] table has no column named image in another letter case. *)
Theorem schema_setup_is_repeatable (sch : schema) :
  (forall sch',
      init_schema sch = inr sch' ->
      Forall (fun t => has_table sch' t = true) app_tables
      /\ column_exists sch' "products" "image" = true
      /\ (forall m, has_table sch m = true ->
                    exists extra, table_info sch' m = table_info sch m ++ extra)
      /\ init_schema sch' = inr sch')
  /\ ((forall c, In c (table_info sch "products") ->
                 same_name c "image" = true -> c = "image") ->
      exists sch', init_schema sch = inr sch').
Proof.
  split.
  - intros sch' H.
    destruct (init_schema_steps sch sch' H)
      as (s3 & -> & Hu & Hp & Hc & Hmono & Hinfo).
    set (s4 := create_table s3 "cart" _).
    set (s5 := create_table s4 "orders" _).
    set (s6 := create_table s5 "order_items" _).
    assert (Hkeep : forall m, has_table s3 m = true -> has_table s6 m = true).
    { intros m Hm. unfold s6, s5, s4.
      apply has_table_create_mono, has_table_create_mono,
            has_table_create_mono, Hm. }
    assert (Hinfo6 : forall m, has_table s3 m = true ->
                               table_info s6 m = table_info s3 m).
    { intros m Hm. unfold s6, s5, s4.
      rewrite table_info_create;
        [|apply has_table_create_mono, has_table_create_mono, Hm].
      rewrite table_info_create; [|apply has_table_create_mono, Hm].
      apply table_info_create. exact Hm. }
    assert (Hcart : has_table s6 "cart" = true).
    { unfold s6, s5. apply has_table_create_mono, has_table_create_mono.
      apply has_table_create_same. }
    assert (Horders : has_table s6 "orders" = true).
    { unfold s6. apply has_table_create_mono. apply has_table_create_same. }
    assert (Hitems : has_table s6 "order_items" = true)
      by apply has_table_create_same.
    assert (Hcol : column_exists s6 "products" "image" = true).
    { unfold column_exists. rewrite (Hinfo6 _ Hp). exact Hc. }
    split; [|split; [exact Hcol|split]].
    + repeat constructor; auto.
    + intros m Hm. destruct (Hinfo m Hm) as [extra E]. exists extra.
      rewrite (Hinfo6 m (Hmono m Hm)). exact E.
    + unfold init_schema. cbn zeta.
      rewrite (create_table_present s6 "users" _ (Hkeep _ Hu)).
      rewrite (create_table_present s6 "products" _ (Hkeep _ Hp)).
      rewrite Hcol. cbn [negb].
      rewrite (create_table_present s6 "cart" _ Hcart).
      rewrite (create_table_present s6 "orders" _ Horders).
      rewrite (create_table_present s6 "order_items" _ Hitems).
      reflexivity.
  - intros Hcase. unfold init_schema. cbn zeta.
    set (s1 := create_table sch "users" _).
    set (s2 := create_table s1 "products" _).
    destruct (column_exists s2 "products" "image") eqn:Ec; cbn [negb];
      [eexists; reflexivity|].
    unfold alter_table_add.
    destruct (add_column_succeeds s2 "products" "image") as [s3 E].
    + apply has_table_create_same.
    + destruct (existsb _ (table_info s2 "products")) eqn:Ex; [|reflexivity].
      exfalso. apply existsb_exists in Ex as (c & Hin & Hc).
      assert (Hc' : c = "image").
      { unfold s2, create_table in Hin.
        destruct (has_table s1 "products") eqn:Hs1.
        - unfold s1, create_table in Hin, Hs1.
          destruct (has_table sch "users") eqn:Hs0.
          + exact (Hcase c Hin Hc).
          + assert (Hp0 : has_table sch "products" = true).
            { unfold has_table in Hs1. rewrite existsb_app in Hs1.
              cbn in Hs1. apply orb_true_iff in Hs1 as [H | H];
                [exact H | discriminate]. }
            unfold table_info in Hin.
            rewrite find_app_keep in Hin by (apply has_table_find, Hp0).
            exact (Hcase c Hin Hc).
        - unfold table_info in Hin.
          assert (Hnone : find (fun t => same_name (fst t) "products") s1
                          = None).
          { destruct (find _ s1) as [t|] eqn:Ef; [|reflexivity].
            pose proof (find_some_existsb _ _ _ Ef) as Hx.
            unfold has_table in Hs1. congruence. }
          pose proof (find_app_new
                        (fun t : string * list string =>
                           same_name (fst t) "products")
                        s1 ("products", ["id"; "name"; "price"])
                        Hnone (same_name_refl "products")) as Hnew.
          rewrite Hnew in Hin. cbn [snd In] in Hin.
          destruct Hin as [<- | [<- | [<- | []]]]; discriminate Hc. }
      subst c. unfold column_exists in Ec.
      rewrite (proj2 (existsb_exists _ _)) in Ec; [discriminate|].
      exists "image". split; [exact Hin | reflexivity].
    + rewrite E. eexists. reflexivity.
Qed.

Lemma schema_setup_is_repeatable_witness :
  (exists sch', init_schema [] = inr sch'
                /\ table_info sch' "products" = ["id"; "name"; "price"; "image"])
  /\ (exists sch', init_schema legacy_schema = inr sch'
                   /\ table_info sch' "products"
                      = ["id"; "name"; "price"; "image"]
                   /\ table_info sch' "notes" = ["id"; "text"]
                   /\ init_schema sch' = inr sch').
Proof.
  split.
  - eexists. split; vm_compute; reflexivity.
  - destruct (init_schema legacy_schema) as [x | sch'] eqn:E;
      [vm_compute in E; discriminate|].
    exists sch'.
    destruct (proj1 (schema_setup_is_repeatable legacy_schema) sch' E)
      as (_ & _ & _ & Hidem).
    assert (E' : sch' = match init_schema legacy_schema with
                        | inr s => s
                        | inl _ => []
                        end) by (rewrite E; reflexivity).
    split; [reflexivity|]. split; [|split; [|exact Hidem]].
    + rewrite E'. vm_compute. reflexivity.
    + rewrite E'. vm_compute. reflexivity.
Defined.

(** *** The store out of reach *)

Ltac outage_as E :=
  split; intros Hr; try discriminate Hr; run_handler; try rewrite E;
  run_handler;
  first [ reflexivity
        | split; [reflexivity | split; [reflexivity | discriminate]] ].

Ltac outage :=
  split; intros Hr; try discriminate Hr; run_handler;
  first [ reflexivity
        | split; [reflexivity | split; [reflexivity | discriminate]] ].

(** X18.  With the store out of reach, a request whose handler comes to a
    statement on the store is answered with the error of the store, an
    uncaught [OperationalError], and leaves database, session and flashed
    messages alone (signup catches [IntegrityError] only); every other
    request is answered exactly as with the store available, without a
    write, and never with that error: the guards of login, of the required
    fields and of [int()] come before [get_db] is used. *)
Theorem store_outage (r : request) (e : env) (d : db) :
  let o := serve (dispatch r) (store_down e) d in
  (reaches_store r e = true ->
   o = mk_outcome d (e_session e) [] (ServerError OperationalError))
  /\ (reaches_store r e = false ->
      o = serve (dispatch r) (without_fault e) d
      /\ out_db o = d
      /\ out_reply o <> ServerError OperationalError).
Proof.
  cbn zeta. destruct e as [[u sn] now f]. unfold store_down, without_fault.
  cbn [e_session e_now].
  destruct r as [ |m g|m g| | |pid|pid g| |m|o|m| | ];
    cbn [dispatch reaches_store]; unfold user_in_session;
    cbn [e_session s_user_id].
  - unfold home. outage.
  - destruct m; unfold signup; cbn zeta; [outage|].
    destruct (str_truthy (strip (form_get (f_username g) "")));
      destruct (str_truthy (strip (form_get (f_password g) "")));
      cbn [andb negb orb]; unfold except_integrity; outage.
  - destruct m; unfold login; cbn zeta; outage.
  - unfold logout. outage.
  - unfold cart. destruct u as [u|]; [destruct (u =? 0) eqn:E|];
      cbn [negb]; outage_as E.
  - unfold add_to_cart. destruct u as [u|]; [destruct (u =? 0) eqn:E|];
      cbn [negb]; outage_as E.
  - unfold update_cart, quantity_of, int_of_quantity.
    destruct u as [u|]; [destruct (u =? 0) eqn:E|]; cbn [negb andb];
      try outage_as E.
    destruct (form_get (f_quantity g) (IntOf 1)) as [z|]; [|outage_as E].
    split; [intros _ | discriminate]. run_handler. rewrite E.
    destruct (Z.max 0 z =? 0); run_handler; reflexivity.
  - unfold clear_cart. destruct u as [u|]; [destruct (u =? 0) eqn:E|];
      cbn [negb]; outage_as E.
  - unfold checkout. destruct u as [u|]; [destruct (u =? 0) eqn:E|];
      cbn [negb]; try outage_as E.
    destruct m; outage_as E.
  - unfold thank_you. outage.
  - destruct m; unfold contact; outage.
  - unfold pay. outage.
  - unfold api_products. outage.
Qed.
